(** * aws-reinvent-scheduler: the scheduling and scoring engine

    A shallow embedding of [processor/session_scorer.py],
    [scheduler/scheduling_algorithm.py], [scheduler/backup_generator.py] and
    [scheduler/conflict_resolver.py], followed by the properties of the
    engine.

    Conventions of the embedding.
    - A session is a Python dict; it is a record here, one field per key the
      engine reads or writes.  A field read with [.get(key)] is an [option]
      ([None] = key absent); a field always read with the same default
      ([score], [keywords_matched], [speakers]) holds the default when absent.
    - Python floats are exact rationals ([Q]).  The properties below are
      about orderings, clamps and table look-ups, not about rounding error.
    - Strings are ASCII strings; [str.lower], [in] and comparison follow
      Python on that range.
    - [datetime.strptime(s, '%H:%M')] yields a point of 1900-01-01; it is the
      number of minutes since midnight here, which orders and subtracts the
      same way.  A [timedelta] is a number of minutes.
    - Exceptions live in the error monad [result]; [try: ... except:] is
      [try_except]. *)

From Stdlib Require Import List String Ascii Bool Arith ZArith QArith Lia Lqa.
From Stdlib Require Import Qabs Sorted Permutation DecimalString DecimalNat OrderedTypeEx.
From ExtLib Require Import Structures.Monad Structures.MonadExc Data.Monads.EitherMonad.
Import ListNotations MonadNotation.
Local Open Scope monad_scope.
Local Open Scope string_scope.
Local Open Scope list_scope.
Local Open Scope Z_scope.

(** ** Python run-time helpers *)

Module Py.

Inductive exn := ValueError | TypeError.

Definition result : Type -> Type := sum exn.

(** [try: body / except: return handler] *)
Definition try_except {A} (body : result A) (handler : A) : A :=
  match body with inr a => a | inl _ => handler end.

(** Truth value of a [str]-or-[None]: [None] and [''] are falsy. *)
Definition truthy (o : option string) : bool :=
  match o with Some (String _ _) => true | _ => false end.

Definition nonempty (s : string) : bool :=
  match s with String _ _ => true | EmptyString => false end.

(** [o or ''] *)
Definition or_empty (o : option string) : string :=
  match o with Some s => s | None => "" end.

(** [d.get(key, default)] *)
Definition get_default (o : option string) (default : string) : string :=
  match o with Some s => s | None => default end.

(** *** str.lower, substring test *)

Definition lower_char (c : ascii) : ascii :=
  let n := nat_of_ascii c in
  if ((65 <=? n) && (n <=? 90))%nat then ascii_of_nat (n + 32) else c.

Fixpoint lower (s : string) : string :=
  match s with
  | EmptyString => EmptyString
  | String c r => String (lower_char c) (lower r)
  end.

(** [needle in hay] *)
Fixpoint str_in (needle hay : string) : bool :=
  String.prefix needle hay
  || match hay with
     | EmptyString => false
     | String _ r => str_in needle r
     end.

Definition str_eq_dec : forall a b : string, {a = b} + {a <> b} := string_dec.

Definition opt_str_eqb (a b : option string) : bool :=
  match a, b with
  | Some x, Some y => String.eqb x y
  | None, None => true
  | _, _ => false
  end.

(** *** datetime.strptime(s, '%H:%M')

    The format compiles to the regular expression
    [(?P<H>2[0-3]|[0-1]\d|\d):(?P<M>[0-5]\d|\d)], matched at the start of
    the string with ordered alternatives; text left over after the match
    is an error. *)

Definition is_digit (c : ascii) : bool :=
  ((48 <=? nat_of_ascii c) && (nat_of_ascii c <=? 57))%nat.

Definition char_between (lo hi : nat) (c : ascii) : bool :=
  ((lo <=? nat_of_ascii c) && (nat_of_ascii c <=? hi))%nat.

Definition digit (c : ascii) : Z := Z.of_nat (nat_of_ascii c) - 48.

(** Alternatives of the group [H], in the order the regex tries them. *)
Definition match_H (s : string) : list (Z * string) :=
  (match s with
   | String a (String b r) =>
       if char_between 50 50 a && char_between 48 51 b
       then [(10 * digit a + digit b, r)] else []
   | _ => []
   end)
  ++ (match s with
      | String a (String b r) =>
          if char_between 48 49 a && is_digit b
          then [(10 * digit a + digit b, r)] else []
      | _ => []
      end)
  ++ (match s with
      | String a r => if is_digit a then [(digit a, r)] else []
      | EmptyString => []
      end).

(** Alternatives of the group [M]. *)
Definition match_M (s : string) : list (Z * string) :=
  (match s with
   | String a (String b r) =>
       if char_between 48 53 a && is_digit b
       then [(10 * digit a + digit b, r)] else []
   | _ => []
   end)
  ++ (match s with
      | String a r => if is_digit a then [(digit a, r)] else []
      | EmptyString => []
      end).

Definition match_colon (s : string) : option string :=
  match s with
  | String c r => if Ascii.eqb c ":" then Some r else None
  | EmptyString => None
  end.

Fixpoint first_match {A B} (f : A -> option B) (l : list A) : option B :=
  match l with
  | [] => None
  | a :: r => match f a with Some b => Some b | None => first_match f r end
  end.

(** The match object: hour, minute and the unconsumed rest. *)
Definition regex_HM (s : string) : option (Z * Z * string) :=
  first_match
    (fun hr : Z * string =>
       match match_colon (snd hr) with
       | Some r' =>
           match match_M r' with
           | (m, r'') :: _ => Some (fst hr, m, r'')
           | [] => None
           end
       | None => None
       end)
    (match_H s).

(** Minutes since midnight. *)
Definition datetime := Z.

Definition strptime (o : option string) : result datetime :=
  match o with
  | None => raise TypeError
  | Some s =>
      match regex_HM s with
      | None => raise ValueError
      | Some (h, m, rest) =>
          if nonempty rest then raise ValueError else ret (60 * h + m)
      end
  end.

(** *** sorted / list.sort: a stable sort

    [before x y] says that [x] may stay in front of [y]; an element moves
    behind exactly the elements that must precede it, so equal keys keep
    their input order (also under [reverse=True]). *)

Section Sorting.
Context {A : Type} (before : A -> A -> bool).

Fixpoint insert (x : A) (l : list A) : list A :=
  match l with
  | [] => [x]
  | y :: r => if before x y then x :: y :: r else y :: insert x r
  end.

Fixpoint sorted (l : list A) : list A :=
  match l with
  | [] => []
  | x :: r => insert x (sorted r)
  end.
End Sorting.

Definition str_leb (a b : string) : bool := String.leb a b.

(** Order of [(str, str)] tuples. *)
Definition pair_leb (p q : string * string) : bool :=
  match String.compare (fst p) (fst q) with
  | Lt => true
  | Gt => false
  | Eq => String.leb (snd p) (snd q)
  end.

(** *** dict as an insertion-ordered association list *)

Section Dict.
Context {V : Type}.

Definition dict := list (string * V).

Fixpoint dict_get (k : string) (d : dict) : option V :=
  match d with
  | [] => None
  | (k', v) :: r => if String.eqb k k' then Some v else dict_get k r
  end.

(** [d[k] = v]: an existing key keeps its position. *)
Fixpoint dict_set (k : string) (v : V) (d : dict) : dict :=
  match d with
  | [] => [(k, v)]
  | (k', v') :: r =>
      if String.eqb k k' then (k, v) :: r else (k', v') :: dict_set k v r
  end.

Definition dict_values (d : dict) : list V := map snd d.
Definition dict_keys (d : dict) : list string := map fst d.
End Dict.
Arguments dict V : clear implicits.

(** [d[k] = d.get(k, 0) + n] *)
Definition dict_add (k : string) (n : Z) (d : dict Z) : dict Z :=
  dict_set k (match dict_get k d with Some c => c + n | None => n end) d.

(** *** round(x, ndigits): round half to even

    On the exact rational.  Python rounds the double nearest to the value,
    so the two can differ where the exact value is a decimal tie (an exact
    0.05 rounds to 0 here, the double 0.05 lies above the tie and rounds to
    0.1).  The properties use [round] only through bounds that hold of
    both, or at values that are no tie. *)

Definition round_half_even (x : Q) : Z :=
  let n := Qnum x in
  let d := Z.pos (Qden x) in
  let fl := n / d in
  let r := n mod d in
  match Z.compare (2 * r) d with
  | Lt => fl
  | Gt => fl + 1
  | Eq => if Z.even fl then fl else fl + 1
  end.

Definition round (x : Q) (ndigits : nat) : Q :=
  let p := Z.pow 10 (Z.of_nat ndigits) in
  Qmake (round_half_even (x * inject_Z p)%Q) (Z.to_pos p).

(** [l[:n]] for any integer [n]: a negative [n] counts from the end. *)
Definition slice_to {A} (l : list A) (n : Z) : list A :=
  if n <? 0 then firstn (Z.to_nat (Z.of_nat (List.length l) + n)) l
  else firstn (Z.to_nat n) l.

(** [str(n)] for a natural number. *)
Definition str_of_nat (n : nat) : string :=
  NilEmpty.string_of_uint (Nat.to_uint n).

Definition Qltb (a b : Q) : bool := negb (Qle_bool b a).
Definition Qmax (a b : Q) : Q := if Qltb a b then b else a.
Definition Qmin (a b : Q) : Q := if Qltb b a then b else a.

(** [str(n)] for an integer. *)
Definition str_of_Z (z : Z) : string :=
  if z <? 0 then ("-" ++ str_of_nat (Z.to_nat (- z)))%string
  else str_of_nat (Z.to_nat z).

(** [s[:n]] for a string and [n >= 0]. *)
Fixpoint str_take (n : nat) (s : string) : string :=
  match n, s with
  | S n', String c r => String c (str_take n' r)
  | _, _ => EmptyString
  end.

(** [min(l)] and [max(l)] of a non-empty list, given its head and tail:
    the first smallest, the first largest. *)
Definition min_list (x : Q) (l : list Q) : Q :=
  fold_left (fun m y => if Qltb y m then y else m) l x.

Definition max_list (x : Q) (l : list Q) : Q :=
  fold_left (fun m y => if Qltb m y then y else m) l x.

(** [len([x for x in l if f(x)])] *)
Definition count {A} (f : A -> bool) (l : list A) : Z :=
  Z.of_nat (List.length (filter f l)).

End Py.

Import Py.

(** ** config.py *)

Module Config.
Record t := {
  LUNCH_BREAK_START : string;
  LUNCH_BREAK_END : string;
  BUFFER_MINUTES : Z;
  MIN_BACKUP_SESSIONS : Z;
  MAX_SESSIONS_PER_DAY : Z   (* int(os.getenv('MAX_SESSIONS_PER_DAY', '8')) *)
}.

(** The class as written, with the environment variable unset. *)
Definition default : t := {|
  LUNCH_BREAK_START := "11:00";
  LUNCH_BREAK_END := "13:00";
  BUFFER_MINUTES := 30;
  MIN_BACKUP_SESSIONS := 2;
  MAX_SESSIONS_PER_DAY := 8
|}.
End Config.

(** ** Data model *)

Record Weights := {
  keyword_relevance : Q;
  session_level : Q;
  venue_convenience : Q;
  speaker_reputation : Q;
  session_uniqueness : Q
}.

Record ComponentScores := {
  keyword_score : Q;
  level_score : Q;
  venue_score : Q;
  speaker_score : Q;
  uniqueness_score : Q
}.

Record ScoreBreakdown := {
  total_score : Q;
  component_scores : ComponentScores;
  weights_used : Weights
}.

Record Session := {
  session_id : option string;
  title : option string;
  description : option string;
  date : option string;
  start_time : option string;
  end_time : option string;
  venue : option string;
  level : option string;
  speakers : list string;          (* session.get('speakers') or [] *)
  keywords_matched : list string;  (* session.get('keywords_matched', []) *)
  score : Q;                       (* session.get('score', 0) *)
  score_breakdown : option ScoreBreakdown;
  time_slot : option string;
  scheduled_start : option string;
  scheduled_end : option string;
  backup_score : option Q
}.

Record TimeSlot := {
  slot_id : string;
  slot_start_time : string;
  slot_end_time : string;
  slot_date : string;
  is_lunch_break : bool;
  buffer_before : Z;
  buffer_after : Z
}.

(** [s = session.copy(); s['score'] = ...; s['score_breakdown'] = ...] *)
Definition with_score (s : Session) (b : ScoreBreakdown) : Session := {|
  session_id := session_id s; title := title s; description := description s;
  date := date s; start_time := start_time s; end_time := end_time s;
  venue := venue s; level := level s; speakers := speakers s;
  keywords_matched := keywords_matched s;
  score := total_score b;
  score_breakdown := Some b;
  time_slot := time_slot s; scheduled_start := scheduled_start s;
  scheduled_end := scheduled_end s; backup_score := backup_score s
|}.

(** [s = best_session.copy()] with the three slot annotations set. *)
Definition with_slot (s : Session) (slot : TimeSlot) : Session := {|
  session_id := session_id s; title := title s; description := description s;
  date := date s; start_time := start_time s; end_time := end_time s;
  venue := venue s; level := level s; speakers := speakers s;
  keywords_matched := keywords_matched s;
  score := score s; score_breakdown := score_breakdown s;
  time_slot := Some (slot_id slot);
  scheduled_start := Some (slot_start_time slot);
  scheduled_end := Some (slot_end_time slot);
  backup_score := backup_score s
|}.

(** [c = candidate.copy(); c['backup_score'] = q] *)
Definition with_backup_score (s : Session) (q : Q) : Session := {|
  session_id := session_id s; title := title s; description := description s;
  date := date s; start_time := start_time s; end_time := end_time s;
  venue := venue s; level := level s; speakers := speakers s;
  keywords_matched := keywords_matched s;
  score := score s; score_breakdown := score_breakdown s;
  time_slot := time_slot s; scheduled_start := scheduled_start s;
  scheduled_end := scheduled_end s;
  backup_score := Some q
|}.

(** ** processor/session_scorer.py *)

Module SessionScorer.

Record t := {
  scoring_weights : Weights;
  venue_convenience_scores : dict Q;
  level_scores : dict Q
}.

(** The attributes the constructor body assigns. *)
Definition attributes : t :=
  {|
    scoring_weights := {|
      keyword_relevance := 0.40;
      session_level := 0.20;
      venue_convenience := 0.20;
      speaker_reputation := 0.10;
      session_uniqueness := 0.10
    |};
    venue_convenience_scores := [
      ("venetian", 0.9); ("palazzo", 0.9); ("wynn", 0.8); ("encore", 0.8);
      ("aria", 0.7); ("bellagio", 0.7); ("caesars", 0.6); ("mirage", 0.6);
      ("treasure island", 0.5); ("flamingo", 0.5); ("linq", 0.4);
      ("paris", 0.4); ("bally", 0.3); ("harrah", 0.3); ("rio", 0.2);
      ("orleans", 0.2); ("mgm grand", 0.0); ("mandalay bay", 0.0)
    ]%Q;
    level_scores := [
      ("beginner", 0.6); ("intermediate", 1.0); ("advanced", 0.8);
      ("expert", 0.7)
    ]%Q
  |}%Q.

(** The constructor takes no argument besides [self] and has no [raise]. *)
Definition __init__ (_ : unit) : result t := ret attributes.

Definition _score_keyword_relevance (self : t) (session : Session) : Q :=
  let matched_keywords := keywords_matched session in
  match matched_keywords with
  | [] => 0.0
  | _ =>
      let base_score := 0.5 in
      let match_bonus :=
        Qmin 0.3 (inject_Z (Z.of_nat (List.length matched_keywords)) * 0.1) in
      let title := lower (get_default (title session) "") in
      let title_bonus :=
        fold_left
          (fun acc keyword => if str_in keyword title then acc + 0.1 else acc)
          matched_keywords 0.0 in
      let title_bonus := Qmin 0.2 title_bonus in
      Qmin 1.0 (base_score + match_bonus + title_bonus)
  end%Q.

Definition _score_session_level (self : t) (session : Session) : Q :=
  let level := lower (or_empty (level session)) in
  if negb (nonempty level) then 0.5%Q
  else match dict_get level (level_scores self) with
       | Some q => q
       | None => 0.5%Q
       end.

Definition _score_venue_convenience (self : t) (session : Session) : Q :=
  let venue := lower (or_empty (venue session)) in
  if negb (nonempty venue) then 0.5%Q
  else
    fold_left
      (fun best_score entry =>
         if str_in (fst entry) venue then Qmax best_score (snd entry)
         else best_score)
      (venue_convenience_scores self) 0.5%Q.

Definition _score_speaker_reputation (self : t) (session : Session) : Q :=
  let speakers := speakers session in
  match speakers with
  | [] => 0.5
  | _ =>
      let speaker_count_bonus :=
        Qmin 0.3 (inject_Z (Z.of_nat (List.length speakers)) * 0.1) in
      let aws_bonus :=
        fold_left
          (fun acc speaker =>
             let speaker_lower := lower speaker in
             if existsb (fun indicator => str_in indicator speaker_lower)
                  ["aws"; "amazon"; "principal"; "senior"]
             then acc + 0.1 else acc)
          speakers 0.0 in
      let aws_bonus := Qmin 0.2 aws_bonus in
      Qmin 1.0 (0.5 + speaker_count_bonus + aws_bonus)
  end%Q.

Definition unique_indicators : list string :=
  ["new"; "preview"; "announcement"; "launch"; "exclusive";
   "deep dive"; "hands-on"; "workshop"; "lab"; "demo";
   "case study"; "real-world"; "production"; "scale"].

Definition _score_session_uniqueness (self : t) (session : Session) : Q :=
  let title := lower (get_default (title session) "") in
  let description := lower (or_empty (description session)) in
  (let uniqueness_score :=
     fold_left
       (fun acc indicator =>
          if str_in indicator title then acc + 0.1
          else if str_in indicator description then acc + 0.05
          else acc)
       unique_indicators 0.5 in
   Qmin 1.0 uniqueness_score)%Q.

Definition _calculate_session_score (self : t) (session : Session)
  : ScoreBreakdown :=
  let scores := {|
    keyword_score := _score_keyword_relevance self session;
    level_score := _score_session_level self session;
    venue_score := _score_venue_convenience self session;
    speaker_score := _score_speaker_reputation self session;
    uniqueness_score := _score_session_uniqueness self session
  |} in
  let w := scoring_weights self in
  let total :=
    (keyword_score scores * keyword_relevance w
     + level_score scores * session_level w
     + venue_score scores * venue_convenience w
     + speaker_score scores * speaker_reputation w
     + uniqueness_score scores * session_uniqueness w)%Q in
  {| total_score := round total 3;
     component_scores := scores;
     weights_used := scoring_weights self |}.

Definition score_desc (a b : Session) : bool := Qle_bool (score b) (score a).

Definition score_sessions (self : t) (sessions : list Session)
  : list Session :=
  let scored_sessions :=
    map (fun session => with_score session (_calculate_session_score self session))
        sessions in
  sorted score_desc scored_sessions.

Definition get_top_sessions (self : t) (sessions : list Session) (count : Z)
  : list Session :=
  slice_to (sorted score_desc sessions) count.

Definition get_sessions_by_score_range (self : t) (sessions : list Session)
    (min_score max_score : Q) : list Session :=
  filter (fun s => Qle_bool min_score (score s) && Qle_bool (score s) max_score)
         sessions.

Record ScoreDistribution := {
  high : Z;     (* 'high (0.8-1.0)' *)
  medium : Z;   (* 'medium (0.6-0.8)' *)
  low : Z       (* 'low (0.0-0.6)' *)
}.

Record ScoringStatistics := {
  total_sessions : Z;
  average_score : Q;
  min_score : Q;
  max_score : Q;
  score_distribution : ScoreDistribution
}.

(** [None] stands for the empty dict returned for no sessions. *)
Definition get_scoring_statistics (self : t) (sessions : list Session)
  : option ScoringStatistics :=
  match map score sessions with
  | [] => None
  | x :: r =>
      let scores := x :: r in
      Some {|
        total_sessions := Z.of_nat (List.length sessions);
        average_score :=
          (fold_left Qplus scores 0 / inject_Z (Z.of_nat (List.length scores)))%Q;
        min_score := min_list x r;
        max_score := max_list x r;
        score_distribution := {|
          high := count (fun s => Qle_bool 0.8 s) scores;
          medium := count (fun s => Qle_bool 0.6 s && Qltb s 0.8) scores;
          low := count (fun s => Qltb s 0.6) scores
        |}
      |}
  end.

End SessionScorer.

(** ** scheduler/backup_generator.py *)

Module BackupGenerator.

Record t := { min_backup_sessions : Z }.

Definition __init__ (cfg : Config.t) : t :=
  {| min_backup_sessions := Config.MIN_BACKUP_SESSIONS cfg |}.

Definition _times_are_compatible (self : t)
    (session_start session_end slot_start slot_end : option string) : bool :=
  try_except
    (s_start <- strptime session_start ;;
     s_end <- strptime session_end ;;
     slot_s <- strptime slot_start ;;
     slot_e <- strptime slot_end ;;
     let flexibility_minutes := 30 in
     let flex := flexibility_minutes in
     (* total_seconds() on both sides *)
     let start_compatible := Z.abs ((s_start - slot_s) * 60) <=? flex * 60 in
     let end_compatible := Z.abs ((s_end - slot_e) * 60) <=? flex * 60 in
     ret (start_compatible && end_compatible))
    false.

Definition _session_fits_slot (self : t) (session : Session)
    (slot_start slot_end : string) : bool :=
  let session_start := start_time session in
  let session_end := end_time session in
  if negb (truthy session_start) || negb (truthy session_end) then false
  else _times_are_compatible self session_start session_end
         (Some slot_start) (Some slot_end).

Definition id_in (i : option string) (ids : list (option string)) : bool :=
  existsb (opt_str_eqb i) ids.

Definition _find_candidate_sessions (self : t) (all_sessions : list Session)
    (slot_start slot_end : string) (exclude_ids : list (option string))
  : list Session :=
  fold_left
    (fun candidates session =>
       let session_id := session_id session in
       if id_in session_id exclude_ids then candidates
       else if _session_fits_slot self session slot_start slot_end
            then candidates ++ [session]
            else candidates)
    all_sessions [].

Definition _calculate_time_compatibility_bonus (self : t)
    (session : Session) (slot : TimeSlot) : Q :=
  let session_start := start_time session in
  let session_end := end_time session in
  let slot_start := slot_start_time slot in
  let slot_end := slot_end_time slot in
  if negb (truthy session_start) || negb (truthy session_end) then 0.0%Q
  else
    try_except
      (s_start <- strptime session_start ;;
       s_end <- strptime session_end ;;
       slot_s <- strptime (Some slot_start) ;;
       slot_e <- strptime (Some slot_end) ;;
       (* total_seconds() / 60 *)
       let start_diff := Qabs (inject_Z ((s_start - slot_s) * 60) / 60) in
       let end_diff := Qabs (inject_Z ((s_end - slot_e) * 60) / 60) in
       let max_bonus := 0.2 in
       let start_bonus := Qmax 0 (max_bonus - (start_diff / 60) * 0.1) in
       let end_bonus := Qmax 0 (max_bonus - (end_diff / 60) * 0.1) in
       ret ((start_bonus + end_bonus) / 2))%Q
      0.0%Q.

Definition high_value_keywords : list string :=
  ["ai"; "architect"; "lakehouse"; "devops"].

Definition _calculate_diversity_bonus (self : t) (session : Session) : Q :=
  let keywords := keywords_matched session in
  (let keyword_bonus :=
     Qmin 0.1 (inject_Z (Z.of_nat (List.length keywords)) * 0.03) in
   let high_value_bonus :=
     fold_left
       (fun acc keyword =>
          if existsb (String.eqb (lower keyword)) high_value_keywords
          then acc + 0.02 else acc)
       keywords 0.0 in
   Qmin 0.15 (keyword_bonus + high_value_bonus))%Q.

Definition venue_scores : dict Q :=
  [("venetian", 0.1); ("palazzo", 0.1); ("wynn", 0.08); ("encore", 0.08);
   ("aria", 0.06); ("bellagio", 0.06); ("caesars", 0.04); ("mirage", 0.04)]%Q.

Definition _calculate_venue_bonus (self : t) (session : Session) : Q :=
  let venue := lower (get_default (venue session) "") in
  match find (fun entry => str_in (fst entry) venue) venue_scores with
  | Some entry => snd entry
  | None => 0.02%Q
  end.

Definition _calculate_backup_score (self : t) (session : Session)
    (slot : TimeSlot) : Q :=
  (let base_score := score session * 0.7 in
   let time_bonus := _calculate_time_compatibility_bonus self session slot in
   let diversity_bonus := _calculate_diversity_bonus self session in
   let venue_bonus := _calculate_venue_bonus self session in
   let total_score := base_score + time_bonus + diversity_bonus + venue_bonus in
   Qmin 1.0 total_score)%Q.

(** The sort key [x['backup_score']], present on every ranked copy. *)
Definition backup_key (s : Session) : Q :=
  match backup_score s with Some q => q | None => 0 end.

Definition backup_desc (a b : Session) : bool :=
  Qle_bool (backup_key b) (backup_key a).

Definition _rank_backup_candidates (self : t) (candidates : list Session)
    (slot : TimeSlot) : list Session :=
  match candidates with
  | [] => []
  | _ =>
      let scored_candidates :=
        map (fun candidate =>
               with_backup_score candidate
                 (_calculate_backup_score self candidate slot))
            candidates in
      sorted backup_desc scored_candidates
  end.

Definition generate_backups (self : t) (all_sessions primary_sessions : list Session)
    (time_slots : list TimeSlot) : dict (list Session) :=
  let primary_session_ids := map session_id primary_sessions in
  fold_left
    (fun backup_sessions slot =>
       let slot_id := slot_id slot in
       let slot_start := slot_start_time slot in
       let slot_end := slot_end_time slot in
       let candidate_sessions :=
         _find_candidate_sessions self all_sessions slot_start slot_end
           primary_session_ids in
       let ranked_backups :=
         _rank_backup_candidates self candidate_sessions slot in
       let selected_backups :=
         slice_to ranked_backups (Z.max (min_backup_sessions self) 3) in
       dict_set slot_id selected_backups backup_sessions)
    time_slots [].

Record BackupScoreDistribution := {
  dist_high : Z;
  dist_medium : Z;
  dist_low : Z
}.

Record BackupStatistics := {
  total_backup_sessions : Z;
  slots_with_backups : Z;
  average_backups_per_slot : Q;
  slots_meeting_minimum : Z;
  backup_score_distribution : BackupScoreDistribution;
  keyword_coverage : dict Z
}.

Definition Zsum (l : list Z) : Z := fold_left Z.add l 0.

Definition pool_nonempty (backups : list Session) : bool :=
  match backups with [] => false | _ => true end.

Definition get_backup_statistics (self : t)
    (backup_sessions : dict (list Session)) : BackupStatistics :=
  let total :=
    Zsum (map (fun backups => Z.of_nat (List.length backups))
            (dict_values backup_sessions)) in
  let with_backups := count pool_nonempty (dict_values backup_sessions) in
  match backup_sessions with
  | [] =>
      {| total_backup_sessions := total;
         slots_with_backups := with_backups;
         average_backups_per_slot := 0;
         slots_meeting_minimum := 0;
         backup_score_distribution :=
           {| dist_high := 0; dist_medium := 0; dist_low := 0 |};
         keyword_coverage := [] |}
  | _ =>
      let backup_counts :=
        map (fun backups => Z.of_nat (List.length backups))
          (dict_values backup_sessions) in
      let all_backups := List.concat (dict_values backup_sessions) in
      {| total_backup_sessions := total;
         slots_with_backups := with_backups;
         average_backups_per_slot :=
           (inject_Z (Zsum backup_counts)
            / inject_Z (Z.of_nat (List.length backup_counts)))%Q;
         slots_meeting_minimum :=
           count (fun backups =>
                    min_backup_sessions self <=? Z.of_nat (List.length backups))
             (dict_values backup_sessions);
         backup_score_distribution :=
           fold_left
             (fun d backup =>
                let score := backup_key backup in
                if Qle_bool 0.7 score
                then {| dist_high := dist_high d + 1; dist_medium := dist_medium d;
                        dist_low := dist_low d |}
                else if Qle_bool 0.5 score
                     then {| dist_high := dist_high d;
                             dist_medium := dist_medium d + 1;
                             dist_low := dist_low d |}
                     else {| dist_high := dist_high d; dist_medium := dist_medium d;
                             dist_low := dist_low d + 1 |})
             all_backups {| dist_high := 0; dist_medium := 0; dist_low := 0 |};
         keyword_coverage :=
           fold_left
             (fun kc backup =>
                fold_left (fun k keyword => dict_add keyword 1 k)
                  (keywords_matched backup) kc)
             all_backups [] |}
  end.

End BackupGenerator.

(** ** scheduler/conflict_resolver.py *)

Module ConflictResolver.

Record t := { buffer_minutes : Z }.

Definition __init__ (_ : unit) : t := {| buffer_minutes := 30 |}.

Definition _sessions_conflict (self : t)
    (start1 end1 start2 end2 : option string) : bool :=
  try_except
    (s1 <- strptime start1 ;;
     e1 <- strptime end1 ;;
     s2 <- strptime start2 ;;
     e2 <- strptime end2 ;;
     let buffer := buffer_minutes self in
     let e1_with_buffer := e1 + buffer in
     let e2_with_buffer := e2 + buffer in
     ret ((s1 <? e2_with_buffer) && (s2 <? e1_with_buffer)))
    false.

(** [_reschedule_session] only prints and returns [None]. *)
Definition _reschedule_session (self : t) (session : Session)
    (scheduled_sessions : list Session) : option Session := None.

(** Sort key [x.get('scheduled_start', '00:00')]. *)
Definition start_key (s : Session) : string :=
  get_default (scheduled_start s) "00:00".

Definition by_start (a b : Session) : bool :=
  str_leb (start_key a) (start_key b).

(** One iteration of the scan over the sorted sessions. *)
Definition resolve_step (self : t) (resolved_sessions : list Session)
    (session : Session) : list Session :=
  let current_start := scheduled_start session in
  let current_end := scheduled_end session in
  if negb (truthy current_start) || negb (truthy current_end)
  then resolved_sessions ++ [session]
  else
    let has_conflict :=
      existsb
        (fun prev_session =>
           let prev_start := scheduled_start prev_session in
           let prev_end := scheduled_end prev_session in
           _sessions_conflict self current_start current_end prev_start prev_end)
        resolved_sessions in
    if negb has_conflict then resolved_sessions ++ [session]
    else
      match _reschedule_session self session resolved_sessions with
      | Some rescheduled_session => resolved_sessions ++ [rescheduled_session]
      | None => resolved_sessions
      end.

Definition _resolve_time_conflicts (self : t) (sessions : list Session)
  : list Session :=
  match sessions with
  | [] => sessions
  | _ =>
      let sorted_sessions := sorted by_start sessions in
      fold_left (resolve_step self) sorted_sessions []
  end.

Definition primary_times (primary_sessions : list Session)
  : list (option string * option string) :=
  fold_left
    (fun acc session =>
       let start_time := scheduled_start session in
       let end_time := scheduled_end session in
       if truthy start_time && truthy end_time
       then acc ++ [(start_time, end_time)] else acc)
    primary_sessions [].

Definition validate_slot_backups (self : t)
    (times : list (option string * option string)) (backups : list Session)
  : list Session :=
  fold_left
    (fun validated_slot_backups backup =>
       let backup_start := start_time backup in
       let backup_end := end_time backup in
       if negb (truthy backup_start) || negb (truthy backup_end)
       then validated_slot_backups
       else
         let conflicts_with_primary :=
           existsb
             (fun pt =>
                _sessions_conflict self backup_start backup_end (fst pt) (snd pt))
             times in
         if negb conflicts_with_primary
         then validated_slot_backups ++ [backup]
         else validated_slot_backups)
    backups [].

Definition _validate_backup_sessions (self : t) (primary_sessions : list Session)
    (backup_sessions : dict (list Session)) : dict (list Session) :=
  let times := primary_times primary_sessions in
  fold_left
    (fun validated_backups entry =>
       dict_set (fst entry) (validate_slot_backups self times (snd entry))
         validated_backups)
    backup_sessions [].

(** [_reduce_venue_transitions] returns its first argument. *)
Definition _reduce_venue_transitions (self : t) (primary_sessions : list Session)
    (backup_sessions : dict (list Session)) : list Session :=
  primary_sessions.

Record Resolved := {
  primary : list Session;
  backups : dict (list Session);
  optimization_applied : bool
}.

(** The venue-transition report of [conflicts_resolved] is text for the
    report generator; only the flag derived from the two lists is kept. *)
Definition _optimize_venue_proximity (self : t) (primary_sessions : list Session)
    (backup_sessions : dict (list Session)) : Resolved :=
  let sorted_primary := sorted by_start primary_sessions in
  let optimized_primary :=
    _reduce_venue_transitions self sorted_primary backup_sessions in
  {| primary := optimized_primary;
     backups := backup_sessions;
     optimization_applied :=
       negb (Nat.eqb (List.length optimized_primary) (List.length sorted_primary)) |}.

Definition resolve_conflicts (self : t) (primary_sessions : list Session)
    (backup_sessions : dict (list Session)) (time_slots : list TimeSlot)
  : Resolved :=
  let resolved_primary := _resolve_time_conflicts self primary_sessions in
  let validated_backups :=
    _validate_backup_sessions self resolved_primary backup_sessions in
  _optimize_venue_proximity self resolved_primary validated_backups.

Record Transition := {
  from_venue : string;
  to_venue : string;
  from_session : string;
  to_session : string;
  time_gap : Z
}.

Definition _calculate_time_gap (self : t) (end_time start_time : option string)
  : Z :=
  try_except
    (end_ <- strptime end_time ;;
     start <- strptime start_time ;;
     (* start.replace(day=start.day + 1): one day later *)
     let start := if start <? end_ then start + 24 * 60 else start in
     let gap := start - end_ in
     (* int(gap.total_seconds() / 60) *)
     ret (Z.quot (gap * 60) 60))
    0.

(** [for i in range(len(sessions) - 1)]: the pairs of neighbours. *)
Fixpoint _calculate_venue_transitions (self : t) (sessions : list Session)
  : list Transition :=
  match sessions with
  | current :: (next :: _) as rest =>
      let current_venue := get_default (venue current) "Unknown" in
      let next_venue := get_default (venue next) "Unknown" in
      (if negb (String.eqb current_venue next_venue)
       then [{| from_venue := current_venue;
                to_venue := next_venue;
                from_session := str_take 30 (get_default (title current) "Unknown");
                to_session := str_take 30 (get_default (title next) "Unknown");
                time_gap :=
                  _calculate_time_gap self
                    (Some (get_default (scheduled_end current) "00:00"))
                    (Some (get_default (scheduled_start next) "00:00")) |}]
       else [])
      ++ _calculate_venue_transitions self rest
  | _ => []
  end.

(** The value under ['conflicts_resolved'] in the result of
    [resolve_conflicts]. *)
Record ConflictsResolved := {
  venue_transitions : list Transition;
  cr_optimization_applied : bool
}.

Definition conflicts_resolved (self : t) (primary_sessions : list Session)
    (backup_sessions : dict (list Session)) (time_slots : list TimeSlot)
  : ConflictsResolved :=
  let resolved_primary := _resolve_time_conflicts self primary_sessions in
  let sorted_primary := sorted by_start resolved_primary in
  {| venue_transitions := _calculate_venue_transitions self sorted_primary;
     cr_optimization_applied :=
       optimization_applied
         (resolve_conflicts self primary_sessions backup_sessions time_slots) |}.

Record ConflictReport := {
  total_venue_transitions : Z;
  venue_transition_details : list Transition;
  report_optimization_applied : bool;
  recommendations : list string
}.

Definition get_conflict_report (self : t) (resolved : ConflictsResolved)
  : ConflictReport :=
  let venue_transitions := venue_transitions resolved in
  let recommendations :=
    if Z.of_nat (List.length venue_transitions) >? 3
    then ["Consider grouping sessions by venue to reduce travel time"]
    else [] in
  let recommendations :=
    fold_left
      (fun recs transition =>
         if time_gap transition <? 30
         then recs ++ [("Short transition time ("
                        ++ str_of_Z (time_gap transition) ++ " min) between "
                        ++ from_venue transition ++ " and "
                        ++ to_venue transition)%string]
         else recs)
      venue_transitions recommendations in
  {| total_venue_transitions := Z.of_nat (List.length venue_transitions);
     venue_transition_details := venue_transitions;
     report_optimization_applied := cr_optimization_applied resolved;
     recommendations := recommendations |}.

End ConflictResolver.

(** ** scheduler/scheduling_algorithm.py *)

Record Statistics := {
  stat_total_sessions : Z;
  stat_scheduled_sessions : Z;
  stat_backup_sessions : Z;
  stat_average_score : Q;
  stat_venue_distribution : dict Z;
  stat_keyword_coverage : dict Z
}.

Record DailySchedule := {
  primary_sessions : list Session;
  backup_sessions : dict (list Session);
  blocked_times : list string;
  time_slots : list TimeSlot;
  statistics : Statistics
}.

Record Summary := {
  total_conference_days : Z;
  total_scheduled_sessions : Z;
  total_backup_sessions : Z;
  average_session_score : Q;
  overall_venue_distribution : dict Z;
  overall_keyword_coverage : dict Z;
  schedule_efficiency : Q
}.

(** A value of the schedule dict: a day, or the entry under ['summary']. *)
Inductive ScheduleEntry :=
| Day (d : DailySchedule)
| SummaryEntry (s : Summary).

Module SchedulingAlgorithm.

Record t := {
  conflict_resolver : ConflictResolver.t;
  backup_generator : BackupGenerator.t;
  lunch_start : Z;   (* a [time], as minutes since midnight *)
  lunch_end : Z;
  buffer_minutes : Z;
  max_sessions_per_day : Z
}.

Definition __init__ (cfg : Config.t) : result t :=
  ls <- strptime (Some (Config.LUNCH_BREAK_START cfg)) ;;
  le <- strptime (Some (Config.LUNCH_BREAK_END cfg)) ;;
  ret {| conflict_resolver := ConflictResolver.__init__ tt;
         backup_generator := BackupGenerator.__init__ cfg;
         lunch_start := ls;
         lunch_end := le;
         buffer_minutes := Config.BUFFER_MINUTES cfg;
         max_sessions_per_day := Config.MAX_SESSIONS_PER_DAY cfg |}.

Definition _is_lunch_time (self : t) (start_time end_time : string) : bool :=
  try_except
    (start <- strptime (Some start_time) ;;
     end_ <- strptime (Some end_time) ;;
     ret ((start <? lunch_end self) && (end_ >? lunch_start self)))
    false.

Definition _times_overlap (self : t) (start1 end1 start2 end2 : string) : bool :=
  try_except
    (s1 <- strptime (Some start1) ;;
     e1 <- strptime (Some end1) ;;
     s2 <- strptime (Some start2) ;;
     e2 <- strptime (Some end2) ;;
     ret ((s1 <? e2) && (s2 <? e1)))
    false.

(** The [(start_time, end_time)] tuples of the sessions that have both. *)
Definition session_times (sessions : list Session) : list (string * string) :=
  fold_left
    (fun acc session =>
       let start_time := start_time session in
       let end_time := end_time session in
       if truthy start_time && truthy end_time
       then acc ++ [(or_empty start_time, or_empty end_time)] else acc)
    sessions [].

(** One iteration of the loop that creates the slots. *)
Definition slot_step (self : t) (date : string) (time_slots : list TimeSlot)
    (range : string * string) : list TimeSlot :=
  let start_time := fst range in
  let end_time := snd range in
  if _is_lunch_time self start_time end_time then time_slots
  else
    let conflicts_with_existing :=
      existsb
        (fun existing_slot =>
           _times_overlap self start_time end_time
             (slot_start_time existing_slot) (slot_end_time existing_slot))
        time_slots in
    if negb conflicts_with_existing
    then time_slots ++ [{|
           slot_id := ("slot_" ++ str_of_nat (List.length time_slots + 1))%string;
           slot_start_time := start_time;
           slot_end_time := end_time;
           slot_date := date;
           is_lunch_break := false;
           buffer_before := buffer_minutes self;
           buffer_after := buffer_minutes self |}]
    else time_slots.

Definition _generate_time_slots (self : t) (sessions : list Session)
    (date : string) : list TimeSlot :=
  let session_times := session_times sessions in
  match session_times with
  | [] => []
  | _ =>
      let session_times := sorted pair_leb session_times in
      let time_slots := fold_left (slot_step self date) session_times [] in
      slice_to time_slots (max_sessions_per_day self)
  end.

(** The inner loop: the best not-yet-used session with the slot's times. *)
Definition best_for_slot (sessions : list Session) (slot : TimeSlot)
    (used_sessions : list (option string)) : option Session * Q :=
  fold_left
    (fun (best : option Session * Q) session =>
       let session_id := session_id session in
       if BackupGenerator.id_in session_id used_sessions then best
       else if opt_str_eqb (start_time session) (Some (slot_start_time slot))
               && opt_str_eqb (end_time session) (Some (slot_end_time slot))
            then
              let score := score session in
              if Qltb (snd best) score then (Some session, score) else best
            else best)
    sessions (None, (-1)%Q).

(** One iteration of the loop over the slots.  [if best_session:] holds for
    every session found: its dict has at least the two time keys. *)
Definition primary_step (sessions : list Session)
    (state : list Session * list (option string)) (slot : TimeSlot)
  : list Session * list (option string) :=
  let (primary_sessions, used_sessions) := state in
  match fst (best_for_slot sessions slot used_sessions) with
  | Some best_session =>
      let scheduled_session := with_slot best_session slot in
      (primary_sessions ++ [scheduled_session],
       session_id best_session :: used_sessions)
  | None => state
  end.

Definition _schedule_primary_sessions (self : t) (sessions : list Session)
    (time_slots : list TimeSlot) : list Session :=
  fst (fold_left (primary_step sessions) time_slots ([], [])).

Definition _calculate_keyword_coverage (self : t) (sessions : list Session)
  : dict Z :=
  fold_left
    (fun keyword_counts session =>
       fold_left (fun kc keyword => dict_add keyword 1 kc)
         (keywords_matched session) keyword_counts)
    sessions [].

Definition Qsum (l : list Q) : Q := fold_left Qplus l 0%Q.

Definition _calculate_daily_statistics (self : t)
    (all_sessions primary_sessions : list Session)
    (backup_sessions : dict (list Session)) : Statistics :=
  let total_backups :=
    fold_left Z.add
      (map (fun backups => Z.of_nat (List.length backups)) (dict_values backup_sessions))
      0 in
  let primary_scores := map score primary_sessions in
  let avg_score :=
    match primary_scores with
    | [] => 0%Q
    | _ => (Qsum primary_scores / inject_Z (Z.of_nat (List.length primary_scores)))%Q
    end in
  let venues := map (fun s => get_default (venue s) "Unknown") primary_sessions in
  let venue_counts := fold_left (fun vc venue => dict_add venue 1 vc) venues [] in
  {| stat_total_sessions := Z.of_nat (List.length all_sessions);
     stat_scheduled_sessions := Z.of_nat (List.length primary_sessions);
     stat_backup_sessions := total_backups;
     stat_average_score := round avg_score 3;
     stat_venue_distribution := venue_counts;
     stat_keyword_coverage := _calculate_keyword_coverage self primary_sessions |}.

Definition blocked (cfg : Config.t) : list string :=
  [(Config.LUNCH_BREAK_START cfg ++ "-" ++ Config.LUNCH_BREAK_END cfg)%string].

Definition _create_daily_schedule (self : t) (cfg : Config.t)
    (sessions : list Session) (date : string) : DailySchedule :=
  let sorted_sessions := sorted SessionScorer.score_desc sessions in
  let time_slots := _generate_time_slots self sorted_sessions date in
  let primary_sessions :=
    _schedule_primary_sessions self sorted_sessions time_slots in
  let backup_sessions :=
    BackupGenerator.generate_backups (backup_generator self)
      sorted_sessions primary_sessions time_slots in
  let resolved_schedule :=
    ConflictResolver.resolve_conflicts (conflict_resolver self)
      primary_sessions backup_sessions time_slots in
  let statistics :=
    _calculate_daily_statistics self sessions
      (ConflictResolver.primary resolved_schedule)
      (ConflictResolver.backups resolved_schedule) in
  {| primary_sessions := ConflictResolver.primary resolved_schedule;
     backup_sessions := ConflictResolver.backups resolved_schedule;
     blocked_times := blocked cfg;
     time_slots := time_slots;
     statistics := statistics |}.

Definition date_in (d : option string) (conference_dates : list string) : bool :=
  match d with
  | Some s => existsb (String.eqb s) conference_dates
  | None => false
  end.

Definition _group_sessions_by_date (self : t) (sessions : list Session)
    (conference_dates : list string) : dict (list Session) :=
  let sessions_by_date :=
    fold_left (fun d date => dict_set date [] d) conference_dates [] in
  fold_left
    (fun by_date session =>
       let session_date := date session in
       if date_in session_date conference_dates
       then
         let k := or_empty session_date in
         dict_set k (match dict_get k by_date with
                     | Some l => l ++ [session]
                     | None => [session]
                     end) by_date
       else by_date)
    sessions sessions_by_date.

(** The day written for a date without sessions; the keys it lacks read
    as their defaults ([{}], [0]) in the summary. *)
Definition empty_day (cfg : Config.t) : DailySchedule :=
  {| primary_sessions := [];
     backup_sessions := [];
     blocked_times := blocked cfg;
     time_slots := [];
     statistics := {| stat_total_sessions := 0;
                      stat_scheduled_sessions := 0;
                      stat_backup_sessions := 0;
                      stat_average_score := 0;
                      stat_venue_distribution := [];
                      stat_keyword_coverage := [] |} |}.

(** The days of the schedule dict, skipping a key ['summary']. *)
Definition days_of (schedule : dict ScheduleEntry) : list DailySchedule :=
  flat_map
    (fun entry =>
       if String.eqb (fst entry) "summary" then []
       else match snd entry with Day d => [d] | SummaryEntry _ => [] end)
    schedule.

Definition _generate_schedule_summary (self : t) (schedule : dict ScheduleEntry)
  : Summary :=
  let days := days_of schedule in
  let total_sessions :=
    fold_left (fun n d => n + stat_scheduled_sessions (statistics d)) days 0 in
  let total_backups :=
    fold_left (fun n d => n + stat_backup_sessions (statistics d)) days 0 in
  let all_scores :=
    flat_map
      (fun d => filter (fun sc => Qltb 0 sc) (map score (primary_sessions d)))
      days in
  let all_venues :=
    flat_map
      (fun d =>
         flat_map (fun vc => repeat (fst vc) (Z.to_nat (snd vc)))
           (stat_venue_distribution (statistics d)))
      days in
  let all_keywords :=
    fold_left
      (fun acc d =>
         fold_left (fun a kc => dict_add (fst kc) (snd kc) a)
           (stat_keyword_coverage (statistics d)) acc)
      days [] in
  let avg_score :=
    match all_scores with
    | [] => 0%Q
    | _ => (Qsum all_scores / inject_Z (Z.of_nat (List.length all_scores)))%Q
    end in
  let venue_distribution :=
    fold_left (fun vd venue => dict_add venue 1 vd) all_venues [] in
  let len_schedule := Z.of_nat (List.length schedule) in
  {| total_conference_days :=
       Z.of_nat (List.length
                   (filter (fun k => negb (String.eqb k "summary")) (dict_keys schedule)));
     total_scheduled_sessions := total_sessions;
     total_backup_sessions := total_backups;
     average_session_score := round avg_score 3;
     overall_venue_distribution := venue_distribution;
     overall_keyword_coverage := all_keywords;
     schedule_efficiency :=
       round (if len_schedule >? 1
              then (inject_Z total_sessions / inject_Z (len_schedule - 1))%Q
              else 0%Q) 1 |}.

Definition create_schedule (self : t) (cfg : Config.t) (sessions : list Session)
    (conference_dates : list string) : dict ScheduleEntry :=
  let sessions_by_date := _group_sessions_by_date self sessions conference_dates in
  let schedule :=
    fold_left
      (fun schedule date =>
         let daily_sessions :=
           match dict_get date sessions_by_date with Some l => l | None => [] end in
         match daily_sessions with
         | [] => dict_set date (Day (empty_day cfg)) schedule
         | _ =>
             let daily_schedule := _create_daily_schedule self cfg daily_sessions date in
             dict_set date (Day daily_schedule) schedule
         end)
      conference_dates [] in
  dict_set "summary" (SummaryEntry (_generate_schedule_summary self schedule)) schedule.

End SchedulingAlgorithm.

(** ** Scenario data *)

Module Scenario.

Definition session (id day start end_ : string) (sc : Q) : Session := {|
  session_id := Some id; title := Some id; description := None;
  date := Some day; start_time := Some start; end_time := Some end_;
  venue := None; level := None; speakers := []; keywords_matched := [];
  score := sc; score_breakdown := None; time_slot := None;
  scheduled_start := None; scheduled_end := None; backup_score := None
|}.

(** [SchedulingAlgorithm()] under [Config.default]. *)
Definition algorithm : SchedulingAlgorithm.t := {|
  SchedulingAlgorithm.conflict_resolver := ConflictResolver.__init__ tt;
  SchedulingAlgorithm.backup_generator := BackupGenerator.__init__ Config.default;
  SchedulingAlgorithm.lunch_start := 660;
  SchedulingAlgorithm.lunch_end := 780;
  SchedulingAlgorithm.buffer_minutes := 30;
  SchedulingAlgorithm.max_sessions_per_day := 8
|}.

(** Three sessions of one day: the second is dropped for the buffer, the
    third reaches into the lunch break. *)
Definition morning : list Session :=
  [ session "s1" "2025-12-01" "09:00" "10:00" 0.8;
    session "s2" "2025-12-01" "10:15" "11:00" 0.7;
    session "s3" "2025-12-01" "10:30" "11:30" 0.6 ]%Q.

(** One session on each of two days. *)
Definition two_days : list Session :=
  [ session "a" "2025-12-01" "09:00" "10:00" 0.8;
    session "b" "2025-12-02" "09:00" "10:00" 0.6 ]%Q.

(** Two primaries as the assigner annotates them (scenario C). *)
Definition primary (id start end_ : string) : Session :=
  with_slot (session id "2025-12-01" start end_ 0.5%Q)
    {| slot_id := id; slot_start_time := start; slot_end_time := end_;
       slot_date := "2025-12-01"; is_lunch_break := false;
       buffer_before := 30; buffer_after := 30 |}.

Definition venue_session (v : option string) : Session := {|
  session_id := Some "v"; title := Some "Keynote"; description := None;
  date := None; start_time := None; end_time := None;
  venue := v; level := None; speakers := []; keywords_matched := [];
  score := 0; score_breakdown := None; time_slot := None;
  scheduled_start := None; scheduled_end := None; backup_score := None
|}.

(** A candidate that earns every bonus in full. *)
Definition star : Session := {|
  session_id := Some "star"; title := Some "Keynote"; description := None;
  date := Some "2025-12-01"; start_time := Some "14:00"; end_time := Some "15:00";
  venue := Some "Venetian"; level := None; speakers := [];
  keywords_matched := ["AI"; "Architect"; "Lakehouse"; "DevOps"];
  score := 1; score_breakdown := None; time_slot := None;
  scheduled_start := None; scheduled_end := None; backup_score := None
|}.

Definition afternoon_slot : TimeSlot := {|
  slot_id := "slot_1"; slot_start_time := "14:00"; slot_end_time := "15:00";
  slot_date := "2025-12-01"; is_lunch_break := false;
  buffer_before := 30; buffer_after := 30 |}.

End Scenario.

(** * Vocabulary of the properties *)

(** [subseq l1 l2]: [l1] is [l2] with some elements left out, in order. *)
Inductive subseq {A : Type} : list A -> list A -> Prop :=
| subseq_nil : subseq [] []
| subseq_skip x l1 l2 : subseq l1 l2 -> subseq l1 (x :: l2)
| subseq_keep x l1 l2 : subseq l1 l2 -> subseq (x :: l1) (x :: l2).

(** A time value that [strptime] rejects (a malformed string, or [None]). *)
Definition malformed (o : option string) : Prop :=
  forall t, strptime o <> inr t.

(** Start and end of the session both parse and lie within 30 minutes of
    the slot's start and end. *)
Definition within_tolerance (s : Session) (slot_start slot_end : string) : Prop :=
  exists a b ss se,
    strptime (start_time s) = inr a /\ strptime (end_time s) = inr b /\
    strptime (Some slot_start) = inr ss /\ strptime (Some slot_end) = inr se /\
    Z.abs (a - ss) <= 30 /\ Z.abs (b - se) <= 30.

(** A candidate annotated with its backup score for the slot. *)
Definition scored (bg : BackupGenerator.t) (slot : TimeSlot) (c : Session)
  : Session :=
  with_backup_score c (BackupGenerator._calculate_backup_score bg c slot).

(** [a] may precede [b] in a list sorted by descending backup score. *)
Definition by_backup_score_desc (a b : Session) : Prop :=
  (BackupGenerator.backup_key b <= BackupGenerator.backup_key a)%Q.

(** The pool the loop body of [generate_backups] stores for a slot. *)
Definition pool_of (bg : BackupGenerator.t)
    (all_sessions primary_sessions : list Session) (slot : TimeSlot)
  : list Session :=
  slice_to
    (BackupGenerator._rank_backup_candidates bg
       (BackupGenerator._find_candidate_sessions bg all_sessions
          (slot_start_time slot) (slot_end_time slot)
          (map session_id primary_sessions))
       slot)
    (Z.max (BackupGenerator.min_backup_sessions bg) 3).

(** What C7 says of the pool stored under a slot id. *)
Definition pool_as_specified (bg : BackupGenerator.t)
    (all_sessions primary_sessions : list Session) (slot : TimeSlot)
    (pool : list Session) : Prop :=
  let candidates :=
    BackupGenerator._find_candidate_sessions bg all_sessions
      (slot_start_time slot) (slot_end_time slot)
      (map session_id primary_sessions) in
  let ranking := BackupGenerator._rank_backup_candidates bg candidates slot in
  let limit := Z.to_nat (Z.max (BackupGenerator.min_backup_sessions bg) 3) in
  (forall s, In s candidates <->
             In s all_sessions
             /\ ~ In (session_id s) (map session_id primary_sessions)
             /\ within_tolerance s (slot_start_time slot) (slot_end_time slot))
  (* the ranking holds every candidate, once per occurrence, annotated
     with its backup score, in descending order of that score *)
  /\ Permutation ranking (map (scored bg slot) candidates)
  /\ StronglySorted by_backup_score_desc ranking
  (* the pool is the ranking cut after max(min_backup_sessions, 3) entries *)
  /\ pool = firstn limit ranking
  /\ List.length pool = Nat.min limit (List.length candidates)
  /\ (forall b, In b pool ->
        exists c, In c candidates
                  /\ b = with_backup_score c
                           (BackupGenerator._calculate_backup_score bg c slot))
  /\ subseq pool ranking
  /\ StronglySorted by_backup_score_desc pool
  /\ Z.of_nat (List.length pool) <= Z.max (BackupGenerator.min_backup_sessions bg) 3.


(** [schedule['summary']] *)
Definition summary_of (schedule : dict ScheduleEntry) : option Summary :=
  match dict_get "summary" schedule with
  | Some (SummaryEntry s) => Some s
  | _ => None
  end.

(** The (start, end) pair of a slot. *)
Definition range_of (slot : TimeSlot) : string * string :=
  (slot_start_time slot, slot_end_time slot).

(** The lunch test and the overlap test of the slot builder, on a range. *)
Definition lunch (self : SchedulingAlgorithm.t) (r : string * string) : bool :=
  SchedulingAlgorithm._is_lunch_time self (fst r) (snd r).

Definition overlap (self : SchedulingAlgorithm.t) (r : string * string)
    (slot : TimeSlot) : bool :=
  SchedulingAlgorithm._times_overlap self (fst r) (snd r)
    (slot_start_time slot) (slot_end_time slot).

(** The slots accepted before the list is cut. *)
Definition accepted (self : SchedulingAlgorithm.t) (date : string)
    (ranges : list (string * string)) : list TimeSlot :=
  fold_left (SchedulingAlgorithm.slot_step self date) ranges [].

(** What holds of the accepted slots after any prefix of the ranges. *)
Definition slots_invariant (self : SchedulingAlgorithm.t)
    (pre : list (string * string)) (acc : list TimeSlot) : Prop :=
  subseq (map range_of acc) pre
  /\ Forall (fun slot => lunch self (range_of slot) = false) acc
  /\ ForallOrdPairs
       (fun earlier later => overlap self (range_of later) earlier = false) acc
  /\ (forall r, In r pre ->
        lunch self r = true
        \/ (exists slot, In slot acc /\ overlap self r slot = true)
        \/ (exists slot, In slot acc /\ range_of slot = r)).

(** What C8 says of the slots built for a day. *)
Definition slots_as_specified (self : SchedulingAlgorithm.t)
    (sessions : list Session) (date : string) : Prop :=
  let ranges := sorted pair_leb (SchedulingAlgorithm.session_times sessions) in
  let slots := SchedulingAlgorithm._generate_time_slots self sessions date in
  (* the ranges are the (start, end) pairs of the sessions that have both,
     in ascending order of start *)
  (forall a b, In (a, b) ranges <->
               exists s, In s sessions /\ start_time s = Some a
                         /\ end_time s = Some b /\ a <> "" /\ b <> "")
  /\ StronglySorted (fun p q => str_leb (fst p) (fst q) = true) ranges
  (* scanning them in order, a range is accepted unless it overlaps the
     lunch window or an already accepted slot *)
  /\ slots_invariant self ranges (accepted self date ranges)
  /\ (forall a b,
        lunch self (a, b) = true <->
        exists s e, strptime (Some a) = inr s /\ strptime (Some b) = inr e
                    /\ s < SchedulingAlgorithm.lunch_end self
                    /\ e > SchedulingAlgorithm.lunch_start self)
  /\ (forall r slot,
        overlap self r slot = true <->
        exists s1 e1 s2 e2,
          strptime (Some (fst r)) = inr s1 /\ strptime (Some (snd r)) = inr e1
          /\ strptime (Some (slot_start_time slot)) = inr s2
          /\ strptime (Some (slot_end_time slot)) = inr e2
          /\ s1 < e2 /\ s2 < e1)
  (* the accepted list is cut to max_sessions_per_day *)
  /\ slots = firstn (Z.to_nat (SchedulingAlgorithm.max_sessions_per_day self))
               (accepted self date ranges)
  /\ Z.of_nat (List.length slots) <= SchedulingAlgorithm.max_sessions_per_day self
  /\ subseq (map range_of slots) ranges
  /\ Forall (fun slot => lunch self (range_of slot) = false) slots
  /\ ForallOrdPairs
       (fun earlier later => overlap self (range_of later) earlier = false) slots
  (* no session with both times: no slot, and no error *)
  /\ ((forall s, In s sessions ->
         truthy (start_time s) && truthy (end_time s) = false) ->
      slots = []).

(** Both scheduled times are present and non-empty. *)
Definition timed (s : Session) : bool :=
  truthy (scheduled_start s) && truthy (scheduled_end s).

(** The buffered-overlap test between a session and an accepted one. *)
Definition conflict (cr : ConflictResolver.t) (s p : Session) : bool :=
  ConflictResolver._sessions_conflict cr
    (scheduled_start s) (scheduled_end s) (scheduled_start p) (scheduled_end p).

(** The scan over the sorted sessions. *)
Definition scan (cr : ConflictResolver.t) (l : list Session) : list Session :=
  fold_left (ConflictResolver.resolve_step cr) l [].

(** What holds of the accepted sessions after any prefix of the sorted
    list: they are kept in order; a later one with both times never
    conflicts with an earlier one; every session of the prefix that is
    not among them has both times and conflicts with an accepted one. *)
Definition resolved_invariant (cr : ConflictResolver.t)
    (pre acc : list Session) : Prop :=
  subseq acc pre
  /\ ForallOrdPairs
       (fun earlier later => timed later = true -> conflict cr later earlier = false)
       acc
  /\ (forall s, In s pre ->
        In s acc
        \/ (timed s = true /\ exists p, In p acc /\ conflict cr s p = true)).

(** What C5 says of the resolved primary list. *)
Definition primaries_as_resolved (cr : ConflictResolver.t)
    (primary_sessions : list Session) : Prop :=
  let ordered := sorted ConflictResolver.by_start primary_sessions in
  let final := ConflictResolver._resolve_time_conflicts cr primary_sessions in
  (* sorted by scheduled start *)
  Permutation ordered primary_sessions
  /\ StronglySorted
       (fun a b => str_leb (ConflictResolver.start_key a) (ConflictResolver.start_key b) = true)
       ordered
  (* scanned left to right: a session is accepted, or it is dropped because
     it conflicts with an accepted one; nothing is rescheduled *)
  /\ final = scan cr ordered
  /\ resolved_invariant cr ordered final
  /\ (forall pre s,
        (scan cr (pre ++ [s]) = scan cr pre ++ [s]
         /\ (timed s = false \/ Forall (fun p => conflict cr s p = false) (scan cr pre)))
        \/ (scan cr (pre ++ [s]) = scan cr pre
            /\ timed s = true
            /\ exists p, In p (scan cr pre) /\ conflict cr s p = true))
  (* the test: start1 < end2 + buffer and start2 < end1 + buffer *)
  /\ (forall s p,
        conflict cr s p = true <->
        exists s1 e1 s2 e2,
          strptime (scheduled_start s) = inr s1 /\ strptime (scheduled_end s) = inr e1
          /\ strptime (scheduled_start p) = inr s2 /\ strptime (scheduled_end p) = inr e2
          /\ s1 < e2 + ConflictResolver.buffer_minutes cr
          /\ s2 < e1 + ConflictResolver.buffer_minutes cr)
  (* and this is the final primary list *)
  /\ (forall backup_sessions time_slots,
        ConflictResolver.primary
          (ConflictResolver.resolve_conflicts cr primary_sessions backup_sessions time_slots)
        = final).

(** A session not yet used whose times are exactly the slot's. *)
Definition eligible (used : list (option string)) (slot : TimeSlot)
    (s : Session) : bool :=
  negb (BackupGenerator.id_in (session_id s) used)
  && (opt_str_eqb (start_time s) (Some (slot_start_time slot))
      && opt_str_eqb (end_time s) (Some (slot_end_time slot))).

(** [best] is the first of the candidates with the highest score. *)
Definition first_highest (candidates : list Session) (best : Session) : Prop :=
  exists before after,
    candidates = before ++ best :: after
    /\ (forall c, In c before -> (score c < score best)%Q)
    /\ (forall c, In c after -> (score c <= score best)%Q).

Definition best_invariant (candidates : list Session) (st : option Session * Q)
  : Prop :=
  match fst st with
  | None => snd st = (-1)%Q /\ forall c, In c candidates -> (score c <= -1)%Q
  | Some b => snd st = score b /\ (-1 < score b)%Q /\ first_highest candidates b
  end.

(** The state of the outer loop after the slots of [l]. *)
Definition assigned (sessions : list Session) (l : list TimeSlot)
  : list Session * list (option string) :=
  fold_left (SchedulingAlgorithm.primary_step sessions) l ([], []).

(** What C6 says of the primaries assigned to the slots of a day. *)
Definition primaries_as_assigned (self : SchedulingAlgorithm.t)
    (sessions : list Session) (time_slots : list TimeSlot) : Prop :=
  let primary :=
    SchedulingAlgorithm._schedule_primary_sessions self sessions time_slots in
  (forall pre slot post, time_slots = pre ++ slot :: post ->
     let prim := fst (assigned sessions pre) in
     let used := snd (assigned sessions pre) in
     let candidates := filter (eligible used slot) sessions in
     (* the used ids are those of the primaries so far *)
     (forall i, In i used <-> In i (map session_id prim))
     (* the candidates: not yet used, with exactly the slot's times *)
     /\ (forall s, In s candidates <->
                   In s sessions /\ ~ In (session_id s) used
                   /\ start_time s = Some (slot_start_time slot)
                   /\ end_time s = Some (slot_end_time slot))
     (* no candidate: the slot stays empty; else the first of the
        highest-scoring candidates fills it and its id becomes used *)
     /\ ((candidates = []
          /\ assigned sessions (pre ++ [slot]) = assigned sessions pre)
         \/ (exists best,
               first_highest candidates best
               /\ assigned sessions (pre ++ [slot])
                  = (prim ++ [with_slot best slot], session_id best :: used)))
     (* either way the later slots are processed *)
     /\ primary
        = fst (fold_left (SchedulingAlgorithm.primary_step sessions) post
                 (assigned sessions (pre ++ [slot]))))
  (* no id twice among the primaries of the day *)
  /\ NoDup (map session_id primary).

(** The interval [start, end] overlaps the lunch window:
    start < lunch end and end > lunch start. *)
Definition overlaps_lunch (self : SchedulingAlgorithm.t)
    (start end_ : option string) : Prop :=
  exists s e,
    strptime start = inr s /\ strptime end_ = inr e
    /\ s < SchedulingAlgorithm.lunch_end self
    /\ e > SchedulingAlgorithm.lunch_start self.

(** C1 as stated, for the schedule of one day. *)
Definition lunch_free (self : SchedulingAlgorithm.t) (d : DailySchedule) : Prop :=
  (forall p, In p (primary_sessions d) ->
     ~ overlaps_lunch self (start_time p) (end_time p))
  /\ (forall k pool b, In (k, pool) (backup_sessions d) -> In b pool ->
        ~ overlaps_lunch self (start_time b) (end_time b)).

(** C1 as stated, for every day of a schedule. *)
Definition schedule_lunch_free (self : SchedulingAlgorithm.t)
    (schedule : dict ScheduleEntry) : Prop :=
  forall date d, In (date, Day d) schedule -> lunch_free self d.

(** What the code guarantees of a day: no primary overlaps the lunch
    window; a backup starts no earlier than 30 minutes before the lunch end
    or ends no later than 30 minutes after the lunch start. *)
Definition lunch_respected (self : SchedulingAlgorithm.t) (d : DailySchedule)
  : Prop :=
  (forall p, In p (primary_sessions d) ->
     ~ overlaps_lunch self (start_time p) (end_time p))
  /\ (forall k pool b, In (k, pool) (backup_sessions d) -> In b pool ->
        exists s e,
          strptime (start_time b) = inr s /\ strptime (end_time b) = inr e
          /\ (SchedulingAlgorithm.lunch_end self - 30 <= s
              \/ e <= SchedulingAlgorithm.lunch_start self + 30)).

(** [a] may precede [b] in a list sorted by descending score. *)
Definition by_score_desc (a b : Session) : Prop := (score b <= score a)%Q.

(** The session as [score_sessions] annotates it. *)
Definition annotated (self : SessionScorer.t) (session : Session) : Session :=
  with_score session (SessionScorer._calculate_session_score self session).

(** A dict filled by one assignment [d[key(x)] = val(x)] per element. *)
Definition dict_fill {X V} (key : X -> string) (val : X -> V) (l : list X)
    (d : dict V) : dict V :=
  fold_left (fun d x => dict_set (key x) (val x) d) l d.

(** The id of the slot created when [i] slots exist: [f"slot_{i + 1}"]. *)
Definition slot_name (i : nat) : string :=
  ("slot_" ++ str_of_nat (i + 1))%string.

(** A slot as the slot builder creates them for a day. *)
Definition well_formed_slot (self : SchedulingAlgorithm.t) (date : string)
    (slot : TimeSlot) : Prop :=
  slot_start_time slot <> "" /\ slot_end_time slot <> ""
  /\ slot_date slot = date /\ is_lunch_break slot = false
  /\ buffer_before slot = SchedulingAlgorithm.buffer_minutes self
  /\ buffer_after slot = SchedulingAlgorithm.buffer_minutes self.

(** The test that decides whether [_validate_backup_sessions] keeps a
    backup: both times present, and no conflict with a primary that has
    both scheduled times. *)
Definition backup_kept (cr : ConflictResolver.t) (primary_sessions : list Session)
    (b : Session) : Prop :=
  truthy (start_time b) = true /\ truthy (end_time b) = true
  /\ forall p, In p primary_sessions -> timed p = true ->
       ConflictResolver._sessions_conflict cr (start_time b) (end_time b)
         (scheduled_start p) (scheduled_end p) = false.

(** The venue of a session as the transition report reads it. *)
Definition venue_or_unknown (s : Session) : string :=
  get_default (venue s) "Unknown".

(** The loop body of [_validate_backup_sessions] as a test on a backup. *)
Definition keeps (cr : ConflictResolver.t)
    (times : list (option string * option string)) (b : Session) : bool :=
  truthy (start_time b) && truthy (end_time b)
  && negb (existsb
             (fun pt =>
                ConflictResolver._sessions_conflict cr (start_time b) (end_time b)
                  (fst pt) (snd pt))
             times).


(** The slots of a day: built from the day's sessions sorted by score. *)
Definition day_slots (self : SchedulingAlgorithm.t) (sessions : list Session)
    (date : string) : list TimeSlot :=
  SchedulingAlgorithm._generate_time_slots self
    (sorted SessionScorer.score_desc sessions) date.

(** The primaries assigned to the slots of a day, before the conflicts
    between them are resolved. *)
Definition assigned_primaries (self : SchedulingAlgorithm.t)
    (sessions : list Session) (date : string) : list Session :=
  SchedulingAlgorithm._schedule_primary_sessions self
    (sorted SessionScorer.score_desc sessions) (day_slots self sessions date).

(** The backup pools of a day, before they are validated. *)
Definition generated_backups (self : SchedulingAlgorithm.t)
    (sessions : list Session) (date : string) : dict (list Session) :=
  BackupGenerator.generate_backups (SchedulingAlgorithm.backup_generator self)
    (sorted SessionScorer.score_desc sessions)
    (assigned_primaries self sessions date) (day_slots self sessions date).

(** A primary placed in a slot: a session of the day, copied with the
    slot's id and with the slot's times, which are its own. *)
Definition placed (sessions : list Session) (slots : list TimeSlot)
    (p : Session) : Prop :=
  exists slot b,
    In slot slots /\ In b sessions /\ p = with_slot b slot
    /\ start_time b = Some (slot_start_time slot)
    /\ end_time b = Some (slot_end_time slot).

(** A backup of a slot: a session of the day within 30 minutes of the
    slot's times, copied with its backup score for the slot. *)
Definition backup_of (bg : BackupGenerator.t) (sessions : list Session)
    (slot : TimeSlot) (b : Session) : Prop :=
  exists c, In c sessions /\ b = scored bg slot c
            /\ within_tolerance c (slot_start_time slot) (slot_end_time slot).

(** The session is of the date. *)
Definition on_date (d : string) (s : Session) : bool :=
  opt_str_eqb (date s) (Some d).

(** The entry [create_schedule] writes for a date: the schedule of the
    sessions of that date, or the empty day when there is none. *)
Definition day_of (self : SchedulingAlgorithm.t) (cfg : Config.t)
    (sessions : list Session) (d : string) : DailySchedule :=
  match filter (on_date d) sessions with
  | [] => SchedulingAlgorithm.empty_day cfg
  | _ :: _ =>
      SchedulingAlgorithm._create_daily_schedule self cfg
        (filter (on_date d) sessions) d
  end.

(** The schedule dict before the summary is added: one day per date. *)
Definition days_schedule (self : SchedulingAlgorithm.t) (cfg : Config.t)
    (sessions : list Session) (conference_dates : list string)
  : dict ScheduleEntry :=
  dict_fill (fun date => date) (fun date => Day (day_of self cfg sessions date))
    conference_dates [].

(** [d.get(k, 0)] *)
Definition get_count (k : string) (d : dict Z) : Z :=
  match dict_get k d with Some n => n | None => 0 end.

(** The number of occurrences of [x] in [l]. *)
Definition occurrences (x : string) (l : list string) : Z :=
  Z.of_nat (count_occ string_dec l x).

(** [d] counts the elements of [l]: its keys are the elements of [l], each
    once, and the value under a key is its number of occurrences. *)
Definition counts (l : list string) (d : dict Z) : Prop :=
  NoDup (dict_keys d)
  /\ forall x, dict_get x d
               = if occurrences x l =? 0 then None else Some (occurrences x l).

(** The keys of a distribution, each repeated as often as its count:
    [all_venues.extend([venue] * count)]. *)
Definition spread (d : dict Z) : list string :=
  flat_map (fun vc => repeat (fst vc) (Z.to_nat (snd vc))) d.

(** The backups of all pools of a dict. *)
Definition all_backups (backups : dict (list Session)) : list Session :=
  List.concat (dict_values backups).

(** The primary sessions, and the backups, of all days of the conference. *)
Definition conference_primaries (self : SchedulingAlgorithm.t) (cfg : Config.t)
    (sessions : list Session) (conference_dates : list string) : list Session :=
  flat_map (fun date => primary_sessions (day_of self cfg sessions date))
    conference_dates.

Definition conference_backups (self : SchedulingAlgorithm.t) (cfg : Config.t)
    (sessions : list Session) (conference_dates : list string) : list Session :=
  flat_map (fun date => all_backups (backup_sessions (day_of self cfg sessions date)))
    conference_dates.

(** The statistics of a day agree with its sessions. *)
Definition statistics_agree (d : DailySchedule) : Prop :=
  stat_scheduled_sessions (statistics d)
  = Z.of_nat (List.length (primary_sessions d))
  /\ stat_backup_sessions (statistics d)
     = Z.of_nat (List.length (all_backups (backup_sessions d)))
  /\ counts (map venue_or_unknown (primary_sessions d))
       (stat_venue_distribution (statistics d))
  /\ counts (flat_map keywords_matched (primary_sessions d))
       (stat_keyword_coverage (statistics d)).

(** The session has exactly the times of the range. *)
Definition has_range (r : string * string) (s : Session) : bool :=
  opt_str_eqb (start_time s) (Some (fst r))
  && opt_str_eqb (end_time s) (Some (snd r)).

(** Equality of two ranges. *)
Definition range_eqb (r q : string * string) : bool :=
  String.eqb (fst r) (fst q) && String.eqb (snd r) (snd q).

(** The primary [p] fills the slot: it is a session of the list, copied
    into the slot, with exactly the slot's times. *)
Definition fills (sessions : list Session) (p : Session) (slot : TimeSlot)
  : Prop :=
  exists b, In b sessions /\ p = with_slot b slot
            /\ start_time b = Some (slot_start_time slot)
            /\ end_time b = Some (slot_end_time slot).
(** The pairs of neighbours of a list, in order. *)
Definition neighbours {A} (l : list A) : list (A * A) := combine l (tl l).

(** The two sessions are at different venues. *)
Definition venue_changes (ab : Session * Session) : bool :=
  negb (String.eqb (venue_or_unknown (fst ab)) (venue_or_unknown (snd ab))).

(** The entry reported for a change of venue between two neighbours: the
    two venues, the two titles cut to 30 characters, and the gap from the
    scheduled end of the first to the scheduled start of the second. *)
Definition transition_between (cr : ConflictResolver.t) (ab : Session * Session)
  : ConflictResolver.Transition :=
  {| ConflictResolver.from_venue := venue_or_unknown (fst ab);
     ConflictResolver.to_venue := venue_or_unknown (snd ab);
     ConflictResolver.from_session :=
       str_take 30 (get_default (title (fst ab)) "Unknown");
     ConflictResolver.to_session :=
       str_take 30 (get_default (title (snd ab)) "Unknown");
     ConflictResolver.time_gap :=
       ConflictResolver._calculate_time_gap cr
         (Some (get_default (scheduled_end (fst ab)) "00:00"))
         (Some (get_default (scheduled_start (snd ab)) "00:00")) |}.

(** The recommendation on a transition with a gap below 30 minutes. *)
Definition short_gap_note (t : ConflictResolver.Transition) : string :=
  ("Short transition time (" ++ str_of_Z (ConflictResolver.time_gap t)
   ++ " min) between " ++ ConflictResolver.from_venue t ++ " and "
   ++ ConflictResolver.to_venue t)%string.

(** * Properties *)

(** ** The stable sort *)

Section SortFacts.
Context {A : Type} (before : A -> A -> bool).

Lemma insert_perm (x : A) (l : list A) : Permutation (insert before x l) (x :: l).
Proof.
  induction l as [|y r IH]; simpl; [reflexivity|].
  destruct (before x y); [reflexivity|].
  rewrite IH. apply perm_swap.
Qed.

Lemma sorted_perm (l : list A) : Permutation (sorted before l) l.
Proof.
  induction l as [|x r IH]; simpl; [constructor|].
  rewrite insert_perm. now constructor.
Qed.

Lemma sorted_In (l : list A) (x : A) : In x (sorted before l) <-> In x l.
Proof.
  split; apply Permutation_in; [|symmetry]; apply sorted_perm.
Qed.

Let R (x y : A) : Prop := before x y = true.

Hypothesis before_total : forall x y, before x y = false -> before y x = true.

Lemma insert_Sorted (x : A) (l : list A) :
  Sorted R l -> Sorted R (insert before x l).
Proof.
  induction 1 as [|y r Hs IH Hd]; simpl.
  - repeat constructor.
  - destruct (before x y) eqn:E.
    + constructor; [now constructor|]. constructor. exact E.
    + constructor; [exact IH|].
      destruct r as [|z r']; simpl.
      * constructor. now apply before_total.
      * destruct (before x z); constructor.
        -- now apply before_total.
        -- now inversion Hd.
Qed.

Lemma sorted_Sorted (l : list A) : Sorted R (sorted before l).
Proof.
  induction l as [|x r IH]; simpl; [constructor|]. now apply insert_Sorted.
Qed.

Hypothesis before_trans :
  forall x y z, before x y = true -> before y z = true -> before x z = true.

Lemma sorted_StronglySorted (l : list A) : StronglySorted R (sorted before l).
Proof.
  apply Sorted_StronglySorted; [|apply sorted_Sorted].
  intros x y z. apply before_trans.
Qed.

(** Sorting a sorted list changes nothing. *)
Lemma sorted_fixpoint (l : list A) : StronglySorted R l -> sorted before l = l.
Proof.
  induction 1 as [|x r Hs IH Hall]; simpl; [reflexivity|].
  rewrite IH. destruct r as [|y r']; simpl; [reflexivity|].
  inversion Hall as [|? ? Hxy _]; subst. unfold R in Hxy. now rewrite Hxy.
Qed.
End SortFacts.

(** ** Orders used as sort keys *)

Lemma str_leb_iff (a b : string) :
  str_leb a b = true <-> a = b \/ String_as_OT.lt a b.
Proof.
  unfold str_leb, String.leb.
  destruct (String.compare a b) eqn:E.
  - apply String_as_OT.cmp_eq in E. tauto.
  - apply String_as_OT.cmp_lt in E. tauto.
  - split; [discriminate|]. intros [->|H].
    + assert (String.compare b b = Eq) as H by now apply String_as_OT.cmp_eq.
      congruence.
    + apply String_as_OT.cmp_lt in H. unfold String_as_OT.cmp in H. congruence.
Qed.

Lemma str_leb_total (a b : string) : str_leb a b = false -> str_leb b a = true.
Proof.
  intros H. destruct (String.leb_total a b) as [E|E]; [|exact E].
  unfold str_leb in H. congruence.
Qed.

Lemma str_leb_trans (a b c : string) :
  str_leb a b = true -> str_leb b c = true -> str_leb a c = true.
Proof.
  rewrite !str_leb_iff. intros [->|H1] [->|H2]; auto.
  right. eapply String_as_OT.lt_trans; eauto.
Qed.

Lemma pair_leb_iff (p q : string * string) :
  pair_leb p q = true <->
  String_as_OT.lt (fst p) (fst q) \/ (fst p = fst q /\ str_leb (snd p) (snd q) = true).
Proof.
  unfold pair_leb. destruct (String.compare (fst p) (fst q)) eqn:E.
  - apply String_as_OT.cmp_eq in E. unfold str_leb. split; [tauto|].
    intros [H|[_ H]]; [|exact H]. rewrite E in H.
    apply String_as_OT.lt_not_eq in H. exfalso. now apply H.
  - apply String_as_OT.cmp_lt in E. tauto.
  - split; [discriminate|]. intros [H|[H _]].
    + apply String_as_OT.cmp_lt in H. unfold String_as_OT.cmp in H. congruence.
    + apply String_as_OT.cmp_eq in H. unfold String_as_OT.cmp in H. congruence.
Qed.

Lemma pair_leb_total (p q : string * string) :
  pair_leb p q = false -> pair_leb q p = true.
Proof.
  intros H. apply pair_leb_iff.
  destruct (String.compare (fst p) (fst q)) eqn:E.
  - right. pose proof E as E'. apply String_as_OT.cmp_eq in E'. split; [auto|].
    apply str_leb_total. unfold pair_leb in H. rewrite E in H. exact H.
  - unfold pair_leb in H. now rewrite E in H.
  - left. apply String_as_OT.cmp_lt. unfold String_as_OT.cmp.
    rewrite String.compare_antisym, E. reflexivity.
Qed.

Lemma pair_leb_trans (p q r : string * string) :
  pair_leb p q = true -> pair_leb q r = true -> pair_leb p r = true.
Proof.
  rewrite !pair_leb_iff. intros [H1|[E1 H1]] [H2|[E2 H2]].
  - left. eapply String_as_OT.lt_trans; eauto.
  - left. now rewrite <- E2.
  - left. now rewrite E1.
  - right. split; [congruence|]. eapply str_leb_trans; eauto.
Qed.

Lemma pair_leb_fst (p q : string * string) :
  pair_leb p q = true -> str_leb (fst p) (fst q) = true.
Proof.
  intros H. apply pair_leb_iff in H. apply str_leb_iff. tauto.
Qed.

Lemma Qle_bool_total (a b : Q) : Qle_bool a b = false -> Qle_bool b a = true.
Proof.
  intros H. apply Qle_bool_iff. destruct (Qlt_le_dec b a) as [L|L].
  - now apply Qlt_le_weak.
  - apply Qle_bool_iff in L. congruence.
Qed.

Lemma Qle_bool_trans (a b c : Q) :
  Qle_bool a b = true -> Qle_bool b c = true -> Qle_bool a c = true.
Proof. rewrite !Qle_bool_iff. apply Qle_trans. Qed.

Lemma Qltb_iff (a b : Q) : Qltb a b = true <-> (a < b)%Q.
Proof.
  unfold Qltb. rewrite negb_true_iff. split.
  - intros H. apply Qnot_le_lt. intros L. apply Qle_bool_iff in L. congruence.
  - intros H. destruct (Qle_bool b a) eqn:E; [|reflexivity].
    apply Qle_bool_iff in E. exfalso. eapply Qlt_not_le; eauto.
Qed.

Lemma Qltb_false_iff (a b : Q) : Qltb a b = false <-> (b <= a)%Q.
Proof.
  unfold Qltb. rewrite negb_false_iff. apply Qle_bool_iff.
Qed.

Lemma Qmin_le_l (a b : Q) : (Py.Qmin a b <= a)%Q.
Proof.
  unfold Py.Qmin. destruct (Qltb b a) eqn:E.
  - apply Qltb_iff in E. now apply Qlt_le_weak.
  - apply Qle_refl.
Qed.

Lemma Qmax_ge_l (a b : Q) : (a <= Py.Qmax a b)%Q.
Proof.
  unfold Py.Qmax. destruct (Qltb a b) eqn:E.
  - apply Qltb_iff in E. now apply Qlt_le_weak.
  - apply Qle_refl.
Qed.

(** ** Subsequences: what a left-to-right scan keeps *)

Section SubseqFacts.
Context {A : Type}.
Implicit Types l : list A.

Lemma subseq_refl l : subseq l l.
Proof. induction l; [apply subseq_nil | now apply subseq_keep]. Qed.

Lemma subseq_nil_l l : subseq [] l.
Proof. induction l; [apply subseq_nil | now apply subseq_skip]. Qed.

Lemma subseq_In l1 l2 x : subseq l1 l2 -> In x l1 -> In x l2.
Proof.
  induction 1; simpl; auto. intros [->|H']; auto.
Qed.

Lemma subseq_snoc_skip l1 l2 x : subseq l1 l2 -> subseq l1 (l2 ++ [x]).
Proof.
  induction 1; simpl.
  - apply subseq_nil_l.
  - now apply subseq_skip.
  - now apply subseq_keep.
Qed.

Lemma subseq_snoc_keep l1 l2 x : subseq l1 l2 -> subseq (l1 ++ [x]) (l2 ++ [x]).
Proof.
  induction 1; simpl.
  - apply subseq_refl.
  - now apply subseq_skip.
  - now apply subseq_keep.
Qed.

Lemma subseq_firstn n l : subseq (firstn n l) l.
Proof.
  revert n. induction l as [|x r IH]; intros [|n]; simpl.
  - apply subseq_nil.
  - apply subseq_nil.
  - apply subseq_nil_l.
  - apply subseq_keep, IH.
Qed.

Lemma subseq_trans l1 l2 l3 : subseq l1 l2 -> subseq l2 l3 -> subseq l1 l3.
Proof.
  intros H12 H23. revert l1 H12.
  induction H23; intros l0 H12; auto.
  - apply subseq_skip; auto.
  - inversion H12; subst; [apply subseq_skip | apply subseq_keep]; auto.
Qed.

Lemma subseq_StronglySorted (R : A -> A -> Prop) l1 l2 :
  subseq l1 l2 -> StronglySorted R l2 -> StronglySorted R l1.
Proof.
  induction 1; intros Hs; auto.
  - inversion Hs; auto.
  - inversion Hs as [|? ? Hs' Hall]; subst. constructor; auto.
    rewrite Forall_forall in *. intros y Hy. apply Hall.
    eapply subseq_In; eauto.
Qed.

Lemma subseq_length l1 l2 : subseq l1 l2 -> (List.length l1 <= List.length l2)%nat.
Proof. induction 1; simpl; lia. Qed.
End SubseqFacts.

Lemma subseq_map {A B} (f : A -> B) (l1 l2 : list A) :
  subseq l1 l2 -> subseq (map f l1) (map f l2).
Proof.
  induction 1; simpl;
    [apply subseq_nil | apply subseq_skip | apply subseq_keep]; auto.
Qed.

Lemma slice_to_subseq {A} (l : list A) (n : Z) : subseq (slice_to l n) l.
Proof. unfold slice_to. destruct (n <? 0); apply subseq_firstn. Qed.

Lemma slice_to_In {A} (l : list A) (n : Z) (x : A) : In x (slice_to l n) -> In x l.
Proof. apply subseq_In, slice_to_subseq. Qed.

Lemma slice_to_length {A} (l : list A) (n : Z) :
  0 <= n -> Z.of_nat (List.length (slice_to l n)) <= n.
Proof.
  intros H. unfold slice_to. destruct (n <? 0) eqn:E; [lia|].
  rewrite length_firstn. lia.
Qed.

(** ** The time tests, read off their parsed operands *)

Arguments strptime : simpl never.

Lemma strptime_truthy (o : option string) (t : datetime) :
  strptime o = inr t -> truthy o = true.
Proof.
  destruct o as [[|c r]|]; try reflexivity; discriminate.
Qed.

Ltac parse_cases :=
  repeat match goal with
         | |- context [strptime ?o] =>
             let E := fresh "E" in
             destruct (strptime o) as [?|?] eqn:E; cbn
         end.

Lemma sessions_conflict_iff (cr : ConflictResolver.t) (a b c d : option string) :
  ConflictResolver._sessions_conflict cr a b c d = true <->
  exists s1 e1 s2 e2,
    strptime a = inr s1 /\ strptime b = inr e1 /\
    strptime c = inr s2 /\ strptime d = inr e2 /\
    s1 < e2 + ConflictResolver.buffer_minutes cr /\
    s2 < e1 + ConflictResolver.buffer_minutes cr.
Proof.
  unfold ConflictResolver._sessions_conflict, try_except.
  parse_cases;
    try (split; [discriminate | intros (?&?&?&?&?&?&?&?&_); congruence]).
  rewrite andb_true_iff, !Z.ltb_lt. split.
  - intros [H1 H2]. eauto 10.
  - intros (s1&e1&s2&e2&A&B&C&D&H1&H2).
    injection A as <-. injection B as <-. injection C as <-. injection D as <-.
    auto.
Qed.

Lemma times_compatible_iff (bg : BackupGenerator.t) (a b c d : option string) :
  BackupGenerator._times_are_compatible bg a b c d = true <->
  exists s e ss se,
    strptime a = inr s /\ strptime b = inr e /\
    strptime c = inr ss /\ strptime d = inr se /\
    Z.abs (s - ss) <= 30 /\ Z.abs (e - se) <= 30.
Proof.
  unfold BackupGenerator._times_are_compatible, try_except.
  parse_cases;
    try (split; [discriminate | intros (?&?&?&?&?&?&?&?&_); congruence]).
  rewrite andb_true_iff, !Z.leb_le. split.
  - intros [H1 H2]. do 4 eexists. repeat (split; [reflexivity|]). lia.
  - intros (s1&e1&s2&e2&A&B&C&D&H1&H2).
    injection A as <-. injection B as <-. injection C as <-. injection D as <-.
    lia.
Qed.

Lemma is_lunch_time_iff (self : SchedulingAlgorithm.t) (a b : string) :
  SchedulingAlgorithm._is_lunch_time self a b = true <->
  exists s e,
    strptime (Some a) = inr s /\ strptime (Some b) = inr e /\
    s < SchedulingAlgorithm.lunch_end self /\
    e > SchedulingAlgorithm.lunch_start self.
Proof.
  unfold SchedulingAlgorithm._is_lunch_time, try_except.
  parse_cases;
    try (split; [discriminate | intros (?&?&?&?&_); congruence]).
  rewrite andb_true_iff, Z.ltb_lt, Z.gtb_gt. split.
  - intros [H1 H2]. eauto 10.
  - intros (s&e&A&B&H1&H2). injection A as <-. injection B as <-. auto.
Qed.

Lemma times_overlap_iff (self : SchedulingAlgorithm.t) (a b c d : string) :
  SchedulingAlgorithm._times_overlap self a b c d = true <->
  exists s1 e1 s2 e2,
    strptime (Some a) = inr s1 /\ strptime (Some b) = inr e1 /\
    strptime (Some c) = inr s2 /\ strptime (Some d) = inr e2 /\
    s1 < e2 /\ s2 < e1.
Proof.
  unfold SchedulingAlgorithm._times_overlap, try_except.
  parse_cases;
    try (split; [discriminate | intros (?&?&?&?&?&?&?&?&_); congruence]).
  rewrite andb_true_iff, !Z.ltb_lt. split.
  - intros [H1 H2]. eauto 10.
  - intros (s1&e1&s2&e2&A&B&C&D&H1&H2).
    injection A as <-. injection B as <-. injection C as <-. injection D as <-.
    auto.
Qed.

(** ** Unparsable times (C9) *)

(** C9.  Whenever at least one of the time strings handed to the buffered
    conflict test or to the backup time-compatibility test is malformed
    (not readable as HH:MM), both tests answer [false] -- "no conflict",
    "not compatible".  Both are total functions into [bool]: the exception
    of the parser is caught inside them and never reaches the caller. *)
Theorem malformed_time_never_conflicts
    (cr : ConflictResolver.t) (bg : BackupGenerator.t)
    (start1 end1 start2 end2 : option string) :
  malformed start1 \/ malformed end1 \/ malformed start2 \/ malformed end2 ->
  ConflictResolver._sessions_conflict cr start1 end1 start2 end2 = false
  /\ BackupGenerator._times_are_compatible bg start1 end1 start2 end2 = false.
Proof.
  intros H. split.
  - destruct (ConflictResolver._sessions_conflict cr start1 end1 start2 end2) eqn:E;
      [|reflexivity].
    apply sessions_conflict_iff in E as (s1&e1&s2&e2&A&B&C&D&_).
    destruct H as [H|[H|[H|H]]]; exfalso; eapply H; eauto.
  - destruct (BackupGenerator._times_are_compatible bg start1 end1 start2 end2) eqn:E;
      [|reflexivity].
    apply times_compatible_iff in E as (s1&e1&s2&e2&A&B&C&D&_).
    destruct H as [H|[H|[H|H]]]; exfalso; eapply H; eauto.
Qed.

Lemma malformed_time_never_conflicts_witness :
  ConflictResolver._sessions_conflict (ConflictResolver.__init__ tt)
    (Some "9am") (Some "10:00") (Some "09:30") (Some "10:30") = false
  /\ BackupGenerator._times_are_compatible (BackupGenerator.__init__ Config.default)
       (Some "9am") (Some "10:00") (Some "09:30") (Some "10:30") = false.
Proof.
  apply malformed_time_never_conflicts.
  left. intros t. vm_compute. discriminate.
Defined.

(** ** Dict and loop facts *)

Lemma dict_set_In {V} (k k' : string) (v v' : V) (d : dict V) :
  In (k, v) (dict_set k' v' d) -> (k = k' /\ v = v') \/ In (k, v) d.
Proof.
  induction d as [|[k0 v0] r IH]; simpl.
  - intros [H|[]]. injection H as <- <-. auto.
  - destruct (String.eqb k' k0); simpl.
    + intros [H|H]; [injection H as <- <-|]; auto.
    + intros [H|H]; auto. destruct (IH H); auto.
Qed.

(** The entries of a dict filled by one assignment per loop iteration. *)
Lemma dict_fill_In {X V} (key : X -> string) (val : X -> V)
    (l : list X) (d0 : dict V) (k : string) (v : V) :
  In (k, v) (fold_left (fun d x => dict_set (key x) (val x) d) l d0) ->
  In (k, v) d0 \/ exists x, In x l /\ k = key x /\ v = val x.
Proof.
  revert d0. induction l as [|x r IH]; simpl; intros d0 H; [auto|].
  destruct (IH _ H) as [H'|(y&Hy&E)].
  - destruct (dict_set_In _ _ _ _ _ H') as [[-> ->]|H''].
    + right. exists x. auto.
    + now left.
  - right. exists y. auto.
Qed.

Lemma id_in_iff (i : option string) (ids : list (option string)) :
  BackupGenerator.id_in i ids = true <-> In i ids.
Proof.
  unfold BackupGenerator.id_in. rewrite existsb_exists. split.
  - intros (j&Hj&E). destruct i as [x|], j as [y|]; simpl in E; try discriminate; auto.
    apply String.eqb_eq in E. now subst.
  - intros H. exists i. split; [exact H|].
    destruct i; simpl; [apply String.eqb_refl | reflexivity].
Qed.

(** ** The backup generator (C7, C10) *)

Section BackupFacts.
Variable bg : BackupGenerator.t.

Lemma session_fits_slot_iff (s : Session) (slot_start slot_end : string) :
  BackupGenerator._session_fits_slot bg s slot_start slot_end = true
  <-> within_tolerance s slot_start slot_end.
Proof.
  unfold BackupGenerator._session_fits_slot, within_tolerance.
  rewrite <- times_compatible_iff.
  destruct (truthy (start_time s)) eqn:Ts, (truthy (end_time s)) eqn:Te;
    simpl; try reflexivity;
    (split; [discriminate|]); intros H;
    apply times_compatible_iff in H as (a&b&_&_&A&B&_);
    apply strptime_truthy in A, B; congruence.
Qed.

Lemma find_candidates_filter (all_sessions : list Session)
    (slot_start slot_end : string) (exclude_ids : list (option string)) :
  BackupGenerator._find_candidate_sessions bg all_sessions slot_start slot_end exclude_ids
  = filter
      (fun s => negb (BackupGenerator.id_in (session_id s) exclude_ids)
                && BackupGenerator._session_fits_slot bg s slot_start slot_end)
      all_sessions.
Proof.
  unfold BackupGenerator._find_candidate_sessions.
  match goal with
  | |- fold_left ?step _ _ = filter ?f _ =>
      enough (forall acc, fold_left step all_sessions acc
                          = acc ++ filter f all_sessions) as G
        by apply (G [])
  end.
  induction all_sessions as [|x r IH]; simpl; intros acc.
  - now rewrite app_nil_r.
  - rewrite IH.
    destruct (BackupGenerator.id_in (session_id x) exclude_ids); simpl;
      [reflexivity|].
    destruct (BackupGenerator._session_fits_slot bg x slot_start slot_end);
      [|reflexivity].
    now rewrite <- app_assoc.
Qed.

Lemma find_candidates_In (all_sessions : list Session)
    (slot_start slot_end : string) (exclude_ids : list (option string))
    (s : Session) :
  In s (BackupGenerator._find_candidate_sessions bg all_sessions slot_start
          slot_end exclude_ids)
  <-> In s all_sessions /\ ~ In (session_id s) exclude_ids
      /\ within_tolerance s slot_start slot_end.
Proof.
  rewrite find_candidates_filter, filter_In, andb_true_iff, negb_true_iff.
  rewrite session_fits_slot_iff, <- not_true_iff_false, id_in_iff. tauto.
Qed.

Lemma rank_sorted_map (candidates : list Session) (slot : TimeSlot) :
  BackupGenerator._rank_backup_candidates bg candidates slot
  = sorted BackupGenerator.backup_desc (map (scored bg slot) candidates).
Proof. destruct candidates; reflexivity. Qed.

Lemma rank_In (candidates : list Session) (slot : TimeSlot) (b : Session) :
  In b (BackupGenerator._rank_backup_candidates bg candidates slot)
  <-> exists c, In c candidates /\ b = scored bg slot c.
Proof.
  rewrite rank_sorted_map, sorted_In, in_map_iff. split; intros (c&H1&H2); eauto.
Qed.

Lemma rank_StronglySorted (candidates : list Session) (slot : TimeSlot) :
  StronglySorted by_backup_score_desc
    (BackupGenerator._rank_backup_candidates bg candidates slot).
Proof.
  rewrite rank_sorted_map.
  eapply StronglySorted_ind with
    (P := fun l => StronglySorted by_backup_score_desc l);
    [constructor | |
     apply (sorted_StronglySorted BackupGenerator.backup_desc)].
  - intros a l _ IH Hall. constructor; [exact IH|].
    eapply Forall_impl; [|exact Hall].
    intros x Hx. now apply Qle_bool_iff.
  - intros x y H. now apply Qle_bool_total.
  - intros x y z H1 H2. unfold BackupGenerator.backup_desc in *.
    eapply Qle_bool_trans; eauto.
Qed.

Lemma generate_backups_entry (all_sessions primary_sessions : list Session)
    (time_slots : list TimeSlot) (k : string) (pool : list Session) :
  In (k, pool)
     (BackupGenerator.generate_backups bg all_sessions primary_sessions time_slots) ->
  exists slot, In slot time_slots /\ k = slot_id slot
               /\ pool = pool_of bg all_sessions primary_sessions slot.
Proof.
  unfold BackupGenerator.generate_backups. intros H.
  apply (dict_fill_In slot_id (pool_of bg all_sessions primary_sessions)) in H.
  destruct H as [[]|H]. exact H.
Qed.
End BackupFacts.

Lemma dict_set_has_key {V} (k : string) (v : V) (d : dict V) :
  In (k, v) (dict_set k v d).
Proof.
  induction d as [|[k0 v0] r IH]; simpl; [auto|].
  destruct (String.eqb k k0); simpl; auto.
Qed.

Lemma dict_set_keeps_key {V} (k k' : string) (v' : V) (d : dict V) :
  (exists v, In (k, v) d) -> exists v, In (k, v) (dict_set k' v' d).
Proof.
  intros (v&H). induction d as [|[k0 v0] r IH]; simpl; [destruct H|].
  destruct (String.eqb k' k0) eqn:E.
  - apply String.eqb_eq in E. subst k0. destruct H as [H|H].
    + injection H as -> ->. exists v'. now left.
    + exists v. now right.
  - destruct H as [H|H].
    + exists v. now left.
    + destruct (IH H) as (w&Hw). exists w. now right.
Qed.

Lemma dict_fill_has_key {X V} (key : X -> string) (val : X -> V)
    (l : list X) (d0 : dict V) (x : X) :
  In x l ->
  exists v, In (key x, v) (fold_left (fun d y => dict_set (key y) (val y) d) l d0).
Proof.
  assert (K : forall l d k, (exists v, In (k, v) d) ->
            exists v : V, In (k, v)
              (fold_left (fun d y => dict_set (key y) (val y) d) l d)).
  { clear. induction l as [|y r IH]; simpl; intros d k H; [exact H|].
    apply IH. now apply dict_set_keeps_key. }
  revert d0. induction l as [|y r IH]; simpl; intros d0 H; [destruct H|].
  destruct H as [->|H]; [|now apply IH].
  apply K. eexists. apply dict_set_has_key.
Qed.

(** C7.  [generate_backups] stores a pool under the id of every slot, and
    every stored pool belongs to a slot for which: the candidate set is
    exactly the sessions whose id is not among the primary ids and whose
    start and end each differ from the slot's by at most 30 minutes; the
    ranking is a permutation of the candidates, each annotated with its
    backup score, sorted by descending backup score; the pool is the first
    max(min_backup_sessions, 3) entries of the ranking (all of them when
    there are fewer), so it is sorted by descending backup score and its
    length is at most max(min_backup_sessions, 3). *)
Theorem backup_pool_candidates_sorted_bounded
    (bg : BackupGenerator.t) (all_sessions primary_sessions : list Session)
    (time_slots : list TimeSlot) :
  let pools :=
    BackupGenerator.generate_backups bg all_sessions primary_sessions time_slots in
  (forall slot, In slot time_slots -> exists pool, In (slot_id slot, pool) pools)
  /\ (forall k pool, In (k, pool) pools ->
        exists slot, In slot time_slots /\ k = slot_id slot
                     /\ pool_as_specified bg all_sessions primary_sessions slot pool).
Proof.
  split.
  - intros slot H.
    apply (dict_fill_has_key slot_id (pool_of bg all_sessions primary_sessions)
             time_slots [] slot H).
  - intros k pool H.
    apply generate_backups_entry in H as (slot&Hs&->&->).
    exists slot. split; [exact Hs|]. split; [reflexivity|].
    unfold pool_as_specified, pool_of. cbv zeta.
    set (candidates :=
           BackupGenerator._find_candidate_sessions bg all_sessions
             (slot_start_time slot) (slot_end_time slot)
             (map session_id primary_sessions)).
    assert (P : Permutation
                  (BackupGenerator._rank_backup_candidates bg candidates slot)
                  (map (scored bg slot) candidates))
      by (rewrite rank_sorted_map; apply sorted_perm).
    assert (E : slice_to (BackupGenerator._rank_backup_candidates bg candidates slot)
                  (Z.max (BackupGenerator.min_backup_sessions bg) 3)
                = firstn (Z.to_nat (Z.max (BackupGenerator.min_backup_sessions bg) 3))
                    (BackupGenerator._rank_backup_candidates bg candidates slot)).
    { unfold slice_to.
      destruct (Z.max (BackupGenerator.min_backup_sessions bg) 3 <? 0) eqn:N;
        [apply Z.ltb_lt in N; lia|reflexivity]. }
    split; [intros s; apply find_candidates_In|].
    split; [exact P|]. split; [apply rank_StronglySorted|].
    split; [exact E|]. split; [|split; [|split; [|split]]].
    + rewrite E, length_firstn, (Permutation_length P), length_map. reflexivity.
    + intros b Hb. apply slice_to_In in Hb. now apply rank_In in Hb.
    + apply slice_to_subseq.
    + eapply subseq_StronglySorted; [apply slice_to_subseq|].
      apply rank_StronglySorted.
    + apply slice_to_length. lia.
Qed.

Lemma backup_pool_candidates_sorted_bounded_witness :
  exists slot,
    In slot [Scenario.afternoon_slot] /\ "slot_1" = slot_id slot
    /\ pool_as_specified (BackupGenerator.__init__ Config.default)
         [Scenario.star; Scenario.session "late" "2025-12-01" "14:20" "15:10" 0.5%Q]
         [] slot
         (pool_of (BackupGenerator.__init__ Config.default)
            [Scenario.star; Scenario.session "late" "2025-12-01" "14:20" "15:10" 0.5%Q]
            [] Scenario.afternoon_slot).
Proof.
  apply (backup_pool_candidates_sorted_bounded
           (BackupGenerator.__init__ Config.default)
           [Scenario.star; Scenario.session "late" "2025-12-01" "14:20" "15:10" 0.5%Q]
           [] [Scenario.afternoon_slot]).
  vm_compute. left. reflexivity.
Defined.

(** ** The backup score (C10) *)

Section BackupScore.
Variable bg : BackupGenerator.t.

Lemma Qmax0_le (x c : Q) : (0 <= c -> x <= c -> Py.Qmax 0 x <= c)%Q.
Proof.
  intros H0 Hx. unfold Py.Qmax. now destruct (Qltb 0 x).
Qed.

Lemma time_bonus_shape (session : Session) (slot : TimeSlot) :
  BackupGenerator._calculate_time_compatibility_bonus bg session slot = 0.0%Q
  \/ exists d1 d2 : Q,
       BackupGenerator._calculate_time_compatibility_bonus bg session slot
       = ((Py.Qmax 0 (0.2 - (Qabs d1 / 60) * 0.1)
           + Py.Qmax 0 (0.2 - (Qabs d2 / 60) * 0.1)) / 2)%Q.
Proof.
  unfold BackupGenerator._calculate_time_compatibility_bonus, try_except.
  destruct (negb (truthy (start_time session)) || negb (truthy (end_time session)));
    [now left|].
  destruct (strptime (start_time session)) as [?|a]; [now left|].
  destruct (strptime (end_time session)) as [?|b]; [now left|].
  destruct (strptime (Some (slot_start_time slot))) as [?|c]; [now left|].
  destruct (strptime (Some (slot_end_time slot))) as [?|d]; [now left|].
  right. do 2 eexists. reflexivity.
Qed.

Lemma time_bonus_cap (session : Session) (slot : TimeSlot) :
  (BackupGenerator._calculate_time_compatibility_bonus bg session slot <= 0.2)%Q.
Proof.
  destruct (time_bonus_shape session slot) as [->|(d1&d2&->)].
  - unfold Qle; simpl; lia.
  - assert (forall d, 0 <= Qabs d / 60)%Q as N.
    { intros d. apply Qmult_le_0_compat; [apply Qabs_nonneg|].
      unfold Qle; simpl; lia. }
    pose proof (N d1) as H1. pose proof (N d2) as H2.
    set (t1 := (Qabs d1 / 60)%Q) in *. set (t2 := (Qabs d2 / 60)%Q) in *.
    assert (Py.Qmax 0 (0.2 - t1 * 0.1) <= 0.2)%Q as B1
      by (apply Qmax0_le; lra).
    assert (Py.Qmax 0 (0.2 - t2 * 0.1) <= 0.2)%Q as B2
      by (apply Qmax0_le; lra).
    set (m1 := Py.Qmax 0 (0.2 - t1 * 0.1)) in *.
    set (m2 := Py.Qmax 0 (0.2 - t2 * 0.1)) in *.
    apply Qle_shift_div_r; [reflexivity|]. lra.
Qed.

Lemma diversity_bonus_cap (session : Session) :
  (BackupGenerator._calculate_diversity_bonus bg session <= 0.15)%Q.
Proof. apply Qmin_le_l. Qed.

Lemma venue_bonus_cap (session : Session) :
  (BackupGenerator._calculate_venue_bonus bg session <= 0.1)%Q.
Proof.
  unfold BackupGenerator._calculate_venue_bonus, BackupGenerator.venue_scores.
  simpl find.
  repeat match goal with
         | |- context [if ?c then _ else _] => destruct c
         end; simpl; unfold Qle; simpl; lia.
Qed.

Lemma backup_score_le_1 (session : Session) (slot : TimeSlot) :
  (BackupGenerator._calculate_backup_score bg session slot <= 1)%Q.
Proof.
  unfold BackupGenerator._calculate_backup_score.
  eapply Qle_trans; [apply Qmin_le_l|]. unfold Qle; simpl; lia.
Qed.
End BackupScore.

(** C10.  The backup score of any candidate for any slot is at most 1.0:
    it is min(1.0, 0.7 x score + time bonus + diversity bonus + venue
    bonus), where the three bonuses are at most 0.2, 0.15 and 0.1; every
    backup stored by [generate_backups] carries such a score.  The clamp is
    needed: a session of score 1.0 at the slot's own times, with four
    high-value keywords, at the Venetian, has the sum 1.15 and the score
    1.0. *)
Theorem backup_score_clamped_to_one :
  (forall bg session slot,
     (BackupGenerator._calculate_backup_score bg session slot <= 1)%Q
     /\ BackupGenerator._calculate_backup_score bg session slot
        = Py.Qmin 1.0
            (score session * 0.7
             + BackupGenerator._calculate_time_compatibility_bonus bg session slot
             + BackupGenerator._calculate_diversity_bonus bg session
             + BackupGenerator._calculate_venue_bonus bg session)%Q
     /\ (BackupGenerator._calculate_time_compatibility_bonus bg session slot <= 0.2)%Q
     /\ (BackupGenerator._calculate_diversity_bonus bg session <= 0.15)%Q
     /\ (BackupGenerator._calculate_venue_bonus bg session <= 0.1)%Q)
  /\ (forall bg all_sessions primary_sessions time_slots k pool b,
        In (k, pool)
           (BackupGenerator.generate_backups bg all_sessions primary_sessions time_slots) ->
        In b pool ->
        exists q, backup_score b = Some q /\ (q <= 1)%Q)
  /\ (let bg := BackupGenerator.__init__ Config.default in
      (score Scenario.star * 0.7
       + BackupGenerator._calculate_time_compatibility_bonus bg Scenario.star
           Scenario.afternoon_slot
       + BackupGenerator._calculate_diversity_bonus bg Scenario.star
       + BackupGenerator._calculate_venue_bonus bg Scenario.star == 1.15)%Q
      /\ (BackupGenerator._calculate_backup_score bg Scenario.star
            Scenario.afternoon_slot == 1)%Q).
Proof.
  split; [|split].
  - intros bg session slot. split; [apply backup_score_le_1|].
    split; [reflexivity|].
    split; [apply time_bonus_cap|].
    split; [apply diversity_bonus_cap | apply venue_bonus_cap].
  - intros bg all_sessions primary_sessions time_slots k pool b H Hb.
    apply generate_backups_entry in H as (slot&_&_&->).
    apply slice_to_In, rank_In in Hb as (c&_&->).
    eexists. split; [reflexivity|]. apply backup_score_le_1.
  - split; vm_compute; reflexivity.
Qed.

Lemma backup_score_clamped_to_one_witness :
  exists q,
    backup_score
      (with_backup_score Scenario.star
         (BackupGenerator._calculate_backup_score
            (BackupGenerator.__init__ Config.default) Scenario.star
            Scenario.afternoon_slot)) = Some q
    /\ (q <= 1)%Q.
Proof.
  apply (proj1 (proj2 backup_score_clamped_to_one)
           (BackupGenerator.__init__ Config.default) [Scenario.star] []
           [Scenario.afternoon_slot] "slot_1"
           [with_backup_score Scenario.star
              (BackupGenerator._calculate_backup_score
                 (BackupGenerator.__init__ Config.default) Scenario.star
                 Scenario.afternoon_slot)]).
  - vm_compute. left. reflexivity.
  - left. reflexivity.
Defined.

(** ** The session scorer (C3, C4) *)

Lemma venue_fold_ge_half (venue : string) (table : dict Q) (best : Q) :
  (0.5 <= best)%Q ->
  (0.5 <= fold_left
            (fun best_score entry =>
               if str_in (fst entry) venue then Py.Qmax best_score (snd entry)
               else best_score)
            table best)%Q.
Proof.
  revert best. induction table as [|e r IH]; simpl; intros best H; [exact H|].
  apply IH. destruct (str_in (fst e) venue); [|exact H].
  eapply Qle_trans; [exact H | apply Qmax_ge_l].
Qed.

(** The part of C3 that holds: no venue, or a venue that matches no entry
    of the table, scores 0.5. *)
Lemma venue_component_unknown (self : SessionScorer.t) (session : Session) :
  venue session = None \/ venue session = Some ""
  \/ (forall entry, In entry (SessionScorer.venue_convenience_scores self) ->
        str_in (fst entry) (lower (or_empty (venue session))) = false) ->
  SessionScorer._score_venue_convenience self session = 0.5%Q.
Proof.
  unfold SessionScorer._score_venue_convenience.
  intros [->|[->|H]]; try reflexivity.
  destruct (nonempty (lower (or_empty (venue session)))); [simpl|reflexivity].
  induction (SessionScorer.venue_convenience_scores self) as [|e r IH];
    simpl; [reflexivity|].
  rewrite (H e) by now left. apply IH. intros entry He. apply H. now right.
Qed.

(** C3 (the code departs from the claim).  The venue component is never
    below 0.5, whatever the venue: the running best starts at 0.5 and only
    grows.  In particular the excluded venues 'MGM Grand' and 'Mandalay
    Bay', entered in the table with 0.0, score 0.5 and not 0.0. *)
Theorem excluded_venue_scores_half :
  (forall session,
     (0.5 <= SessionScorer._score_venue_convenience SessionScorer.attributes session)%Q)
  /\ (SessionScorer._score_venue_convenience SessionScorer.attributes
        (Scenario.venue_session (Some "MGM Grand")) == 0.5)%Q
  /\ (SessionScorer._score_venue_convenience SessionScorer.attributes
        (Scenario.venue_session (Some "Mandalay Bay Convention Center")) == 0.5)%Q
  /\ dict_get "mgm grand" (SessionScorer.venue_convenience_scores SessionScorer.attributes)
     = Some 0.0%Q.
Proof.
  split; [|repeat split; vm_compute; reflexivity].
  intros session. unfold SessionScorer._score_venue_convenience.
  destruct (negb (nonempty (lower (or_empty (venue session))))).
  - apply Qle_refl.
  - apply venue_fold_ge_half, Qle_refl.
Qed.



(** ** Scores produced by the scorer are not negative

    This is what makes the hypothesis of C6 hold in the pipeline. *)

Ltac qconst := unfold Qle; simpl; lia.

Lemma Qmin_glb (a b c : Q) : (c <= a -> c <= b -> c <= Py.Qmin a b)%Q.
Proof. intros Ha Hb. unfold Py.Qmin. now destruct (Qltb b a). Qed.

Lemma fold_bonus_ge {X} (hit : X -> bool) (step lo : Q) (l : list X) (acc : Q) :
  (0 <= step)%Q -> (lo <= acc)%Q ->
  (lo <= fold_left (fun a x => if hit x then a + step else a) l acc)%Q.
Proof.
  intros Hs. revert acc. induction l as [|x r IH]; simpl; intros acc H; [exact H|].
  apply IH. destruct (hit x); [|exact H]. lra.
Qed.

Lemma count_bonus_nonneg {X} (l : list X) (c : Q) :
  (0 <= c)%Q -> (0 <= inject_Z (Z.of_nat (List.length l)) * c)%Q.
Proof.
  intros Hc. apply Qmult_le_0_compat; [|exact Hc].
  unfold Qle. simpl. lia.
Qed.

Lemma round_half_even_nonneg (x : Q) : (0 <= x)%Q -> 0 <= round_half_even x.
Proof.
  intros H. assert (0 <= Qnum x) as Hn by (unfold Qle in H; simpl in H; lia).
  unfold round_half_even.
  assert (0 <= Qnum x / Z.pos (Qden x)) as Hd by (apply Z.div_pos; lia).
  destruct (2 * (Qnum x mod Z.pos (Qden x)) ?= Z.pos (Qden x));
    [destruct (Z.even _)| |]; lia.
Qed.

Lemma round_nonneg (x : Q) (n : nat) : (0 <= x)%Q -> (0 <= round x n)%Q.
Proof.
  intros H. unfold round, Qle. simpl.
  rewrite Z.mul_1_r. apply round_half_even_nonneg.
  apply Qmult_le_0_compat; [exact H|].
  unfold Qle. simpl. rewrite Z.mul_1_r. apply Z.pow_nonneg. lia.
Qed.

Section ScorerRange.
Let self := SessionScorer.attributes.

Lemma keyword_score_nonneg (session : Session) :
  (0 <= SessionScorer._score_keyword_relevance self session)%Q.
Proof.
  unfold SessionScorer._score_keyword_relevance. cbv zeta.
  generalize (keywords_matched session). intros [|k r]; [qconst|].
  apply Qmin_glb; [qconst|].
  assert (0 <= Py.Qmin 0.3 (inject_Z (Z.of_nat (List.length (k :: r))) * 0.1))%Q as M
    by (apply Qmin_glb; [|apply count_bonus_nonneg]; qconst).
  match goal with
  | |- (0 <= 0.5 + _ + Py.Qmin 0.2 ?f)%Q =>
      assert (0 <= Py.Qmin 0.2 f)%Q as T
  end.
  { apply Qmin_glb; [qconst|].
    apply (fold_bonus_ge (fun keyword => str_in keyword _) 0.1 0);
      qconst. }
  lra.
Qed.

Lemma level_score_nonneg (session : Session) :
  (0 <= SessionScorer._score_session_level self session)%Q.
Proof.
  unfold SessionScorer._score_session_level.
  destruct (negb (nonempty (lower (or_empty (level session)))));
    [qconst|].
  simpl dict_get.
  repeat match goal with
         | |- context [if ?c then _ else _] => destruct c
         end; qconst.
Qed.

Lemma venue_score_nonneg (session : Session) :
  (0 <= SessionScorer._score_venue_convenience self session)%Q.
Proof.
  apply Qle_trans with (y := 0.5%Q); [qconst|].
  unfold SessionScorer._score_venue_convenience.
  destruct (negb (nonempty (lower (or_empty (venue session))))).
  - apply Qle_refl.
  - apply venue_fold_ge_half, Qle_refl.
Qed.

Lemma speaker_score_nonneg (session : Session) :
  (0 <= SessionScorer._score_speaker_reputation self session)%Q.
Proof.
  unfold SessionScorer._score_speaker_reputation. cbv zeta.
  generalize (speakers session). intros [|k r]; [qconst|].
  apply Qmin_glb; [qconst|].
  assert (0 <= Py.Qmin 0.3 (inject_Z (Z.of_nat (List.length (k :: r))) * 0.1))%Q as M
    by (apply Qmin_glb; [|apply count_bonus_nonneg]; qconst).
  match goal with
  | |- (0 <= 0.5 + _ + Py.Qmin 0.2 ?f)%Q =>
      assert (0 <= Py.Qmin 0.2 f)%Q as T
  end.
  { apply Qmin_glb; [qconst|].
    apply (fold_bonus_ge
             (fun speaker =>
                existsb (fun indicator => str_in indicator (lower speaker))
                  ["aws"; "amazon"; "principal"; "senior"]) 0.1 0);
      qconst. }
  lra.
Qed.

Lemma uniqueness_score_nonneg (session : Session) :
  (0 <= SessionScorer._score_session_uniqueness self session)%Q.
Proof.
  unfold SessionScorer._score_session_uniqueness. cbv zeta.
  apply Qmin_glb; [qconst|].
  assert (forall l acc, (0 <= acc)%Q ->
            (0 <= fold_left
                    (fun acc indicator =>
                       if str_in indicator (lower (get_default (title session) ""))
                       then acc + 0.1
                       else if str_in indicator (lower (or_empty (description session)))
                            then acc + 0.05 else acc) l acc)%Q) as G.
  { induction l as [|x r IH]; simpl; intros acc H; [exact H|].
    apply IH. repeat match goal with
                     | |- context [if ?c then _ else _] => destruct c
                     end; lra. }
  apply G. qconst.
Qed.

Lemma total_score_nonneg (session : Session) :
  (0 <= total_score (SessionScorer._calculate_session_score self session))%Q.
Proof.
  unfold SessionScorer._calculate_session_score.
  cbn [total_score keyword_score level_score venue_score speaker_score
       uniqueness_score].
  apply round_nonneg.
  pose proof (keyword_score_nonneg session).
  pose proof (level_score_nonneg session).
  pose proof (venue_score_nonneg session).
  pose proof (speaker_score_nonneg session).
  pose proof (uniqueness_score_nonneg session).
  unfold self in *. cbn [SessionScorer.scoring_weights SessionScorer.attributes
    keyword_relevance session_level venue_convenience speaker_reputation
    session_uniqueness].
  lra.
Qed.

(** Every session that leaves [score_sessions] has a score of at least 0,
    so above the -1 that the primary assigner starts from. *)
Lemma score_sessions_nonneg (sessions : list Session) (s : Session) :
  In s (SessionScorer.score_sessions self sessions) -> (0 <= score s)%Q.
Proof.
  unfold SessionScorer.score_sessions. rewrite sorted_In, in_map_iff.
  intros (x&<-&_). apply total_score_nonneg.
Qed.

Lemma score_sessions_above_minus_one (sessions : list Session) (s : Session) :
  In s (SessionScorer.score_sessions self sessions) -> (-1 < score s)%Q.
Proof.
  intros H. apply score_sessions_nonneg in H.
  eapply Qlt_le_trans; [|exact H]. reflexivity.
Qed.
End ScorerRange.

(** ** The schedule summary (C2) *)

(** When the summary is computed the schedule dict holds the days only, so
    its length is the number of days: the efficiency divides by one less. *)
Lemma efficiency_formula (self : SchedulingAlgorithm.t) (schedule : dict ScheduleEntry) :
  (forall k v, In (k, v) schedule -> k <> "summary") ->
  let s := SchedulingAlgorithm._generate_schedule_summary self schedule in
  total_conference_days s = Z.of_nat (List.length schedule)
  /\ schedule_efficiency s
     = round (if total_conference_days s >? 1
              then (inject_Z (total_scheduled_sessions s)
                    / inject_Z (total_conference_days s - 1))%Q
              else 0%Q) 1.
Proof.
  intros H.
  assert (E : List.length
                (filter (fun k => negb (String.eqb k "summary")) (dict_keys schedule))
              = List.length schedule).
  { unfold dict_keys. induction schedule as [|[k v] r IH]; simpl; [reflexivity|].
    destruct (String.eqb k "summary") eqn:K.
    - apply String.eqb_eq in K. exfalso. apply (H k v); [now left|exact K].
    - simpl. f_equal. apply IH. intros k' v' Hin. apply (H k' v'). now right. }
  cbv zeta. unfold SchedulingAlgorithm._generate_schedule_summary.
  cbn [total_conference_days schedule_efficiency total_scheduled_sessions].
  rewrite E. split; reflexivity.
Qed.

(** C2 (the code departs from the claim).  Two conference dates with one
    scheduled session each: the summary counts 2 days and 2 scheduled
    sessions, and reports the efficiency 2.0 = 2 / (2 - 1), where the claim
    has 2 / 2 = 1.0.  With a single date and one scheduled session the
    efficiency is 0.0 where the claim has 1.0. *)
Theorem schedule_efficiency_divides_by_days_minus_one :
  (exists s,
     summary_of (SchedulingAlgorithm.create_schedule Scenario.algorithm
                   Config.default Scenario.two_days ["2025-12-01"; "2025-12-02"])
     = Some s
     /\ total_conference_days s = 2
     /\ total_scheduled_sessions s = 2
     /\ (schedule_efficiency s == 2)%Q
     /\ ~ (schedule_efficiency s == round (2 / 2) 1)%Q)
  /\ (exists s,
        summary_of (SchedulingAlgorithm.create_schedule Scenario.algorithm
                      Config.default Scenario.two_days ["2025-12-01"])
        = Some s
        /\ total_conference_days s = 1
        /\ total_scheduled_sessions s = 1
        /\ (schedule_efficiency s == 0)%Q
        /\ ~ (schedule_efficiency s == round (1 / 1) 1)%Q).
Proof.
  split; eexists; (split; [vm_compute; reflexivity|]);
    repeat split; try (vm_compute; reflexivity); vm_compute; discriminate.
Qed.

(** ** Ordered pairs of a list that grows at its end *)

Lemma ForallOrdPairs_snoc {A} (R : A -> A -> Prop) (l : list A) (x : A) :
  ForallOrdPairs R l -> Forall (fun a => R a x) l -> ForallOrdPairs R (l ++ [x]).
Proof.
  induction 1 as [|a l Ha Hl IH]; simpl; intros Hx.
  - repeat constructor.
  - inversion Hx; subst. constructor; [|now apply IH].
    apply Forall_app. split; [exact Ha|]. now repeat constructor.
Qed.

Lemma ForallOrdPairs_subseq {A} (R : A -> A -> Prop) (l1 l2 : list A) :
  subseq l1 l2 -> ForallOrdPairs R l2 -> ForallOrdPairs R l1.
Proof.
  induction 1; intros H2; auto.
  - inversion H2; auto.
  - inversion H2 as [|? ? Ha Hl]; subst. constructor; auto.
    rewrite Forall_forall in *. intros y Hy. apply Ha. eapply subseq_In; eauto.
Qed.

(** ** The slot builder (C8) *)

Section SlotBuilder.
Variable self : SchedulingAlgorithm.t.
Variable date : string.

Lemma accepted_snoc (pre : list (string * string)) (r : string * string) :
  accepted self date (pre ++ [r])
  = SchedulingAlgorithm.slot_step self date (accepted self date pre) r.
Proof. unfold accepted. now rewrite fold_left_app. Qed.

Lemma slot_step_cases (acc : list TimeSlot) (r : string * string) :
  (SchedulingAlgorithm.slot_step self date acc r = acc
   /\ (lunch self r = true \/ exists slot, In slot acc /\ overlap self r slot = true))
  \/ (exists slot,
        SchedulingAlgorithm.slot_step self date acc r = acc ++ [slot]
        /\ range_of slot = r
        /\ lunch self r = false
        /\ Forall (fun e => overlap self r e = false) acc).
Proof.
  unfold SchedulingAlgorithm.slot_step, lunch, overlap.
  destruct (SchedulingAlgorithm._is_lunch_time self (fst r) (snd r)) eqn:L;
    [left; auto|].
  match goal with
  | |- context [existsb ?f acc] => destruct (existsb f acc) eqn:X
  end; simpl.
  - left. split; [reflexivity|]. right.
    apply existsb_exists in X as (slot&Hs&Ho). eauto.
  - right. eexists. split; [reflexivity|]. split; [now destruct r|].
    split; [reflexivity|].
    apply Forall_forall. intros e He.
    destruct (SchedulingAlgorithm._times_overlap self (fst r) (snd r)
                (slot_start_time e) (slot_end_time e)) eqn:O; [|reflexivity].
    assert (existsb
              (fun existing_slot =>
                 SchedulingAlgorithm._times_overlap self (fst r) (snd r)
                   (slot_start_time existing_slot) (slot_end_time existing_slot))
              acc = true) as Y by (apply existsb_exists; eauto).
    congruence.
Qed.

Lemma accepted_invariant (ranges : list (string * string)) :
  slots_invariant self ranges (accepted self date ranges).
Proof.
  induction ranges as [|r pre IH] using rev_ind.
  - split; [apply subseq_nil|]. split; [constructor|].
    split; [constructor|]. intros q [].
  - rewrite accepted_snoc. destruct IH as (S1&S2&S3&S4).
    destruct (slot_step_cases (accepted self date pre) r)
      as [(->&Hr)|(slot&->&Hrange&Hl&Ho)].
    + repeat split; auto.
      * now apply subseq_snoc_skip.
      * intros q Hq. apply in_app_or in Hq as [Hq|[<-|[]]]; [now apply S4|].
        destruct Hr as [Hr|Hr]; auto.
    + repeat split.
      * rewrite map_app. simpl. rewrite Hrange. now apply subseq_snoc_keep.
      * apply Forall_app. split; [exact S2|]. repeat constructor.
        now rewrite Hrange.
      * apply ForallOrdPairs_snoc; [exact S3|]. now rewrite Hrange.
      * intros q Hq. apply in_app_or in Hq as [Hq|[<-|[]]].
        -- destruct (S4 q Hq) as [H|[(s&Hs&H)|(s&Hs&H)]]; auto.
           ++ right. left. exists s. split; [apply in_or_app|]; auto.
           ++ right. right. exists s. split; [apply in_or_app|]; auto.
        -- right. right. exists slot. split; [|exact Hrange].
           apply in_or_app. right. now left.
Qed.

Lemma session_times_spec (sessions : list Session) :
  SchedulingAlgorithm.session_times sessions
  = map (fun s => (or_empty (start_time s), or_empty (end_time s)))
        (filter (fun s => truthy (start_time s) && truthy (end_time s)) sessions).
Proof.
  unfold SchedulingAlgorithm.session_times.
  match goal with
  | |- fold_left ?step _ _ = map ?g (filter ?f _) =>
      enough (forall acc, fold_left step sessions acc
                          = acc ++ map g (filter f sessions)) as G
        by apply (G [])
  end.
  induction sessions as [|x r IH]; simpl; intros acc.
  - now rewrite app_nil_r.
  - rewrite IH. destruct (truthy (start_time x) && truthy (end_time x));
      [|reflexivity].
    simpl. now rewrite <- app_assoc.
Qed.

Lemma truthy_Some (o : option string) :
  truthy o = true <-> exists s, o = Some s /\ s <> "".
Proof.
  destruct o as [[|c r]|]; simpl; split.
  - discriminate.
  - intros (s&H&N). injection H as <-. congruence.
  - intros _. eexists. split; [reflexivity|discriminate].
  - reflexivity.
  - discriminate.
  - intros (s&H&_). discriminate.
Qed.

Lemma session_times_In (sessions : list Session) (a b : string) :
  In (a, b) (SchedulingAlgorithm.session_times sessions)
  <-> exists s, In s sessions /\ start_time s = Some a /\ end_time s = Some b
                /\ a <> "" /\ b <> "".
Proof.
  rewrite session_times_spec, in_map_iff. split.
  - intros (s&E&H). apply filter_In in H as (Hin&T).
    apply andb_true_iff in T as (Ta&Tb).
    apply truthy_Some in Ta as (x&Ex&Nx), Tb as (y&Ey&Ny).
    rewrite Ex, Ey in E. simpl in E. injection E as <- <-. eauto 10.
  - intros (s&Hin&Ea&Eb&Na&Nb). exists s. rewrite Ea, Eb. split; [reflexivity|].
    apply filter_In. split; [exact Hin|]. rewrite Ea, Eb.
    destruct a, b; simpl; congruence.
Qed.

Lemma generate_time_slots_spec (sessions : list Session) :
  SchedulingAlgorithm._generate_time_slots self sessions date
  = slice_to (accepted self date (sorted pair_leb (SchedulingAlgorithm.session_times sessions)))
      (SchedulingAlgorithm.max_sessions_per_day self).
Proof.
  unfold SchedulingAlgorithm._generate_time_slots.
  destruct (SchedulingAlgorithm.session_times sessions) eqn:E; [|reflexivity].
  simpl. unfold slice_to. rewrite !firstn_nil. now destruct (_ <? 0).
Qed.
End SlotBuilder.

Lemma StronglySorted_weaken {A} (R R' : A -> A -> Prop) (l : list A) :
  (forall x y, R x y -> R' x y) -> StronglySorted R l -> StronglySorted R' l.
Proof.
  intros W. induction 1 as [|x r Hs IH Hall]; constructor; auto.
  eapply Forall_impl; [|exact Hall]. intros y. apply W.
Qed.

Lemma filter_none {A} (f : A -> bool) (l : list A) :
  (forall x, In x l -> f x = false) -> filter f l = [].
Proof.
  induction l as [|x r IH]; simpl; intros H; [reflexivity|].
  rewrite (H x) by now left. apply IH. intros y Hy. apply H. now right.
Qed.

(** C8.  For a non-negative max_sessions_per_day, the slot builder collects
    the (start, end) pairs of the sessions that have both, sorts them
    ascending by start, accepts each range in that order unless it overlaps
    the lunch window (start < lunch end and end > lunch start) or overlaps
    an already accepted slot, and keeps the first max_sessions_per_day
    accepted slots; when no session has both times the result is the empty
    list. *)
Theorem slot_builder_greedy_non_overlapping
    (self : SchedulingAlgorithm.t) (sessions : list Session) (date : string) :
  0 <= SchedulingAlgorithm.max_sessions_per_day self ->
  slots_as_specified self sessions date.
Proof.
  intros Hmax. unfold slots_as_specified. cbv zeta.
  rewrite generate_time_slots_spec.
  set (ranges := sorted pair_leb (SchedulingAlgorithm.session_times sessions)).
  pose proof (accepted_invariant self date ranges) as Inv.
  assert (Hslice : slice_to (accepted self date ranges)
                     (SchedulingAlgorithm.max_sessions_per_day self)
                   = firstn (Z.to_nat (SchedulingAlgorithm.max_sessions_per_day self))
                       (accepted self date ranges)).
  { unfold slice_to.
    destruct (SchedulingAlgorithm.max_sessions_per_day self <? 0) eqn:E;
      [lia|reflexivity]. }
  split; [|split; [|split; [|split; [|split; [|split; [|split; [|split; [|split; [|split]]]]]]]]].
  - intros a b. unfold ranges. rewrite sorted_In. apply session_times_In.
  - apply (StronglySorted_weaken (fun p q => pair_leb p q = true)).
    + intros x y. apply pair_leb_fst.
    + apply sorted_StronglySorted; [apply pair_leb_total | apply pair_leb_trans].
  - exact Inv.
  - intros a b. apply is_lunch_time_iff.
  - intros r slot. apply times_overlap_iff.
  - exact Hslice.
  - now apply slice_to_length.
  - eapply subseq_trans; [|apply Inv]. apply subseq_map, slice_to_subseq.
  - destruct Inv as (_&F&_). rewrite Forall_forall in *.
    intros slot Hs. apply F. eapply slice_to_In; eauto.
  - eapply ForallOrdPairs_subseq; [apply slice_to_subseq | apply Inv].
  - intros Hnone. unfold ranges. rewrite session_times_spec.
    replace (filter _ sessions) with (@nil Session);
      [unfold accepted, slice_to; simpl; rewrite !firstn_nil; now destruct (_ <? 0)|].
    symmetry. now apply filter_none.
Qed.

Lemma slot_builder_greedy_non_overlapping_witness :
  slots_as_specified Scenario.algorithm Scenario.morning "2025-12-01".
Proof.
  apply slot_builder_greedy_non_overlapping. simpl. lia.
Defined.

(** ** The conflict resolver (C5) *)

Section Resolver.
Variable cr : ConflictResolver.t.

Lemma scan_snoc (pre : list Session) (s : Session) :
  scan cr (pre ++ [s]) = ConflictResolver.resolve_step cr (scan cr pre) s.
Proof. unfold scan. now rewrite fold_left_app. Qed.

Lemma resolve_step_cases (acc : list Session) (s : Session) :
  (ConflictResolver.resolve_step cr acc s = acc ++ [s]
   /\ (timed s = false \/ Forall (fun p => conflict cr s p = false) acc))
  \/ (ConflictResolver.resolve_step cr acc s = acc
      /\ timed s = true
      /\ exists p, In p acc /\ conflict cr s p = true).
Proof.
  unfold ConflictResolver.resolve_step, timed, conflict.
  destruct (truthy (scheduled_start s)), (truthy (scheduled_end s)); simpl;
    try (left; split; [reflexivity|now left]).
  match goal with
  | |- context [existsb ?f acc] => destruct (existsb f acc) eqn:X
  end; simpl.
  - right. repeat split. apply existsb_exists in X as (p&Hp&Hc). eauto.
  - left. split; [reflexivity|]. right. apply Forall_forall. intros p Hp.
    match goal with |- ?c = false => destruct c eqn:C end; [|reflexivity].
    rewrite <- X. symmetry. apply existsb_exists. eauto.
Qed.

Lemma scan_invariant (l : list Session) : resolved_invariant cr l (scan cr l).
Proof.
  induction l as [|s pre IH] using rev_ind.
  - split; [apply subseq_nil|]. split; [constructor|]. intros q [].
  - rewrite scan_snoc. destruct IH as (S1&S2&S3).
    destruct (resolve_step_cases (scan cr pre) s) as [(->&Hk)|(->&Ht&p&Hp&Hc)].
    + split; [now apply subseq_snoc_keep|]. split.
      * apply ForallOrdPairs_snoc; [exact S2|].
        destruct Hk as [Hk|Hk].
        -- apply Forall_forall. intros q _ T. congruence.
        -- eapply Forall_impl; [|exact Hk]. auto.
      * intros q Hq. apply in_app_or in Hq as [Hq|[<-|[]]].
        -- destruct (S3 q Hq) as [H|(T&x&Hx&C)].
           ++ left. apply in_or_app. now left.
           ++ right. split; [exact T|]. exists x. split; [|exact C].
              apply in_or_app. now left.
        -- left. apply in_or_app. right. now left.
    + split; [now apply subseq_snoc_skip|]. split; [exact S2|].
      intros q Hq. apply in_app_or in Hq as [Hq|[<-|[]]]; [now apply S3|].
      right. eauto.
Qed.

Lemma resolve_time_conflicts_scan (sessions : list Session) :
  ConflictResolver._resolve_time_conflicts cr sessions
  = scan cr (sorted ConflictResolver.by_start sessions).
Proof. destruct sessions; reflexivity. Qed.

Lemma by_start_total (x y : Session) :
  ConflictResolver.by_start x y = false -> ConflictResolver.by_start y x = true.
Proof. apply str_leb_total. Qed.

Lemma by_start_trans (x y z : Session) :
  ConflictResolver.by_start x y = true -> ConflictResolver.by_start y z = true ->
  ConflictResolver.by_start x z = true.
Proof. apply str_leb_trans. Qed.

Lemma sorted_by_start_StronglySorted (l : list Session) :
  StronglySorted (fun a b => ConflictResolver.by_start a b = true)
    (sorted ConflictResolver.by_start l).
Proof.
  apply sorted_StronglySorted; [apply by_start_total | apply by_start_trans].
Qed.

(** The second sort, in [_optimize_venue_proximity], finds the list in
    order: the final primary list is the resolved one. *)
Lemma resolve_conflicts_primary (primary_sessions : list Session)
    (backup_sessions : dict (list Session)) (time_slots : list TimeSlot) :
  ConflictResolver.primary
    (ConflictResolver.resolve_conflicts cr primary_sessions backup_sessions time_slots)
  = ConflictResolver._resolve_time_conflicts cr primary_sessions.
Proof.
  unfold ConflictResolver.resolve_conflicts, ConflictResolver._optimize_venue_proximity,
    ConflictResolver._reduce_venue_transitions.
  cbn [ConflictResolver.primary].
  apply sorted_fixpoint. rewrite resolve_time_conflicts_scan.
  eapply subseq_StronglySorted; [apply scan_invariant|].
  apply sorted_by_start_StronglySorted.
Qed.
End Resolver.

(** C5.  The resolver sorts the primaries by scheduled start and scans them
    left to right; a session whose buffered interval overlaps that of an
    already accepted session (start1 < end2 + buffer and start2 < end1 +
    buffer) is dropped, never rescheduled, and every other session is
    accepted.  With the 30-minute buffer, of the primaries 09:00-10:00 and
    10:15-11:00 only the first remains, in whichever order they come. *)
Theorem resolver_drops_buffered_overlaps :
  (forall cr primary_sessions, primaries_as_resolved cr primary_sessions)
  /\ (let cr := ConflictResolver.__init__ tt in
      let first := Scenario.primary "p1" "09:00" "10:00" in
      let second := Scenario.primary "p2" "10:15" "11:00" in
      ConflictResolver.buffer_minutes cr = 30
      /\ ConflictResolver.primary
           (ConflictResolver.resolve_conflicts cr [first; second] [] []) = [first]
      /\ ConflictResolver.primary
           (ConflictResolver.resolve_conflicts cr [second; first] [] []) = [first]).
Proof.
  split.
  - intros cr primary_sessions. unfold primaries_as_resolved. cbv zeta.
    rewrite resolve_time_conflicts_scan.
    split; [apply sorted_perm|].
    split; [apply sorted_by_start_StronglySorted|].
    split; [reflexivity|].
    split; [apply scan_invariant|].
    split; [|split].
    + intros pre s. rewrite scan_snoc. apply resolve_step_cases.
    + intros s p. apply sessions_conflict_iff.
    + intros backup_sessions time_slots.
      rewrite resolve_conflicts_primary. apply resolve_time_conflicts_scan.
  - repeat split; vm_compute; reflexivity.
Qed.

(** ** The primary assigner (C6) *)

Section PrimaryAssigner.
Variable sessions : list Session.

Lemma opt_str_eqb_Some (o : option string) (x : string) :
  opt_str_eqb o (Some x) = true <-> o = Some x.
Proof.
  destruct o as [y|]; simpl; [|split; discriminate].
  rewrite String.eqb_eq. split; congruence.
Qed.

Lemma eligible_iff (used : list (option string)) (slot : TimeSlot) (s : Session) :
  eligible used slot s = true <->
  ~ In (session_id s) used
  /\ start_time s = Some (slot_start_time slot)
  /\ end_time s = Some (slot_end_time slot).
Proof.
  unfold eligible.
  rewrite !andb_true_iff, negb_true_iff, !opt_str_eqb_Some,
    <- not_true_iff_false, id_in_iff.
  tauto.
Qed.

Lemma best_for_slot_snoc (l : list Session) (x : Session) (slot : TimeSlot)
    (used : list (option string)) :
  SchedulingAlgorithm.best_for_slot (l ++ [x]) slot used
  = let best := SchedulingAlgorithm.best_for_slot l slot used in
    if eligible used slot x
    then if Qltb (snd best) (score x) then (Some x, score x) else best
    else best.
Proof.
  unfold SchedulingAlgorithm.best_for_slot, eligible.
  rewrite fold_left_app. simpl.
  destruct (BackupGenerator.id_in (session_id x) used); simpl; [reflexivity|].
  destruct (opt_str_eqb (start_time x) (Some (slot_start_time slot))
            && opt_str_eqb (end_time x) (Some (slot_end_time slot)));
    reflexivity.
Qed.

Lemma best_for_slot_invariant (l : list Session) (slot : TimeSlot)
    (used : list (option string)) :
  best_invariant (filter (eligible used slot) l)
    (SchedulingAlgorithm.best_for_slot l slot used).
Proof.
  induction l as [|x pre IH] using rev_ind.
  - split; [reflexivity|]. intros c [].
  - rewrite best_for_slot_snoc, filter_app. cbv zeta. simpl.
    destruct (eligible used slot x) eqn:E; [|now rewrite app_nil_r].
    set (cands := filter (eligible used slot) pre) in *.
    destruct (SchedulingAlgorithm.best_for_slot pre slot used) as [[b|] bs];
      unfold best_invariant in *; simpl in *.
    + destruct IH as (->&Hb&before&after&Hc&Hlt&Hle).
      destruct (Qltb (score b) (score x)) eqn:L; simpl.
      * apply Qltb_iff in L. split; [reflexivity|].
        split; [eapply Qlt_trans; eauto|].
        exists cands, []. split; [reflexivity|]. split; [|intros c []].
        intros c Hin. rewrite Hc in Hin.
        apply in_app_or in Hin as [Hin|[<-|Hin]].
        -- eapply Qlt_trans; [apply Hlt|]; eauto.
        -- exact L.
        -- eapply Qle_lt_trans; [apply Hle|]; eauto.
      * apply Qltb_false_iff in L. split; [reflexivity|]. split; [exact Hb|].
        exists before, (after ++ [x]). split; [|split; [exact Hlt|]].
        -- rewrite Hc, <- app_assoc. reflexivity.
        -- intros c Hin. apply in_app_or in Hin as [Hin|[<-|[]]]; auto.
    + destruct IH as (->&Hall).
      destruct (Qltb (-1) (score x)) eqn:L; simpl.
      * apply Qltb_iff in L. split; [reflexivity|]. split; [exact L|].
        exists cands, []. split; [reflexivity|]. split; [|intros c []].
        intros c Hin. eapply Qle_lt_trans; [apply Hall|]; eauto.
      * apply Qltb_false_iff in L. split; [reflexivity|].
        intros c Hin. apply in_app_or in Hin as [Hin|[<-|[]]]; auto.
Qed.

Hypothesis scores_above_minus_one :
  forall s, In s sessions -> (-1 < score s)%Q.

(** The choice for a slot: nothing when no candidate is eligible, else
    the first candidate of highest score. *)
Lemma best_for_slot_choice (slot : TimeSlot) (used : list (option string)) :
  let candidates := filter (eligible used slot) sessions in
  (candidates = []
   /\ fst (SchedulingAlgorithm.best_for_slot sessions slot used) = None)
  \/ (exists best,
        fst (SchedulingAlgorithm.best_for_slot sessions slot used) = Some best
        /\ first_highest candidates best).
Proof.
  cbv zeta.
  pose proof (best_for_slot_invariant sessions slot used) as Inv.
  unfold best_invariant in Inv.
  destruct (fst (SchedulingAlgorithm.best_for_slot sessions slot used)) as [b|].
  - right. exists b. split; [reflexivity|]. apply Inv.
  - left. split; [|reflexivity].
    destruct (filter (eligible used slot) sessions) as [|c r] eqn:F; [reflexivity|].
    exfalso. assert (In c (filter (eligible used slot) sessions)) as Hc
      by (rewrite F; now left).
    apply filter_In in Hc as (Hc&_).
    apply (Qlt_not_le _ _ (scores_above_minus_one c Hc)).
    apply Inv. now left.
Qed.

Lemma assigned_snoc (pre : list TimeSlot) (slot : TimeSlot) :
  assigned sessions (pre ++ [slot])
  = SchedulingAlgorithm.primary_step sessions (assigned sessions pre) slot.
Proof. unfold assigned. now rewrite fold_left_app. Qed.

(** The used set is the set of ids of the primaries, none twice. *)
Lemma assigned_used (l : list TimeSlot) :
  snd (assigned sessions l) = rev (map session_id (fst (assigned sessions l)))
  /\ NoDup (map session_id (fst (assigned sessions l))).
Proof.
  induction l as [|slot pre IH] using rev_ind.
  - split; [reflexivity|constructor].
  - rewrite assigned_snoc. destruct (assigned sessions pre) as [prim used].
    simpl in IH. destruct IH as (->&Hnd).
    unfold SchedulingAlgorithm.primary_step.
    pose proof (best_for_slot_invariant sessions slot
                  (rev (map session_id prim))) as Inv.
    unfold best_invariant in Inv.
    destruct (fst (SchedulingAlgorithm.best_for_slot sessions slot
                     (rev (map session_id prim)))) as [b|]; simpl; [|auto].
    rewrite map_app, rev_app_distr. simpl. split; [reflexivity|].
    destruct Inv as (_&_&before&after&Hc&_).
    assert (In b (filter (eligible (rev (map session_id prim)) slot) sessions))
      as Hb by (rewrite Hc; apply in_or_app; right; now left).
    apply filter_In in Hb as (_&Hb). apply eligible_iff in Hb as (Hb&_).
    replace (map session_id prim ++ [session_id b])
      with (rev (session_id b :: rev (map session_id prim)))
      by (simpl; now rewrite rev_involutive).
    apply NoDup_rev. constructor; [exact Hb | now apply NoDup_rev].
Qed.
End PrimaryAssigner.

(** C6.  With scores above -1 (the scorer's are at least 0, see
    [score_sessions_above_minus_one]), every slot, in
    order, is filled with the not-yet-used session that has exactly the
    slot's start and end and the highest score, the first such session of
    the input on a tie; a slot without such a session stays empty and the
    later slots are still processed; no session id is assigned twice in the
    day. *)
Theorem primary_assigner_picks_first_highest
    (self : SchedulingAlgorithm.t) (sessions : list Session)
    (time_slots : list TimeSlot) :
  (forall s, In s sessions -> (-1 < score s)%Q) ->
  primaries_as_assigned self sessions time_slots.
Proof.
  intros Hpos. unfold primaries_as_assigned. cbv zeta. split.
  - intros pre slot post ->.
    pose proof (assigned_used sessions pre) as (Hused&_).
    split; [|split; [|split]].
    + intros i. rewrite Hused, <- in_rev. reflexivity.
    + intros s. rewrite filter_In, eligible_iff. tauto.
    + rewrite assigned_snoc.
      destruct (assigned sessions pre) as [prim used] eqn:A. simpl.
      destruct (best_for_slot_choice sessions Hpos slot used)
        as [(Hnil&Hnone)|(best&Hbest&Hfirst)].
      * left. split; [exact Hnil|]. now rewrite Hnone.
      * right. exists best. split; [exact Hfirst|]. now rewrite Hbest.
    + unfold SchedulingAlgorithm._schedule_primary_sessions.
      replace (pre ++ slot :: post) with ((pre ++ [slot]) ++ post)
        by (now rewrite <- app_assoc).
      now rewrite fold_left_app.
  - apply (assigned_used sessions time_slots).
Qed.

Lemma primary_assigner_picks_first_highest_witness :
  primaries_as_assigned Scenario.algorithm
    [ Scenario.session "hi" "2025-12-01" "09:00" "10:00" 0.8%Q;
      Scenario.session "lo" "2025-12-01" "09:00" "10:00" 0.6%Q;
      Scenario.session "pm" "2025-12-01" "14:00" "15:00" 0.6%Q ]
    [ Scenario.afternoon_slot ].
Proof.
  apply primary_assigner_picks_first_highest.
  intros s [<-|[<-|[<-|[]]]]; reflexivity.
Defined.

(** ** The lunch window (C1) *)

Section LunchWindow.
Variable self : SchedulingAlgorithm.t.

Lemma lunch_false_iff (a b : string) :
  lunch self (a, b) = false <-> ~ overlaps_lunch self (Some a) (Some b).
Proof.
  unfold lunch, overlaps_lunch. simpl. rewrite <- is_lunch_time_iff.
  now destruct (SchedulingAlgorithm._is_lunch_time self a b).
Qed.

Lemma generated_slot_not_lunch (sessions : list Session) (date : string)
    (slot : TimeSlot) :
  In slot (SchedulingAlgorithm._generate_time_slots self sessions date) ->
  ~ overlaps_lunch self (Some (slot_start_time slot)) (Some (slot_end_time slot)).
Proof.
  rewrite generate_time_slots_spec. intros H. apply slice_to_In in H.
  destruct (accepted_invariant self date
              (sorted pair_leb (SchedulingAlgorithm.session_times sessions)))
    as (_&F&_).
  rewrite Forall_forall in F. apply lunch_false_iff. now apply (F slot).
Qed.

(** Every assigned primary is a session with exactly the times of one of
    the slots, annotated with that slot. *)
Lemma assigned_from_slot (sessions : list Session) (l : list TimeSlot)
    (p : Session) :
  In p (fst (assigned sessions l)) ->
  exists slot b,
    In slot l /\ In b sessions /\ p = with_slot b slot
    /\ start_time b = Some (slot_start_time slot)
    /\ end_time b = Some (slot_end_time slot).
Proof.
  induction l as [|slot pre IH] using rev_ind; [intros []|].
  rewrite assigned_snoc. destruct (assigned sessions pre) as [prim used].
  unfold SchedulingAlgorithm.primary_step. simpl in IH.
  pose proof (best_for_slot_invariant sessions slot used) as Inv.
  unfold best_invariant in Inv.
  destruct (fst (SchedulingAlgorithm.best_for_slot sessions slot used)) as [b|];
    simpl; intros Hp.
  - apply in_app_or in Hp as [Hp|[<-|[]]].
    + destruct (IH Hp) as (s&c&Hs&R). exists s, c.
      split; [apply in_or_app; now left | exact R].
    + destruct Inv as (_&_&before&after&Hc&_).
      assert (In b (filter (eligible used slot) sessions)) as Hb
        by (rewrite Hc; apply in_or_app; right; now left).
      apply filter_In in Hb as (Hin&Hb). apply eligible_iff in Hb as (_&Hs&He).
      exists slot, b. split; [apply in_or_app; right; now left|]. auto.
  - destruct (IH Hp) as (s&c&Hs&R). exists s, c.
    split; [apply in_or_app; now left | exact R].
Qed.

Lemma validate_slot_backups_In (cr : ConflictResolver.t)
    (times : list (option string * option string)) (backups : list Session)
    (b : Session) :
  In b (ConflictResolver.validate_slot_backups cr times backups) -> In b backups.
Proof.
  unfold ConflictResolver.validate_slot_backups.
  enough (forall acc,
            In b (fold_left
                    (fun validated_slot_backups backup =>
                       if negb (truthy (start_time backup))
                          || negb (truthy (end_time backup))
                       then validated_slot_backups
                       else
                         if negb
                              (existsb
                                 (fun pt =>
                                    ConflictResolver._sessions_conflict cr
                                      (start_time backup) (end_time backup)
                                      (fst pt) (snd pt))
                                 times)
                         then validated_slot_backups ++ [backup]
                         else validated_slot_backups)
                    backups acc) ->
            In b acc \/ In b backups) as G.
  { intros H. destruct (G [] H) as [[]|H']. exact H'. }
  induction backups as [|x r IH]; simpl; intros acc H; [now left|].
  apply IH in H as [H|H]; [|now (right; right)].
  destruct (negb (truthy (start_time x)) || negb (truthy (end_time x)));
    [now left|].
  destruct (negb (existsb _ times)); [|now left].
  apply in_app_or in H as [H|[<-|[]]]; [now left|]. right. now left.
Qed.

Lemma validated_entry (cr : ConflictResolver.t) (primary : list Session)
    (backups : dict (list Session)) (k : string) (pool : list Session)
    (b : Session) :
  In (k, pool) (ConflictResolver._validate_backup_sessions cr primary backups) ->
  In b pool ->
  exists pool0, In (k, pool0) backups /\ In b pool0.
Proof.
  unfold ConflictResolver._validate_backup_sessions. intros H Hb.
  apply (dict_fill_In fst
           (fun entry =>
              ConflictResolver.validate_slot_backups cr
                (ConflictResolver.primary_times primary) (snd entry))) in H.
  destruct H as [[]|((k0&pool0)&Hin&->&->)]. simpl in *.
  exists pool0. split; [exact Hin|]. eapply validate_slot_backups_In; eauto.
Qed.

(** One day: the primaries come from slots that passed the lunch test, the
    backups from candidates within 30 minutes of such a slot. *)
Lemma daily_lunch_respected
    (cfg : Config.t) (sessions : list Session) (date : string) :
  lunch_respected self
    (SchedulingAlgorithm._create_daily_schedule self cfg sessions date).
Proof.
  unfold lunch_respected, SchedulingAlgorithm._create_daily_schedule.
  cbn [primary_sessions backup_sessions].
  set (sorted_sessions := sorted SessionScorer.score_desc sessions).
  set (slots := SchedulingAlgorithm._generate_time_slots self sorted_sessions date).
  split.
  - intros p Hp. rewrite resolve_conflicts_primary, resolve_time_conflicts_scan in Hp.
    eapply subseq_In in Hp; [|apply scan_invariant].
    apply sorted_In in Hp.
    apply assigned_from_slot in Hp as (slot&b&Hs&_&->&Ea&Eb).
    simpl. rewrite Ea, Eb. eapply generated_slot_not_lunch; eauto.
  - intros k pool b H Hb.
    unfold ConflictResolver.resolve_conflicts,
      ConflictResolver._optimize_venue_proximity in H.
    cbn [ConflictResolver.backups] in H.
    destruct (validated_entry _ _ _ _ _ _ H Hb) as (pool0&H0&Hb0).
    apply generate_backups_entry in H0 as (slot&Hs&_&->).
    apply slice_to_In, rank_In in Hb0 as (c&Hc&->).
    apply find_candidates_In in Hc as (_&_&(x&y&ss&se&Ex&Ey&Es&Ee&Hx&Hy)).
    exists x, y. split; [exact Ex|]. split; [exact Ey|].
    pose proof (generated_slot_not_lunch _ _ _ Hs) as N.
    destruct (Z_lt_dec ss (SchedulingAlgorithm.lunch_end self)) as [L1|L1];
      [|lia].
    destruct (Z_gt_dec se (SchedulingAlgorithm.lunch_start self)) as [L2|L2];
      [|lia].
    exfalso. apply N. exists ss, se. auto.
Qed.

Lemma empty_day_lunch_respected (cfg : Config.t) :
  lunch_respected self (SchedulingAlgorithm.empty_day cfg).
Proof. split; [intros p []|intros k pool b []]. Qed.

(** The days of a schedule: the empty day, or the daily schedule of the
    sessions grouped under the date. *)
Lemma create_schedule_day (cfg : Config.t) (sessions : list Session)
    (conference_dates : list string) (date : string) (d : DailySchedule) :
  In (date, Day d)
     (SchedulingAlgorithm.create_schedule self cfg sessions conference_dates) ->
  d = SchedulingAlgorithm.empty_day cfg
  \/ exists daily_sessions,
       d = SchedulingAlgorithm._create_daily_schedule self cfg daily_sessions date.
Proof.
  unfold SchedulingAlgorithm.create_schedule. intros H.
  apply dict_set_In in H as [[_ H]|H]; [discriminate H|].
  set (by_date := SchedulingAlgorithm._group_sessions_by_date self sessions
                    conference_dates) in H.
  set (val := fun date : string =>
                match match dict_get date by_date with Some l => l | None => [] end with
                | [] => Day (SchedulingAlgorithm.empty_day cfg)
                | x :: r =>
                    Day (SchedulingAlgorithm._create_daily_schedule self cfg (x :: r) date)
                end).
  assert (E : forall (l : list string) d0,
            fold_left
              (fun schedule date =>
                 match match dict_get date by_date with Some l => l | None => [] end with
                 | [] => dict_set date (Day (SchedulingAlgorithm.empty_day cfg)) schedule
                 | _ :: _ =>
                     dict_set date
                       (Day (SchedulingAlgorithm._create_daily_schedule self cfg
                               match dict_get date by_date with Some l => l | None => [] end
                               date))
                       schedule
                 end) l d0
            = fold_left (fun schedule date => dict_set date (val date) schedule) l d0).
  { induction l as [|x r IH]; simpl; intros d0; [reflexivity|].
    rewrite IH. f_equal. unfold val.
    now destruct (match dict_get x by_date with Some l => l | None => [] end). }
  rewrite E in H. apply (dict_fill_In (fun x => x) val) in H.
  destruct H as [[]|(x&_&->&Hv)]. unfold val in Hv.
  destruct (match dict_get x by_date with Some l => l | None => [] end)
    as [|y r]; injection Hv as ->; eauto.
Qed.

End LunchWindow.

(** Of the three sessions 09:00-10:00, 10:15-11:00 and 10:30-11:30 the
    second is a primary until the resolver drops it for the buffer; the
    third is a backup of its slot, conflicts with no remaining primary, and
    overlaps the lunch window 11:00-13:00. *)
Lemma morning_backup_overlaps_lunch :
  ~ lunch_free Scenario.algorithm
      (SchedulingAlgorithm._create_daily_schedule Scenario.algorithm
         Config.default Scenario.morning "2025-12-01").
Proof.
  intros [_ H].
  set (slot2 := {| slot_id := "slot_2"; slot_start_time := "10:15";
                   slot_end_time := "11:00"; slot_date := "2025-12-01";
                   is_lunch_break := false; buffer_before := 30;
                   buffer_after := 30 |}).
  set (b := scored (BackupGenerator.__init__ Config.default) slot2
              (Scenario.session "s3" "2025-12-01" "10:30" "11:30" 0.6%Q)).
  apply (H "slot_2" [b] b).
  - vm_compute. right. left. reflexivity.
  - now left.
  - exists 630, 690. repeat split; vm_compute; reflexivity.
Qed.

Lemma algorithm_constructed :
  SchedulingAlgorithm.__init__ Config.default = inr Scenario.algorithm.
Proof. reflexivity. Qed.

(** C1 as stated fails: the schedule of the run over [Scenario.morning] has
    a backup (10:30-11:30, under the slot 10:15-11:00) that overlaps the
    lunch window 11:00-13:00. *)
Lemma backup_reaches_into_lunch :
  ~ schedule_lunch_free Scenario.algorithm
      (SchedulingAlgorithm.create_schedule Scenario.algorithm Config.default
         Scenario.morning ["2025-12-01"]).
Proof.
  intros H. apply morning_backup_overlaps_lunch.
  apply (H "2025-12-01"). left. reflexivity.
Qed.

(** C1, amended.  In every day of a schedule no final primary session
    overlaps the lunch window.  A final backup is not tested against the
    lunch window: it lies within 30 minutes, at its start and at its end,
    of a slot that does not overlap the window, so it starts no earlier
    than 30 minutes before the lunch end or ends no later than 30 minutes
    after the lunch start. *)
Theorem lunch_respected_up_to_backup_tolerance
    (self : SchedulingAlgorithm.t) (cfg : Config.t) (sessions : list Session)
    (conference_dates : list string) (date : string) (d : DailySchedule) :
  In (date, Day d)
     (SchedulingAlgorithm.create_schedule self cfg sessions conference_dates) ->
  lunch_respected self d.
Proof.
  intros H. apply create_schedule_day in H as [->|(daily_sessions&->)].
  - apply empty_day_lunch_respected.
  - apply daily_lunch_respected.
Qed.

Lemma lunch_respected_up_to_backup_tolerance_witness :
  lunch_respected Scenario.algorithm
    (SchedulingAlgorithm._create_daily_schedule Scenario.algorithm
       Config.default Scenario.morning "2025-12-01").
Proof.
  apply (lunch_respected_up_to_backup_tolerance Scenario.algorithm
           Config.default Scenario.morning ["2025-12-01"] "2025-12-01").
  left. reflexivity.
Defined.

(** * Further properties of the engine *)

(** ** Rounding keeps decimal bounds *)

Lemma round_half_even_lower (y : Q) (k : Z) :
  k * Z.pos (Qden y) <= Qnum y -> k <= round_half_even y.
Proof.
  intros H. unfold round_half_even.
  assert (k <= Qnum y / Z.pos (Qden y)) as Hd
    by (apply Z.div_le_lower_bound; lia).
  destruct (2 * (Qnum y mod Z.pos (Qden y)) ?= Z.pos (Qden y));
    [destruct (Z.even _)| |]; lia.
Qed.

Lemma round_half_even_upper (y : Q) (k : Z) :
  Qnum y <= k * Z.pos (Qden y) -> round_half_even y <= k.
Proof.
  intros H. unfold round_half_even.
  set (n := Qnum y) in *. set (d := Z.pos (Qden y)) in *.
  assert (0 < d) as Hd by (unfold d; lia).
  pose proof (Z.div_mod n d ltac:(lia)) as E.
  pose proof (Z.mod_pos_bound n d Hd) as B.
  assert (n / d <= k) as U.
  { apply Z.div_le_upper_bound; lia. }
  destruct (Z.eq_dec (n / d) k) as [Ek|Nk].
  - assert (n mod d = 0) as R by nia.
    rewrite R. simpl (2 * 0).
    destruct (0 ?= d) eqn:C;
      [apply Z.compare_eq in C; lia | lia | apply Z.compare_gt_iff in C; lia].
  - destruct (2 * (n mod d) ?= d); [destruct (Z.even _)| |]; lia.
Qed.

Lemma round_lower (x : Q) (n : nat) (k : Z) :
  (Qmake k (Z.to_pos (10 ^ Z.of_nat n)) <= x)%Q ->
  (Qmake k (Z.to_pos (10 ^ Z.of_nat n)) <= round x n)%Q.
Proof.
  intros H. unfold round.
  set (p := 10 ^ Z.of_nat n) in *.
  assert (0 < p) as Hp by (apply Z.pow_pos_nonneg; lia).
  unfold Qle in *. cbn [Qnum Qden] in *.
  apply Z.mul_le_mono_nonneg_r; [lia|].
  apply round_half_even_lower.
  cbn [Qnum Qden Qmult inject_Z]. rewrite Pos.mul_1_r.
  rewrite Z2Pos.id in H by lia. lia.
Qed.

Lemma round_upper (x : Q) (n : nat) (k : Z) :
  (x <= Qmake k (Z.to_pos (10 ^ Z.of_nat n)))%Q ->
  (round x n <= Qmake k (Z.to_pos (10 ^ Z.of_nat n)))%Q.
Proof.
  intros H. unfold round.
  set (p := 10 ^ Z.of_nat n) in *.
  assert (0 < p) as Hp by (apply Z.pow_pos_nonneg; lia).
  unfold Qle in *. cbn [Qnum Qden] in *.
  apply Z.mul_le_mono_nonneg_r; [lia|].
  apply round_half_even_upper.
  cbn [Qnum Qden Qmult inject_Z]. rewrite Pos.mul_1_r.
  rewrite Z2Pos.id in H by lia. lia.
Qed.

(** ** The scorer: ranges of the components and of the total *)

Lemma Qmin_lub_l (a b c : Q) : (a <= c -> Py.Qmin a b <= c)%Q.
Proof. intros H. eapply Qle_trans; [apply Qmin_le_l|exact H]. Qed.

Lemma venue_fold_le (venue : string) (cap : Q) (table : dict Q) (best : Q) :
  Forall (fun entry => (snd entry <= cap)%Q) table ->
  (best <= cap)%Q ->
  (fold_left
     (fun best_score entry =>
        if str_in (fst entry) venue then Py.Qmax best_score (snd entry)
        else best_score)
     table best <= cap)%Q.
Proof.
  intros F. revert best. induction F as [|e r He Hr IH]; simpl; intros best H;
    [exact H|].
  apply IH. destruct (str_in (fst e) venue); [|exact H].
  unfold Py.Qmax. now destruct (Qltb best (snd e)).
Qed.

Lemma keyword_score_range (session : Session) :
  (keywords_matched session = []
   /\ SessionScorer._score_keyword_relevance SessionScorer.attributes session = 0.0%Q)
  \/ (keywords_matched session <> []
      /\ (0.6 <= SessionScorer._score_keyword_relevance SessionScorer.attributes
                   session <= 1)%Q).
Proof.
  unfold SessionScorer._score_keyword_relevance. cbv zeta.
  destruct (keywords_matched session) as [|k r]; [left; split; reflexivity|].
  right. split; [discriminate|].
  match goal with
  | |- (_ <= Py.Qmin _ (0.5 + ?m + Py.Qmin 0.2 ?f) <= _)%Q =>
      assert (0.1 <= m)%Q as M;
      [|assert (0 <= Py.Qmin 0.2 f)%Q as T]
  end.
  - apply Qmin_glb; [qconst|].
    change (List.length (k :: r)) with (S (List.length r)).
    rewrite Nat2Z.inj_succ. unfold Qle. simpl. lia.
  - apply Qmin_glb; [qconst|].
    apply (fold_bonus_ge (fun keyword => str_in keyword _) 0.1 0); qconst.
  - split.
    + apply Qmin_glb; [qconst|]. lra.
    + apply Qmin_lub_l. qconst.
Qed.

Lemma level_score_range (session : Session) :
  (0.5 <= SessionScorer._score_session_level SessionScorer.attributes session <= 1)%Q.
Proof.
  unfold SessionScorer._score_session_level.
  destruct (negb (nonempty (lower (or_empty (level session)))));
    [split; qconst|].
  simpl dict_get.
  repeat match goal with
         | |- context [if ?c then _ else _] => destruct c
         end; split; qconst.
Qed.

Lemma venue_score_range (session : Session) :
  (0.5 <= SessionScorer._score_venue_convenience SessionScorer.attributes session
   <= 0.9)%Q.
Proof.
  unfold SessionScorer._score_venue_convenience.
  destruct (negb (nonempty (lower (or_empty (venue session)))));
    [split; qconst|].
  split; [apply venue_fold_ge_half, Qle_refl|].
  apply venue_fold_le; [|qconst].
  unfold SessionScorer.attributes. simpl SessionScorer.venue_convenience_scores.
  repeat constructor; qconst.
Qed.

Lemma speaker_score_range (session : Session) :
  (0.5 <= SessionScorer._score_speaker_reputation SessionScorer.attributes session <= 1)%Q.
Proof.
  unfold SessionScorer._score_speaker_reputation. cbv zeta.
  destruct (speakers session) as [|k r]; [split; qconst|].
  match goal with
  | |- (_ <= Py.Qmin _ (0.5 + ?m + Py.Qmin 0.2 ?f) <= _)%Q =>
      assert (0 <= m)%Q as M;
      [|assert (0 <= Py.Qmin 0.2 f)%Q as T]
  end.
  - apply Qmin_glb; [|apply count_bonus_nonneg]; qconst.
  - apply Qmin_glb; [qconst|].
    apply (fold_bonus_ge
             (fun speaker =>
                existsb (fun indicator => str_in indicator (lower speaker))
                  ["aws"; "amazon"; "principal"; "senior"]) 0.1 0); qconst.
  - split.
    + apply Qmin_glb; [qconst|]. lra.
    + apply Qmin_lub_l. qconst.
Qed.

Lemma uniqueness_score_range (session : Session) :
  (0.5 <= SessionScorer._score_session_uniqueness SessionScorer.attributes session <= 1)%Q.
Proof.
  unfold SessionScorer._score_session_uniqueness. cbv zeta.
  split; [|apply Qmin_lub_l; qconst].
  apply Qmin_glb; [qconst|].
  assert (forall l acc, (0.5 <= acc)%Q ->
            (0.5 <= fold_left
                      (fun acc indicator =>
                         if str_in indicator (lower (get_default (title session) ""))
                         then acc + 0.1
                         else if str_in indicator (lower (or_empty (description session)))
                              then acc + 0.05 else acc) l acc)%Q) as G.
  { induction l as [|x r IH]; simpl; intros acc H; [exact H|].
    apply IH. repeat match goal with
                     | |- context [if ?c then _ else _] => destruct c
                     end; lra. }
  apply G. qconst.
Qed.

(** X1.  With the constructor's weights every score lies between 0.3 and
    0.98: the keyword component is 0 without matched keywords and between
    0.6 and 1 with some, the level, speaker and uniqueness components are
    between 0.5 and 1, and the venue component between 0.5 and 0.9.  The
    total is at least 0.54 with a matched keyword and at most 0.58
    without. *)
Theorem scorer_total_between_030_and_098 (session : Session) :
  let b := SessionScorer._calculate_session_score SessionScorer.attributes session in
  let c := component_scores b in
  ((keywords_matched session = [] /\ (keyword_score c == 0)%Q)
   \/ (keywords_matched session <> [] /\ (0.6 <= keyword_score c <= 1)%Q))
  /\ (0.5 <= level_score c <= 1)%Q
  /\ (0.5 <= venue_score c <= 0.9)%Q
  /\ (0.5 <= speaker_score c <= 1)%Q
  /\ (0.5 <= uniqueness_score c <= 1)%Q
  /\ (0.3 <= total_score b <= 0.98)%Q
  /\ (keywords_matched session <> [] -> (0.54 <= total_score b)%Q)
  /\ (keywords_matched session = [] -> (total_score b <= 0.58)%Q).
Proof.
  cbv zeta. unfold SessionScorer._calculate_session_score.
  cbn [component_scores total_score keyword_score level_score venue_score
       speaker_score uniqueness_score].
  pose proof (keyword_score_range session) as K.
  pose proof (level_score_range session) as L.
  pose proof (venue_score_range session) as V.
  pose proof (speaker_score_range session) as S.
  pose proof (uniqueness_score_range session) as U.
  cbn [SessionScorer.scoring_weights SessionScorer.attributes
       keyword_relevance session_level venue_convenience speaker_reputation
       session_uniqueness].
  set (k := SessionScorer._score_keyword_relevance SessionScorer.attributes session) in *.
  set (l := SessionScorer._score_session_level SessionScorer.attributes session) in *.
  set (v := SessionScorer._score_venue_convenience SessionScorer.attributes session) in *.
  set (s := SessionScorer._score_speaker_reputation SessionScorer.attributes session) in *.
  set (u := SessionScorer._score_session_uniqueness SessionScorer.attributes session) in *.
  assert (0 <= k <= 1)%Q as Kr.
  { destruct K as [[_ ->]|[_ K]]; [split; qconst|]. lra. }
  split; [|split; [exact L|split; [exact V|split; [exact S|split; [exact U|split; [|split]]]]]].
  - destruct K as [[E ->]|[N K]]; [left; split; [exact E|reflexivity]|right; auto].
  - split.
    + apply Qle_trans with (y := Qmake 300 (Z.to_pos (10 ^ Z.of_nat 3))); [qconst|].
      apply round_lower. apply Qle_trans with (y := 0.3%Q); [qconst|]. lra.
    + apply Qle_trans with (y := Qmake 980 (Z.to_pos (10 ^ Z.of_nat 3))); [|qconst].
      apply round_upper. apply Qle_trans with (y := 0.98%Q); [|qconst]. lra.
  - intros Hk. destruct K as [[E _]|[_ K]]; [contradiction|].
    apply Qle_trans with (y := Qmake 540 (Z.to_pos (10 ^ Z.of_nat 3))); [qconst|].
    apply round_lower. apply Qle_trans with (y := 0.54%Q); [qconst|]. lra.
  - intros Hk. destruct K as [[_ E]|[N _]]; [|contradiction].
    apply Qle_trans with (y := Qmake 580 (Z.to_pos (10 ^ Z.of_nat 3))); [|qconst].
    apply round_upper. apply Qle_trans with (y := 0.58%Q); [|qconst].
    rewrite E. lra.
Qed.

(** ** The scorer: sorting and queries *)

Lemma score_desc_total (x y : Session) :
  SessionScorer.score_desc x y = false -> SessionScorer.score_desc y x = true.
Proof. apply Qle_bool_total. Qed.

Lemma score_desc_trans (x y z : Session) :
  SessionScorer.score_desc x y = true -> SessionScorer.score_desc y z = true ->
  SessionScorer.score_desc x z = true.
Proof.
  unfold SessionScorer.score_desc. intros H1 H2. eapply Qle_bool_trans; eauto.
Qed.

Lemma sorted_score_desc (l : list Session) :
  StronglySorted by_score_desc (sorted SessionScorer.score_desc l).
Proof.
  apply (StronglySorted_weaken (fun a b => SessionScorer.score_desc a b = true)).
  - intros x y H. now apply Qle_bool_iff.
  - apply sorted_StronglySorted; [apply score_desc_total | apply score_desc_trans].
Qed.

(** X2.  [score_sessions] returns the input sessions, each annotated with
    its breakdown and total, reordered by descending score: nothing is lost
    or added, and apart from the two annotations a session is unchanged. *)
Theorem score_sessions_sorted_permutation
    (self : SessionScorer.t) (sessions : list Session) :
  let out := SessionScorer.score_sessions self sessions in
  Permutation out (map (annotated self) sessions)
  /\ StronglySorted by_score_desc out
  /\ List.length out = List.length sessions
  /\ (forall s, In s out ->
        exists raw,
          In raw sessions
          /\ score_breakdown s = Some (SessionScorer._calculate_session_score self raw)
          /\ score s = total_score (SessionScorer._calculate_session_score self raw)
          /\ session_id s = session_id raw /\ title s = title raw
          /\ date s = date raw /\ start_time s = start_time raw
          /\ end_time s = end_time raw /\ venue s = venue raw
          /\ keywords_matched s = keywords_matched raw).
Proof.
  cbv zeta. unfold SessionScorer.score_sessions.
  split; [apply sorted_perm|]. split; [apply sorted_score_desc|].
  split.
  - rewrite (Permutation_length (sorted_perm _ _)). apply length_map.
  - intros s Hs. apply sorted_In, in_map_iff in Hs as (raw&<-&Hraw).
    exists raw. repeat split; auto.
Qed.

Lemma StronglySorted_app_inv {A} (R : A -> A -> Prop) (l1 l2 : list A) :
  StronglySorted R (l1 ++ l2) ->
  forall a b, In a l1 -> In b l2 -> R a b.
Proof.
  induction l1 as [|x r IH]; simpl; intros H a b Ha Hb; [destruct Ha|].
  inversion H as [|? ? Hs Hall]; subst. destruct Ha as [<-|Ha].
  - rewrite Forall_forall in Hall. apply Hall, in_or_app. now right.
  - now apply IH.
Qed.

(** X3.  For a non-negative [count], [get_top_sessions] returns the first
    [count] sessions of the descending order (all of them when there are
    fewer): at most [count] sessions, sorted by descending score, and no
    session left out has a higher score than one returned. *)
Theorem get_top_sessions_are_the_best
    (self : SessionScorer.t) (sessions : list Session) (count : Z) :
  0 <= count ->
  let top := SessionScorer.get_top_sessions self sessions count in
  exists rest,
    Permutation (top ++ rest) sessions
    /\ List.length top = Nat.min (Z.to_nat count) (List.length sessions)
    /\ StronglySorted by_score_desc top
    /\ (forall a b, In a top -> In b rest -> (score b <= score a)%Q).
Proof.
  intros Hc. cbv zeta. unfold SessionScorer.get_top_sessions, slice_to.
  destruct (count <? 0) eqn:E; [lia|].
  set (l := sorted SessionScorer.score_desc sessions).
  exists (skipn (Z.to_nat count) l).
  rewrite firstn_skipn. split; [apply sorted_perm|].
  split; [rewrite length_firstn; unfold l;
          now rewrite (Permutation_length (sorted_perm _ _))|].
  pose proof (sorted_score_desc sessions) as S. fold l in S.
  split.
  - eapply subseq_StronglySorted; [apply subseq_firstn | exact S].
  - apply StronglySorted_app_inv. now rewrite firstn_skipn.
Qed.

Lemma get_top_sessions_are_the_best_witness :
  exists rest,
    Permutation
      (SessionScorer.get_top_sessions SessionScorer.attributes Scenario.morning 2
       ++ rest)
      Scenario.morning
    /\ List.length
         (SessionScorer.get_top_sessions SessionScorer.attributes Scenario.morning 2)
       = Nat.min (Z.to_nat 2) (List.length Scenario.morning)
    /\ StronglySorted by_score_desc
         (SessionScorer.get_top_sessions SessionScorer.attributes Scenario.morning 2)
    /\ (forall a b,
          In a (SessionScorer.get_top_sessions SessionScorer.attributes
                  Scenario.morning 2) ->
          In b rest -> (score b <= score a)%Q).
Proof.
  apply (get_top_sessions_are_the_best SessionScorer.attributes Scenario.morning 2).
  lia.
Defined.

(** ** The scorer: statistics *)

Lemma count_partition3 {A} (p1 p2 p3 : A -> bool) (l : list A) :
  (forall x, In x l ->
     (p1 x = true /\ p2 x = false /\ p3 x = false)
     \/ (p1 x = false /\ p2 x = true /\ p3 x = false)
     \/ (p1 x = false /\ p2 x = false /\ p3 x = true)) ->
  count p1 l + count p2 l + count p3 l = Z.of_nat (List.length l).
Proof.
  unfold count. induction l as [|x r IH]; intros H; [reflexivity|].
  assert (Hr : forall y, In y r ->
            (p1 y = true /\ p2 y = false /\ p3 y = false)
            \/ (p1 y = false /\ p2 y = true /\ p3 y = false)
            \/ (p1 y = false /\ p2 y = false /\ p3 y = true))
    by (intros y Hy; apply H; now right).
  specialize (IH Hr). simpl.
  destruct (H x (or_introl eq_refl)) as [(->&->&->)|[(->&->&->)|(->&->&->)]];
    simpl List.length; lia.
Qed.

Lemma min_list_spec (x : Q) (l : list Q) :
  In (min_list x l) (x :: l)
  /\ forall y, In y (x :: l) -> (min_list x l <= y)%Q.
Proof.
  unfold min_list. revert x. induction l as [|z r IH]; intros x; simpl.
  - split; [now left|]. intros y [<-|[]]. apply Qle_refl.
  - destruct (Qltb z x) eqn:E.
    + apply Qltb_iff in E. destruct (IH z) as (Hin&Hle). split.
      * destruct Hin as [<-|Hin]; auto.
      * intros y [<-|Hy]; [|now apply Hle].
        eapply Qle_trans; [apply Hle; now left|]. now apply Qlt_le_weak.
    + apply Qltb_false_iff in E. destruct (IH x) as (Hin&Hle). split.
      * destruct Hin as [<-|Hin]; auto.
      * intros y [<-|[<-|Hy]].
        -- apply Hle. now left.
        -- eapply Qle_trans; [apply Hle; now left|exact E].
        -- apply Hle. now right.
Qed.

Lemma max_list_spec (x : Q) (l : list Q) :
  In (max_list x l) (x :: l)
  /\ forall y, In y (x :: l) -> (y <= max_list x l)%Q.
Proof.
  unfold max_list. revert x. induction l as [|z r IH]; intros x; simpl.
  - split; [now left|]. intros y [<-|[]]. apply Qle_refl.
  - destruct (Qltb x z) eqn:E.
    + apply Qltb_iff in E. destruct (IH z) as (Hin&Hle). split.
      * destruct Hin as [<-|Hin]; auto.
      * intros y [<-|Hy]; [|now apply Hle].
        eapply Qle_trans; [|apply Hle; now left]. now apply Qlt_le_weak.
    + apply Qltb_false_iff in E. destruct (IH x) as (Hin&Hle). split.
      * destruct Hin as [<-|Hin]; auto.
      * intros y [<-|[<-|Hy]].
        -- apply Hle. now left.
        -- eapply Qle_trans; [exact E|apply Hle; now left].
        -- apply Hle. now right.
Qed.


Lemma filter_all {A} (f : A -> bool) (l : list A) :
  (forall x, In x l -> f x = true) -> filter f l = l.
Proof.
  induction l as [|x r IH]; intros H; [reflexivity|].
  simpl. rewrite (H x) by now left. f_equal. apply IH.
  intros y Hy. apply H. now right.
Qed.

(** X4.  [get_scoring_statistics] returns the empty dict exactly for no
    sessions.  Otherwise the three buckets of the distribution (from 0.8,
    from 0.6 to below 0.8, below 0.6) partition the sessions; the minimum
    and the maximum are scores of sessions and bound every score, so that
    [get_sessions_by_score_range] from the minimum to the maximum returns
    every session. *)
Theorem scoring_statistics_consistent
    (self : SessionScorer.t) (sessions : list Session) :
  match SessionScorer.get_scoring_statistics self sessions with
  | None => sessions = []
  | Some st =>
      sessions <> []
      /\ SessionScorer.total_sessions st = Z.of_nat (List.length sessions)
      /\ SessionScorer.high (SessionScorer.score_distribution st)
         + SessionScorer.medium (SessionScorer.score_distribution st)
         + SessionScorer.low (SessionScorer.score_distribution st)
         = SessionScorer.total_sessions st
      /\ (exists s, In s sessions /\ score s = SessionScorer.min_score st)
      /\ (exists s, In s sessions /\ score s = SessionScorer.max_score st)
      /\ (forall s, In s sessions ->
            (SessionScorer.min_score st <= score s <= SessionScorer.max_score st)%Q)
      /\ SessionScorer.get_sessions_by_score_range self sessions
           (SessionScorer.min_score st) (SessionScorer.max_score st)
         = sessions
  end.
Proof.
  unfold SessionScorer.get_scoring_statistics.
  destruct (map score sessions) as [|x r] eqn:E.
  - now destruct sessions.
  - cbn [SessionScorer.total_sessions SessionScorer.score_distribution
         SessionScorer.high SessionScorer.medium SessionScorer.low
         SessionScorer.min_score SessionScorer.max_score
         SessionScorer.average_score].
    pose proof (min_list_spec x r) as (Hmin_in&Hmin).
    pose proof (max_list_spec x r) as (Hmax_in&Hmax).
    rewrite <- E in Hmin_in, Hmin, Hmax_in, Hmax.
    assert (Hlen : List.length (x :: r) = List.length sessions)
      by (rewrite <- E; apply length_map).
    split; [intros ->; discriminate|]. split; [reflexivity|].
    split.
    { rewrite <- Hlen. apply count_partition3. intros q _.
      unfold Qltb.
      destruct (Qle_bool 0.8 q) eqn:A, (Qle_bool 0.6 q) eqn:B; simpl; auto.
      exfalso. apply Qle_bool_iff in A.
      assert (Qle_bool 0.6 q = true) as B'
        by (apply Qle_bool_iff; eapply Qle_trans; [|exact A]; qconst).
      congruence. }
    split; [apply in_map_iff in Hmin_in as (s&Hs&Hin); eauto|].
    split; [apply in_map_iff in Hmax_in as (s&Hs&Hin); eauto|].
    assert (Hall : forall y, In y (x :: r) ->
              (min_list x r <= y <= max_list x r)%Q).
    { intros y Hy. rewrite <- E in Hy. split; [now apply Hmin|now apply Hmax]. }
    assert (Hs : forall s, In s sessions ->
              (min_list x r <= score s <= max_list x r)%Q).
    { intros s Hs. apply Hall. rewrite <- E. now apply in_map. }
    split; [exact Hs|].
    unfold SessionScorer.get_sessions_by_score_range. apply filter_all.
    intros s Hin. destruct (Hs s Hin) as (Lo&Hi).
    apply andb_true_iff. split; now apply Qle_bool_iff.
Qed.

(** ** Dicts: lookup after assignment *)

Lemma dict_get_set_eq {V} (k : string) (v : V) (d : dict V) :
  dict_get k (dict_set k v d) = Some v.
Proof.
  induction d as [|[k0 v0] r IH]; simpl.
  - now rewrite String.eqb_refl.
  - destruct (String.eqb k k0) eqn:E; simpl.
    + now rewrite String.eqb_refl.
    + now rewrite E.
Qed.

Lemma dict_get_set_neq {V} (k k' : string) (v : V) (d : dict V) :
  k <> k' -> dict_get k (dict_set k' v d) = dict_get k d.
Proof.
  intros N. induction d as [|[k0 v0] r IH]; simpl.
  - apply String.eqb_neq in N. now rewrite N.
  - destruct (String.eqb k' k0) eqn:E; simpl.
    + apply String.eqb_eq in E. subst k0.
      apply String.eqb_neq in N. now rewrite N.
    + destruct (String.eqb k k0); [reflexivity|exact IH].
Qed.

Lemma dict_get_In {V} (k : string) (v : V) (d : dict V) :
  dict_get k d = Some v -> In (k, v) d.
Proof.
  induction d as [|[k0 v0] r IH]; simpl; [discriminate|].
  destruct (String.eqb k k0) eqn:E.
  - apply String.eqb_eq in E. intros H. injection H as ->. subst. now left.
  - intros H. right. now apply IH.
Qed.

Lemma dict_get_None {V} (k : string) (d : dict V) :
  dict_get k d = None <-> ~ In k (dict_keys d).
Proof.
  unfold dict_keys. induction d as [|[k0 v0] r IH]; simpl; [tauto|].
  destruct (String.eqb k k0) eqn:E.
  - apply String.eqb_eq in E. split; [discriminate|]. intros H. exfalso. auto.
  - apply String.eqb_neq in E. rewrite IH. split.
    + intros H [H'|H']; [congruence|auto].
    + intros H H'. auto.
Qed.

Lemma dict_keys_set {V} (k : string) (v : V) (d : dict V) :
  dict_keys (dict_set k v d)
  = if existsb (String.eqb k) (dict_keys d) then dict_keys d
    else dict_keys d ++ [k].
Proof.
  unfold dict_keys. induction d as [|[k0 v0] r IH]; simpl; [reflexivity|].
  destruct (String.eqb k k0) eqn:E; simpl.
  - apply String.eqb_eq in E. now subst.
  - rewrite IH. now destruct (existsb (String.eqb k) (map fst r)).
Qed.

Lemma existsb_eqb_In (k : string) (l : list string) :
  existsb (String.eqb k) l = true <-> In k l.
Proof.
  rewrite existsb_exists. split.
  - intros (x&Hx&E). apply String.eqb_eq in E. now subst.
  - intros H. exists k. split; [exact H|apply String.eqb_refl].
Qed.

Section DictFill.
Context {X V : Type} (key : X -> string) (val : X -> V).

Lemma dict_fill_get_other (l : list X) (d : dict V) (k : string) :
  ~ In k (map key l) -> dict_get k (dict_fill key val l d) = dict_get k d.
Proof.
  revert d. induction l as [|x r IH]; simpl; intros d H; [reflexivity|].
  unfold dict_fill in *. simpl. rewrite IH by tauto.
  apply dict_get_set_neq. intros E. apply H. now left.
Qed.

(** The value found under a key is the one assigned last. *)
Lemma dict_fill_get_last (l1 l2 : list X) (x : X) (d : dict V) :
  ~ In (key x) (map key l2) ->
  dict_get (key x) (dict_fill key val (l1 ++ x :: l2) d) = Some (val x).
Proof.
  intros H. unfold dict_fill. rewrite fold_left_app. simpl.
  fold (dict_fill key val l2
          (dict_set (key x) (val x)
             (fold_left (fun d x => dict_set (key x) (val x) d) l1 d))).
  rewrite dict_fill_get_other by exact H. apply dict_get_set_eq.
Qed.

Lemma dict_fill_get (l : list X) (d : dict V) (x : X) :
  NoDup (map key l) -> In x l -> dict_get (key x) (dict_fill key val l d) = Some (val x).
Proof.
  intros N Hx. apply in_split in Hx as (l1&l2&->).
  apply dict_fill_get_last. rewrite map_app in N. simpl in N.
  apply NoDup_remove_2 in N. intros H. apply N, in_or_app. now right.
Qed.

Lemma dict_fill_keys (l : list X) (d : dict V) :
  NoDup (dict_keys d ++ map key l) ->
  dict_keys (dict_fill key val l d) = dict_keys d ++ map key l.
Proof.
  revert d. induction l as [|x r IH]; simpl; intros d N.
  - now rewrite app_nil_r.
  - unfold dict_fill in *. simpl.
    assert (~ In (key x) (dict_keys d)) as Hx.
    { intros H. apply NoDup_remove_2 in N. apply N, in_or_app. now left. }
    assert (dict_keys (dict_set (key x) (val x) d) = dict_keys d ++ [key x]) as K.
    { rewrite dict_keys_set.
      destruct (existsb (String.eqb (key x)) (dict_keys d)) eqn:E; [|reflexivity].
      apply existsb_eqb_In in E. contradiction. }
    rewrite IH; rewrite K, <- app_assoc; [reflexivity|exact N].
Qed.
End DictFill.

(** ** The backup generator: bonuses and pooled scores *)

Lemma Qmax_ge_r (a b : Q) : (b <= Py.Qmax a b)%Q.
Proof.
  unfold Py.Qmax. destruct (Qltb a b) eqn:E; [apply Qle_refl|].
  now apply Qltb_false_iff in E.
Qed.

Lemma minutes_offset_bound (d : Z) :
  Z.abs d <= 30 -> (Qabs (inject_Z (d * 60) / 60) <= 30)%Q.
Proof.
  intros H. apply Qabs_Qle_condition.
  split; unfold Qle, Qdiv, Qmult, Qinv; simpl; lia.
Qed.

Section BackupBonus.
Variable bg : BackupGenerator.t.

Lemma time_bonus_fitting (session : Session) (slot : TimeSlot) :
  BackupGenerator._session_fits_slot bg session
    (slot_start_time slot) (slot_end_time slot) = true ->
  (0.15 <= BackupGenerator._calculate_time_compatibility_bonus bg session slot)%Q.
Proof.
  intros H. pose proof H as W.
  apply session_fits_slot_iff in W as (a&b&ss&se&Ea&Eb&Es&Ee&Ha&Hb).
  unfold BackupGenerator._session_fits_slot in H.
  unfold BackupGenerator._calculate_time_compatibility_bonus.
  destruct (negb (truthy (start_time session)) || negb (truthy (end_time session)));
    [discriminate|].
  rewrite Ea, Eb, Es, Ee. unfold try_except. cbn -[Qabs Qdiv Qmult Qminus Qplus Py.Qmax inject_Z].
  pose proof (minutes_offset_bound _ Ha) as B1.
  pose proof (minutes_offset_bound _ Hb) as B2.
  set (t1 := Qabs (inject_Z ((a - ss) * 60) / 60)) in *.
  set (t2 := Qabs (inject_Z ((b - se) * 60) / 60)) in *.
  assert (forall t, (t <= 30 -> 0.15 <= 0.2 - t / 60 * 0.1)%Q) as G.
  { intros t Ht. unfold Qdiv.
    assert (t * / 60 <= 30 * / 60)%Q as D
      by (apply Qmult_le_compat_r; [exact Ht|qconst]).
    assert (30 * / 60 == 0.5)%Q as E5 by reflexivity.
    rewrite E5 in D. lra. }
  pose proof (Qle_trans _ _ _ (G t1 B1) (Qmax_ge_r 0 _)) as M1.
  pose proof (Qle_trans _ _ _ (G t2 B2) (Qmax_ge_r 0 _)) as M2.
  apply Qle_shift_div_l; [reflexivity|]. lra.
Qed.

Lemma diversity_bonus_nonneg (session : Session) :
  (0 <= BackupGenerator._calculate_diversity_bonus bg session)%Q.
Proof.
  unfold BackupGenerator._calculate_diversity_bonus. cbv zeta.
  apply Qmin_glb; [qconst|].
  match goal with
  | |- (0 <= ?m + ?f)%Q => assert (0 <= m)%Q as M; [|assert (0 <= f)%Q as F]
  end.
  - apply Qmin_glb; [|apply count_bonus_nonneg]; qconst.
  - apply (fold_bonus_ge
             (fun keyword =>
                existsb (String.eqb (lower keyword))
                  BackupGenerator.high_value_keywords) 0.02 0); qconst.
  - lra.
Qed.

Lemma venue_bonus_floor (session : Session) :
  (0.02 <= BackupGenerator._calculate_venue_bonus bg session)%Q.
Proof.
  unfold BackupGenerator._calculate_venue_bonus, BackupGenerator.venue_scores.
  simpl find.
  repeat match goal with
         | |- context [if ?c then _ else _] => destruct c
         end; simpl; qconst.
Qed.
End BackupBonus.

(** X5.  For a candidate that fits a slot (start and end within 30 minutes
    of the slot's) the time-compatibility bonus lies between 0.15 and 0.2. *)
Theorem fitting_candidate_time_bonus
    (bg : BackupGenerator.t) (session : Session) (slot : TimeSlot) :
  BackupGenerator._session_fits_slot bg session
    (slot_start_time slot) (slot_end_time slot) = true ->
  (0.15 <= BackupGenerator._calculate_time_compatibility_bonus bg session slot
   <= 0.2)%Q.
Proof.
  intros H. split; [now apply time_bonus_fitting | apply time_bonus_cap].
Qed.

Lemma fitting_candidate_time_bonus_witness :
  (0.15 <= BackupGenerator._calculate_time_compatibility_bonus
             (BackupGenerator.__init__ Config.default)
             (Scenario.session "late" "2025-12-01" "14:20" "15:10" 0.5%Q)
             Scenario.afternoon_slot
   <= 0.2)%Q.
Proof.
  apply fitting_candidate_time_bonus. reflexivity.
Defined.

(** X6.  When no session has a negative score, every backup stored in a
    pool by [generate_backups] carries a backup score between 0.17 and 1:
    at least 0.15 for the time, 0.02 for the venue (given also to a session
    without venue), and nothing negative besides. *)
Theorem pooled_backup_score_at_least_017
    (bg : BackupGenerator.t) (all_sessions primary_sessions : list Session)
    (time_slots : list TimeSlot) (k : string) (pool : list Session) (b : Session) :
  (forall s, In s all_sessions -> (0 <= score s)%Q) ->
  In (k, pool)
     (BackupGenerator.generate_backups bg all_sessions primary_sessions time_slots) ->
  In b pool ->
  exists q, backup_score b = Some q /\ (0.17 <= q <= 1)%Q.
Proof.
  intros Hpos H Hb.
  apply generate_backups_entry in H as (slot&_&_&->).
  apply slice_to_In, rank_In in Hb as (c&Hc&->).
  rewrite find_candidates_filter in Hc. apply filter_In in Hc as (Hin&Hc).
  apply andb_true_iff in Hc as (_&Hfit).
  eexists. split; [reflexivity|]. split; [|apply backup_score_le_1].
  unfold BackupGenerator._calculate_backup_score. cbv zeta.
  apply Qmin_glb; [qconst|].
  pose proof (Hpos c Hin) as S.
  pose proof (time_bonus_fitting bg c slot Hfit) as T.
  pose proof (diversity_bonus_nonneg bg c) as D.
  pose proof (venue_bonus_floor bg c) as V.
  lra.
Qed.

Lemma pooled_backup_score_at_least_017_witness :
  exists q,
    backup_score
      (scored (BackupGenerator.__init__ Config.default) Scenario.afternoon_slot
         Scenario.star) = Some q
    /\ (0.17 <= q <= 1)%Q.
Proof.
  apply (pooled_backup_score_at_least_017
           (BackupGenerator.__init__ Config.default) [Scenario.star] []
           [Scenario.afternoon_slot] "slot_1"
           [scored (BackupGenerator.__init__ Config.default)
              Scenario.afternoon_slot Scenario.star]).
  - intros s [<-|[]]. discriminate.
  - vm_compute. left. reflexivity.
  - left. reflexivity.
Defined.

(** ** The backup generator: statistics *)

Lemma Zsum_acc (l : list Z) (acc : Z) :
  fold_left Z.add l acc = acc + BackupGenerator.Zsum l.
Proof.
  unfold BackupGenerator.Zsum. revert acc.
  induction l as [|x r IH]; simpl; intros acc; [lia|].
  rewrite IH, (IH x). lia.
Qed.

Lemma Zsum_cons (x : Z) (l : list Z) :
  BackupGenerator.Zsum (x :: l) = x + BackupGenerator.Zsum l.
Proof. unfold BackupGenerator.Zsum. simpl. now rewrite Zsum_acc. Qed.

Lemma Zsum_lengths {A} (ll : list (list A)) :
  BackupGenerator.Zsum (map (fun l => Z.of_nat (List.length l)) ll)
  = Z.of_nat (List.length (List.concat ll)).
Proof.
  induction ll as [|l r IH]; [reflexivity|].
  simpl map. rewrite Zsum_cons, IH. simpl List.concat.
  rewrite length_app. lia.
Qed.

Lemma count_bounds {A} (f : A -> bool) (l : list A) :
  0 <= count f l <= Z.of_nat (List.length l).
Proof.
  unfold count. pose proof (filter_length_le f l). lia.
Qed.

Lemma count_mono {A} (f g : A -> bool) (l : list A) :
  (forall x, In x l -> f x = true -> g x = true) -> count f l <= count g l.
Proof.
  unfold count. induction l as [|x r IH]; intros H; [reflexivity|].
  assert (Hr : forall y, In y r -> f y = true -> g y = true)
    by (intros y Hy; apply H; now right).
  specialize (IH Hr). simpl.
  destruct (f x) eqn:F.
  - rewrite (H x (or_introl eq_refl) F). simpl List.length. lia.
  - destruct (g x); simpl List.length; lia.
Qed.

(** X7.  In [get_backup_statistics] the three score buckets add up to the
    total number of backups, which is the number of sessions in all pools;
    the slots with backups and the slots meeting the minimum are at most
    the number of slots, the second at most the first for a minimum of at
    least 1. *)
Theorem backup_statistics_consistent
    (bg : BackupGenerator.t) (backup_sessions : dict (list Session)) :
  let st := BackupGenerator.get_backup_statistics bg backup_sessions in
  let slots := Z.of_nat (List.length backup_sessions) in
  let d := BackupGenerator.backup_score_distribution st in
  BackupGenerator.total_backup_sessions st
  = Z.of_nat (List.length (List.concat (dict_values backup_sessions)))
  /\ BackupGenerator.dist_high d + BackupGenerator.dist_medium d
     + BackupGenerator.dist_low d
     = BackupGenerator.total_backup_sessions st
  /\ 0 <= BackupGenerator.slots_with_backups st <= slots
  /\ 0 <= BackupGenerator.slots_meeting_minimum st <= slots
  /\ (1 <= BackupGenerator.min_backup_sessions bg ->
      BackupGenerator.slots_meeting_minimum st
      <= BackupGenerator.slots_with_backups st).
Proof.
  cbv zeta. unfold BackupGenerator.get_backup_statistics.
  assert (Hlen : List.length (dict_values backup_sessions)
                 = List.length backup_sessions) by apply length_map.
  destruct backup_sessions as [|e r].
  - cbn. repeat split; try lia; reflexivity.
  - cbv beta iota zeta. set (backup_sessions := e :: r) in *.
    cbn [BackupGenerator.total_backup_sessions BackupGenerator.slots_with_backups
         BackupGenerator.average_backups_per_slot
         BackupGenerator.slots_meeting_minimum
         BackupGenerator.backup_score_distribution].
    rewrite !(Zsum_lengths (dict_values backup_sessions)).
    split; [reflexivity|]. split.
    { generalize (List.concat (dict_values backup_sessions)). intros l.
      enough (forall d0,
                let d' :=
                  fold_left
                    (fun d backup =>
                       let score := BackupGenerator.backup_key backup in
                       if Qle_bool 0.7 score
                       then {| BackupGenerator.dist_high := BackupGenerator.dist_high d + 1;
                               BackupGenerator.dist_medium := BackupGenerator.dist_medium d;
                               BackupGenerator.dist_low := BackupGenerator.dist_low d |}
                       else if Qle_bool 0.5 score
                            then {| BackupGenerator.dist_high := BackupGenerator.dist_high d;
                                    BackupGenerator.dist_medium :=
                                      BackupGenerator.dist_medium d + 1;
                                    BackupGenerator.dist_low := BackupGenerator.dist_low d |}
                            else {| BackupGenerator.dist_high := BackupGenerator.dist_high d;
                                    BackupGenerator.dist_medium := BackupGenerator.dist_medium d;
                                    BackupGenerator.dist_low := BackupGenerator.dist_low d + 1 |})
                    l d0 in
                BackupGenerator.dist_high d' + BackupGenerator.dist_medium d'
                + BackupGenerator.dist_low d'
                = BackupGenerator.dist_high d0 + BackupGenerator.dist_medium d0
                  + BackupGenerator.dist_low d0 + Z.of_nat (List.length l)) as G.
      { rewrite G. simpl. lia. }
      induction l as [|x t IH]; intros d0; cbv zeta; [simpl; lia|].
      simpl fold_left. cbv zeta in IH. rewrite IH.
      destruct (Qle_bool 0.7 (BackupGenerator.backup_key x));
        [|destruct (Qle_bool 0.5 (BackupGenerator.backup_key x))];
        simpl; lia. }
    split; [rewrite <- Hlen; apply count_bounds|].
    split; [rewrite <- Hlen; apply count_bounds|].
    intros Hmin. apply count_mono. intros pool _ H.
    apply Z.leb_le in H. destruct pool; [simpl in H; lia|reflexivity].
Qed.

(** ** Slot ids, and the pools under them *)

Lemma str_of_nat_inj (n m : nat) : str_of_nat n = str_of_nat m -> n = m.
Proof.
  unfold str_of_nat. intros H.
  apply (f_equal NilEmpty.uint_of_string) in H.
  rewrite !NilEmpty.usu in H. injection H as H.
  now apply DecimalNat.Unsigned.to_uint_inj.
Qed.

Lemma slot_name_inj (i j : nat) : slot_name i = slot_name j -> i = j.
Proof.
  unfold slot_name. simpl. intros H. injection H as H.
  apply str_of_nat_inj in H. lia.
Qed.

Lemma NoDup_map_inj {A B} (f : A -> B) (l : list A) :
  (forall x y, f x = f y -> x = y) -> NoDup l -> NoDup (map f l).
Proof.
  intros Hf. induction 1 as [|x r Hx Hr IH]; simpl; constructor; [|exact IH].
  intros H. apply in_map_iff in H as (y&E&Hy). apply Hf in E. now subst.
Qed.

Lemma firstn_seq_min (k s n : nat) : firstn k (seq s n) = seq s (Nat.min k n).
Proof.
  revert s n. induction k as [|k IH]; intros s [|n]; simpl; try reflexivity.
  now rewrite IH.
Qed.

Section SlotIds.
Variable self : SchedulingAlgorithm.t.
Variable date : string.

Lemma slot_step_new (acc : list TimeSlot) (r : string * string) :
  SchedulingAlgorithm.slot_step self date acc r = acc
  \/ exists slot,
       SchedulingAlgorithm.slot_step self date acc r = acc ++ [slot]
       /\ slot_id slot = slot_name (List.length acc)
       /\ range_of slot = r
       /\ slot_date slot = date /\ is_lunch_break slot = false
       /\ buffer_before slot = SchedulingAlgorithm.buffer_minutes self
       /\ buffer_after slot = SchedulingAlgorithm.buffer_minutes self.
Proof.
  unfold SchedulingAlgorithm.slot_step.
  destruct (SchedulingAlgorithm._is_lunch_time self (fst r) (snd r)); [now left|].
  destruct (negb (existsb _ acc)); [|now left].
  right. eexists. split; [reflexivity|]. destruct r. repeat split.
Qed.

Lemma accepted_numbered (ranges : list (string * string)) :
  map slot_id (accepted self date ranges)
  = map slot_name (seq 0 (List.length (accepted self date ranges)))
  /\ Forall (fun slot => In (range_of slot) ranges
                         /\ slot_date slot = date /\ is_lunch_break slot = false
                         /\ buffer_before slot = SchedulingAlgorithm.buffer_minutes self
                         /\ buffer_after slot = SchedulingAlgorithm.buffer_minutes self)
       (accepted self date ranges).
Proof.
  induction ranges as [|r pre IH] using rev_ind; [split; constructor|].
  rewrite accepted_snoc. destruct IH as (Hid&Hf).
  assert (Forall (fun slot => In (range_of slot) (pre ++ [r])
                              /\ slot_date slot = date /\ is_lunch_break slot = false
                              /\ buffer_before slot = SchedulingAlgorithm.buffer_minutes self
                              /\ buffer_after slot = SchedulingAlgorithm.buffer_minutes self)
            (accepted self date pre)) as Hf'.
  { eapply Forall_impl; [|exact Hf]. intros s (H1&H2). split; [|exact H2].
    apply in_or_app. now left. }
  destruct (slot_step_new (accepted self date pre) r)
    as [->|(slot&->&Hs&Hr&Hrest)]; [split; assumption|].
  split.
  - rewrite map_app, length_app, Hid. simpl List.length.
    rewrite Nat.add_1_r, seq_S, map_app. simpl. now rewrite Hs.
  - apply Forall_app. split; [exact Hf'|]. constructor; [|constructor].
    split; [|exact Hrest]. rewrite Hr. apply in_or_app. right. now left.
Qed.
End SlotIds.

Lemma slice_to_firstn {A} (l : list A) (n : Z) :
  exists k, slice_to l n = firstn k l.
Proof. unfold slice_to. destruct (n <? 0); eauto. Qed.

Lemma generated_slots_ids
    (self : SchedulingAlgorithm.t) (sessions : list Session) (date : string) :
  map slot_id (SchedulingAlgorithm._generate_time_slots self sessions date)
  = map slot_name
      (seq 0 (List.length
                (SchedulingAlgorithm._generate_time_slots self sessions date))).
Proof.
  rewrite generate_time_slots_spec.
  set (ranges := sorted pair_leb (SchedulingAlgorithm.session_times sessions)).
  destruct (accepted_numbered self date ranges) as (Hid&_).
  destruct (slice_to_firstn (accepted self date ranges)
              (SchedulingAlgorithm.max_sessions_per_day self)) as (k&->).
  rewrite <- firstn_map, Hid, firstn_map, firstn_seq_min, length_firstn.
  reflexivity.
Qed.

Lemma generated_slots_NoDup
    (self : SchedulingAlgorithm.t) (sessions : list Session) (date : string) :
  NoDup (map slot_id (SchedulingAlgorithm._generate_time_slots self sessions date)).
Proof.
  rewrite generated_slots_ids.
  apply NoDup_map_inj; [apply slot_name_inj | apply seq_NoDup].
Qed.

Lemma generated_slot_In
    (self : SchedulingAlgorithm.t) (sessions : list Session) (date : string)
    (slot : TimeSlot) :
  In slot (SchedulingAlgorithm._generate_time_slots self sessions date) ->
  well_formed_slot self date slot
  /\ exists s, In s sessions
               /\ start_time s = Some (slot_start_time slot)
               /\ end_time s = Some (slot_end_time slot).
Proof.
  rewrite generate_time_slots_spec. intros Hs. apply slice_to_In in Hs.
  destruct (accepted_numbered self date
              (sorted pair_leb (SchedulingAlgorithm.session_times sessions)))
    as (_&Hf).
  rewrite Forall_forall in Hf. destruct (Hf slot Hs) as (Hr&Hd&Hl&Hb&Ha).
  unfold range_of in Hr.
  apply sorted_In, session_times_In in Hr as (s&Hin&Es&Ee&Ns&Ne).
  split; [repeat split; assumption|eauto].
Qed.

(** X8.  The slots built for a day carry the ids slot_1, slot_2, ... in
    order, so no two share an id; each has the non-empty start and end of
    some session of the day, the day's date, the configured buffers, and is
    not marked as lunch break. *)
Theorem generated_slots_numbered
    (self : SchedulingAlgorithm.t) (sessions : list Session) (date : string) :
  let slots := SchedulingAlgorithm._generate_time_slots self sessions date in
  map slot_id slots = map slot_name (seq 0 (List.length slots))
  /\ NoDup (map slot_id slots)
  /\ Forall (well_formed_slot self date) slots
  /\ Forall (fun slot =>
               exists s, In s sessions
                         /\ start_time s = Some (slot_start_time slot)
                         /\ end_time s = Some (slot_end_time slot))
       slots.
Proof.
  cbv zeta. split; [apply generated_slots_ids|].
  split; [apply generated_slots_NoDup|].
  split; apply Forall_forall; intros slot Hs;
    apply generated_slot_In in Hs; apply Hs.
Qed.

(** X9.  For slots with pairwise distinct ids, the dict returned by
    [generate_backups] has exactly the slot ids as keys, in the order of
    the slots, and looking up a slot's id gives the pool computed for that
    slot. *)
Theorem backups_lookup_by_slot_id
    (bg : BackupGenerator.t) (all_sessions primary_sessions : list Session)
    (time_slots : list TimeSlot) :
  NoDup (map slot_id time_slots) ->
  dict_keys
    (BackupGenerator.generate_backups bg all_sessions primary_sessions time_slots)
  = map slot_id time_slots
  /\ forall slot, In slot time_slots ->
       dict_get (slot_id slot)
         (BackupGenerator.generate_backups bg all_sessions primary_sessions
            time_slots)
       = Some (pool_of bg all_sessions primary_sessions slot).
Proof.
  intros N.
  change (BackupGenerator.generate_backups bg all_sessions primary_sessions time_slots)
    with (dict_fill slot_id (pool_of bg all_sessions primary_sessions) time_slots []).
  split.
  - now rewrite dict_fill_keys.
  - intros slot Hs. now apply dict_fill_get.
Qed.

Lemma backups_lookup_by_slot_id_witness :
  dict_keys
    (BackupGenerator.generate_backups (BackupGenerator.__init__ Config.default)
       [Scenario.star] [] [Scenario.afternoon_slot])
  = map slot_id [Scenario.afternoon_slot]
  /\ forall slot, In slot [Scenario.afternoon_slot] ->
       dict_get (slot_id slot)
         (BackupGenerator.generate_backups (BackupGenerator.__init__ Config.default)
            [Scenario.star] [] [Scenario.afternoon_slot])
       = Some (pool_of (BackupGenerator.__init__ Config.default) [Scenario.star] []
                 slot).
Proof.
  apply (backups_lookup_by_slot_id (BackupGenerator.__init__ Config.default)
           [Scenario.star] [] [Scenario.afternoon_slot]).
  repeat constructor. intros [].
Defined.

(** ** The conflict test *)

Lemma bool_eq_iff (a b : bool) : (a = true <-> b = true) -> a = b.
Proof.
  destruct a, b; intros [H1 H2]; try reflexivity;
    [symmetry; now apply H1 | now apply H2].
Qed.

(** X10.  The buffered conflict test and the plain overlap test are
    symmetric in the two intervals, and two ranges that overlap also
    conflict under a buffer of 0 minutes to a day. *)
Theorem conflict_test_symmetric
    (cr : ConflictResolver.t) (self : SchedulingAlgorithm.t)
    (start1 end1 start2 end2 : string) :
  ConflictResolver._sessions_conflict cr (Some start1) (Some end1)
    (Some start2) (Some end2)
  = ConflictResolver._sessions_conflict cr (Some start2) (Some end2)
      (Some start1) (Some end1)
  /\ SchedulingAlgorithm._times_overlap self start1 end1 start2 end2
     = SchedulingAlgorithm._times_overlap self start2 end2 start1 end1
  /\ (0 <= ConflictResolver.buffer_minutes cr <= 24 * 60 ->
      SchedulingAlgorithm._times_overlap self start1 end1 start2 end2 = true ->
      ConflictResolver._sessions_conflict cr (Some start1) (Some end1)
        (Some start2) (Some end2) = true).
Proof.
  split; [|split].
  - apply bool_eq_iff. rewrite !sessions_conflict_iff.
    split; intros (s1&e1&s2&e2&A&B&C&D&H1&H2); exists s2, e2, s1, e1; auto 10.
  - apply bool_eq_iff. rewrite !times_overlap_iff.
    split; intros (s1&e1&s2&e2&A&B&C&D&H1&H2); exists s2, e2, s1, e1; auto 10.
  - intros Hb H. apply times_overlap_iff in H as (s1&e1&s2&e2&A&B&C&D&H1&H2).
    apply sessions_conflict_iff. exists s1, e1, s2, e2.
    repeat split; auto; lia.
Qed.

Lemma conflict_test_symmetric_witness :
  ConflictResolver._sessions_conflict (ConflictResolver.__init__ tt)
    (Some "09:00") (Some "10:00") (Some "09:30") (Some "10:30") = true.
Proof.
  apply (proj2 (proj2 (conflict_test_symmetric (ConflictResolver.__init__ tt)
                         Scenario.algorithm "09:00" "10:00" "09:30" "10:30"))).
  - simpl. lia.
  - reflexivity.
Defined.

(** ** Validation of the backups *)

Lemma subseq_filter {A} (f : A -> bool) (l : list A) : subseq (filter f l) l.
Proof.
  induction l as [|x r IH]; simpl; [apply subseq_nil|].
  destruct (f x); [now apply subseq_keep | now apply subseq_skip].
Qed.

Section Validation.
Variable cr : ConflictResolver.t.

Lemma primary_times_spec (primary_sessions : list Session) :
  ConflictResolver.primary_times primary_sessions
  = map (fun s => (scheduled_start s, scheduled_end s)) (filter timed primary_sessions).
Proof.
  unfold ConflictResolver.primary_times.
  match goal with
  | |- fold_left ?step _ _ = map ?g (filter ?f _) =>
      enough (forall acc, fold_left step primary_sessions acc
                          = acc ++ map g (filter f primary_sessions)) as G
        by apply (G [])
  end.
  induction primary_sessions as [|x r IH]; simpl; intros acc.
  - now rewrite app_nil_r.
  - rewrite IH. unfold timed at 2.
    destruct (truthy (scheduled_start x) && truthy (scheduled_end x));
      [|reflexivity].
    simpl. now rewrite <- app_assoc.
Qed.

Lemma validate_slot_backups_filter
    (times : list (option string * option string)) (backups : list Session) :
  ConflictResolver.validate_slot_backups cr times backups
  = filter (keeps cr times) backups.
Proof.
  unfold ConflictResolver.validate_slot_backups.
  match goal with
  | |- fold_left ?step _ _ = filter ?f _ =>
      enough (forall acc, fold_left step backups acc = acc ++ filter f backups) as G
        by apply (G [])
  end.
  induction backups as [|x r IH]; simpl; intros acc.
  - now rewrite app_nil_r.
  - rewrite IH. unfold keeps at 2.
    destruct (truthy (start_time x)), (truthy (end_time x)); simpl;
      try reflexivity.
    destruct (existsb _ times); simpl; [reflexivity|].
    now rewrite <- app_assoc.
Qed.

Lemma keeps_iff (primary_sessions : list Session) (b : Session) :
  keeps cr (ConflictResolver.primary_times primary_sessions) b = true
  <-> backup_kept cr primary_sessions b.
Proof.
  unfold keeps, backup_kept.
  rewrite !andb_true_iff, negb_true_iff, primary_times_spec.
  split.
  - intros ((Hs&He)&Hx). split; [exact Hs|]. split; [exact He|].
    intros p Hp Tp.
    match goal with |- ?c = false => destruct c eqn:C end; [|reflexivity].
    rewrite <- Hx. symmetry. apply existsb_exists.
    exists (scheduled_start p, scheduled_end p). split; [|exact C].
    apply in_map_iff. exists p. split; [reflexivity|].
    apply filter_In. auto.
  - intros (Hs&He&Hall). split; [auto|].
    match goal with |- ?c = false => destruct c eqn:C end; [|reflexivity].
    apply existsb_exists in C as (pt&Hpt&C).
    apply in_map_iff in Hpt as (p&<-&Hp). apply filter_In in Hp as (Hp&Tp).
    simpl in C. rewrite (Hall p Hp Tp) in C. discriminate.
Qed.
End Validation.

(** X11.  [_validate_backup_sessions] keeps the slot ids of the backup
    dict, in order.  Under each it keeps, in their order, exactly the
    backups that have both times and conflict (buffer included) with no
    primary session that has both scheduled times. *)
Theorem validated_backups_conflict_free
    (cr : ConflictResolver.t) (primary_sessions : list Session)
    (backup_sessions : dict (list Session)) :
  NoDup (dict_keys backup_sessions) ->
  dict_keys (ConflictResolver._validate_backup_sessions cr primary_sessions
               backup_sessions)
  = dict_keys backup_sessions
  /\ forall k pool, In (k, pool) backup_sessions ->
       exists kept,
         dict_get k (ConflictResolver._validate_backup_sessions cr primary_sessions
                       backup_sessions) = Some kept
         /\ subseq kept pool
         /\ forall b, In b kept <-> In b pool /\ backup_kept cr primary_sessions b.
Proof.
  intros N.
  change (ConflictResolver._validate_backup_sessions cr primary_sessions backup_sessions)
    with (dict_fill fst
            (fun entry : string * list Session =>
               ConflictResolver.validate_slot_backups cr
                 (ConflictResolver.primary_times primary_sessions) (snd entry))
            backup_sessions []).
  split.
  - now rewrite dict_fill_keys.
  - intros k pool H. eexists. split.
    + apply (dict_fill_get fst _ backup_sessions [] (k, pool)); assumption.
    + simpl. rewrite validate_slot_backups_filter. split; [apply subseq_filter|].
      intros b. rewrite filter_In, keeps_iff. reflexivity.
Qed.

Lemma validated_backups_conflict_free_witness :
  dict_keys
    (ConflictResolver._validate_backup_sessions (ConflictResolver.__init__ tt)
       [Scenario.primary "p1" "09:00" "10:00"]
       [("slot_1", [Scenario.star])])
  = dict_keys [("slot_1", [Scenario.star])]
  /\ forall k pool, In (k, pool) [("slot_1", [Scenario.star])] ->
       exists kept,
         dict_get k
           (ConflictResolver._validate_backup_sessions (ConflictResolver.__init__ tt)
              [Scenario.primary "p1" "09:00" "10:00"]
              [("slot_1", [Scenario.star])]) = Some kept
         /\ subseq kept pool
         /\ forall b, In b kept <->
                      In b pool
                      /\ backup_kept (ConflictResolver.__init__ tt)
                           [Scenario.primary "p1" "09:00" "10:00"] b.
Proof.
  apply validated_backups_conflict_free. repeat constructor. intros [].
Defined.

(** ** Parsed times are times of a day *)

Lemma char_between_digit (lo hi : nat) (c : ascii) :
  char_between lo hi c = true ->
  Z.of_nat lo - 48 <= digit c <= Z.of_nat hi - 48.
Proof.
  unfold char_between, digit. rewrite andb_true_iff, !Nat.leb_le. lia.
Qed.

Lemma is_digit_range (c : ascii) : is_digit c = true -> 0 <= digit c <= 9.
Proof. intros H. apply (char_between_digit 48 57) in H. lia. Qed.

Lemma In_if_single {A} (c : bool) (x y : A) :
  In y (if c then [x] else []) -> c = true /\ y = x.
Proof. destruct c; simpl; [intros [<-|[]]; auto|intros []]. Qed.

Lemma match_H_range (s : string) (h : Z) (r : string) :
  In (h, r) (match_H s) -> 0 <= h <= 23.
Proof.
  unfold match_H. intros H.
  destruct s as [|a [|b t]]; cbn [app] in H.
  - destruct H.
  - apply In_if_single in H as (A&E). apply pair_equal_spec in E as (-> & _).
    apply is_digit_range in A. lia.
  - apply in_app_or in H as [H|H]; [|apply in_app_or in H as [H|H]];
      apply In_if_single in H as (A&E); apply pair_equal_spec in E as (-> & _).
    + apply andb_true_iff in A as (A&B).
      apply char_between_digit in A, B. lia.
    + apply andb_true_iff in A as (A&B).
      apply char_between_digit in A. apply is_digit_range in B. lia.
    + apply is_digit_range in A. lia.
Qed.

Lemma match_M_range (s : string) (m : Z) (r : string) :
  In (m, r) (match_M s) -> 0 <= m <= 59.
Proof.
  unfold match_M. intros H.
  destruct s as [|a [|b t]]; cbn [app] in H.
  - destruct H.
  - apply In_if_single in H as (A&E). apply pair_equal_spec in E as (-> & _).
    apply is_digit_range in A. lia.
  - apply in_app_or in H as [H|H];
      apply In_if_single in H as (A&E); apply pair_equal_spec in E as (-> & _).
    + apply andb_true_iff in A as (A&B).
      apply char_between_digit in A. apply is_digit_range in B. lia.
    + apply is_digit_range in A. lia.
Qed.

Lemma first_match_Some {A B} (f : A -> option B) (l : list A) (b : B) :
  first_match f l = Some b -> exists a, In a l /\ f a = Some b.
Proof.
  induction l as [|a r IH]; simpl; [discriminate|].
  destruct (f a) eqn:E.
  - intros H. injection H as <-. exists a. auto.
  - intros H. destruct (IH H) as (x&Hx&Ex). exists x. auto.
Qed.

Lemma strptime_range (o : option string) (t : datetime) :
  strptime o = inr t -> 0 <= t < 24 * 60.
Proof.
  unfold strptime. destruct o as [s|]; [|discriminate].
  destruct (regex_HM s) as [[[h m] rest]|] eqn:E; [|discriminate].
  destruct (nonempty rest); [discriminate|].
  intros H. change (@inr exn datetime (60 * h + m) = inr t) in H.
  assert (t = 60 * h + m) as -> by congruence. clear H.
  unfold regex_HM in E. apply first_match_Some in E as ([h' r']&Hin&E).
  cbn [fst snd] in E. destruct (match_colon r') as [r''|]; [|discriminate].
  destruct (match_M r'') as [|[m' r3] tl] eqn:M; [discriminate|].
  assert (h' = h /\ m' = m) as (<-&<-) by (split; congruence).
  apply match_H_range in Hin.
  assert (In (m', r3) (match_M r'')) as Hm by (rewrite M; now left).
  apply match_M_range in Hm. lia.
Qed.

(** ** The venue-transition report *)

(** X12.  The time gap between an end and a start is 0 when either fails to
    parse; otherwise it is start - end when the start is not before the
    end, and start - end + 24 h when it is (the start is taken on the next
    day): never negative and below 24 hours. *)
Theorem time_gap_within_a_day
    (cr : ConflictResolver.t) (end_time start_time : option string) :
  0 <= ConflictResolver._calculate_time_gap cr end_time start_time < 24 * 60
  /\ (malformed end_time \/ malformed start_time ->
      ConflictResolver._calculate_time_gap cr end_time start_time = 0)
  /\ (forall e s, strptime end_time = inr e -> strptime start_time = inr s ->
        ConflictResolver._calculate_time_gap cr end_time start_time
        = if s <? e then s - e + 24 * 60 else s - e).
Proof.
  unfold ConflictResolver._calculate_time_gap, try_except.
  destruct (strptime end_time) as [x|e] eqn:Ee; cbn.
  - split; [lia|]. split; [reflexivity|]. intros e s H. discriminate.
  - destruct (strptime start_time) as [x|s] eqn:Es; cbn.
    + split; [lia|]. split; [reflexivity|]. intros e' s' _ H. discriminate.
    + pose proof (strptime_range _ _ Ee) as Re.
      pose proof (strptime_range _ _ Es) as Rs.
      assert (G : forall g, Z.quot (g * 60) 60 = g)
        by (intros g; apply Z.quot_mul; lia).
      rewrite G. split; [|split].
      * destruct (s <? e) eqn:C; [apply Z.ltb_lt in C|apply Z.ltb_ge in C]; lia.
      * intros [H|H]; exfalso; [apply (H e)|apply (H s)]; assumption.
      * intros e' s' H1 H2. injection H1 as <-. injection H2 as <-.
        destruct (s <? e); lia.
Qed.

Lemma time_gap_within_a_day_witness :
  ConflictResolver._calculate_time_gap (ConflictResolver.__init__ tt)
    (Some "10:00") (Some "half past ten") = 0.
Proof.
  apply (proj1 (proj2 (time_gap_within_a_day (ConflictResolver.__init__ tt)
                         (Some "10:00") (Some "half past ten")))).
  right. intros t. vm_compute. discriminate.
Defined.

Lemma str_take_length (n : nat) (s : string) :
  (String.length (str_take n s) <= n)%nat.
Proof.
  revert s. induction n as [|n IH]; intros [|c r]; simpl; try lia.
  specialize (IH r). lia.
Qed.

Section Transitions.
Variable cr : ConflictResolver.t.

Lemma venue_transitions_cons2 (a b : Session) (r : list Session) :
  ConflictResolver._calculate_venue_transitions cr (a :: b :: r)
  = (if negb (String.eqb (venue_or_unknown a) (venue_or_unknown b))
     then [{| ConflictResolver.from_venue := venue_or_unknown a;
              ConflictResolver.to_venue := venue_or_unknown b;
              ConflictResolver.from_session :=
                str_take 30 (get_default (title a) "Unknown");
              ConflictResolver.to_session :=
                str_take 30 (get_default (title b) "Unknown");
              ConflictResolver.time_gap :=
                ConflictResolver._calculate_time_gap cr
                  (Some (get_default (scheduled_end a) "00:00"))
                  (Some (get_default (scheduled_start b) "00:00")) |}]
     else [])
    ++ ConflictResolver._calculate_venue_transitions cr (b :: r).
Proof. reflexivity. Qed.

Lemma venue_transitions_facts (sessions : list Session) :
  (List.length (ConflictResolver._calculate_venue_transitions cr sessions)
   <= Nat.pred (List.length sessions))%nat
  /\ Forall
       (fun t =>
          ConflictResolver.from_venue t <> ConflictResolver.to_venue t
          /\ 0 <= ConflictResolver.time_gap t < 24 * 60
          /\ (String.length (ConflictResolver.from_session t) <= 30)%nat
          /\ (String.length (ConflictResolver.to_session t) <= 30)%nat
          /\ exists a b, In a sessions /\ In b sessions
                         /\ ConflictResolver.from_venue t = venue_or_unknown a
                         /\ ConflictResolver.to_venue t = venue_or_unknown b)
       (ConflictResolver._calculate_venue_transitions cr sessions).
Proof.
  induction sessions as [|a [|b r] IH]; try (split; [simpl; lia|constructor]).
  rewrite venue_transitions_cons2. destruct IH as (Hlen&Hall).
  assert (Hall' :
            Forall
              (fun t =>
                 ConflictResolver.from_venue t <> ConflictResolver.to_venue t
                 /\ 0 <= ConflictResolver.time_gap t < 24 * 60
                 /\ (String.length (ConflictResolver.from_session t) <= 30)%nat
                 /\ (String.length (ConflictResolver.to_session t) <= 30)%nat
                 /\ exists x y, In x (a :: b :: r) /\ In y (a :: b :: r)
                                /\ ConflictResolver.from_venue t = venue_or_unknown x
                                /\ ConflictResolver.to_venue t = venue_or_unknown y)
              (ConflictResolver._calculate_venue_transitions cr (b :: r))).
  { eapply Forall_impl; [|exact Hall].
    intros t (H1&H2&H3&H4&x&y&Hx&Hy&E).
    split; [exact H1|]. split; [exact H2|]. split; [exact H3|]. split; [exact H4|].
    exists x, y. split; [now right|]. split; [now right|exact E]. }
  destruct (String.eqb (venue_or_unknown a) (venue_or_unknown b)) eqn:E;
    cbn [negb app].
  - split; [simpl in *; lia|exact Hall'].
  - split; [simpl in *; lia|]. constructor; [|exact Hall'].
    cbn [ConflictResolver.from_venue ConflictResolver.to_venue
         ConflictResolver.time_gap ConflictResolver.from_session
         ConflictResolver.to_session].
    split; [now apply String.eqb_neq|].
    split; [apply time_gap_within_a_day|].
    split; [apply str_take_length|]. split; [apply str_take_length|].
    exists a, b. simpl. auto.
Qed.

Lemma venue_transitions_same_venue (sessions : list Session) (v : string) :
  (forall s, In s sessions -> venue_or_unknown s = v) ->
  ConflictResolver._calculate_venue_transitions cr sessions = [].
Proof.
  induction sessions as [|a [|b r] IH]; intros H; try reflexivity.
  rewrite venue_transitions_cons2.
  rewrite (H a), (H b) by (simpl; auto). rewrite String.eqb_refl. simpl.
  apply IH. intros s Hs. apply H. now right.
Qed.

Lemma recommendations_length (resolved : ConflictResolver.ConflictsResolved) :
  (List.length
     (ConflictResolver.recommendations
        (ConflictResolver.get_conflict_report cr resolved))
   <= List.length (ConflictResolver.venue_transitions resolved) + 1)%nat.
Proof.
  unfold ConflictResolver.get_conflict_report.
  cbn [ConflictResolver.recommendations].
  set (ts := ConflictResolver.venue_transitions resolved).
  set (init := if Z.of_nat (List.length ts) >? 3 then _ else _).
  assert (List.length init <= 1)%nat as Hi
    by (unfold init; destruct (_ >? 3); simpl; lia).
  clearbody init ts. revert init Hi.
  enough (forall init,
            (List.length
               (fold_left
                  (fun recs transition =>
                     if (ConflictResolver.time_gap transition <? 30)%Z
                     then recs ++ [("Short transition time ("
                                    ++ str_of_Z (ConflictResolver.time_gap transition)
                                    ++ " min) between "
                                    ++ ConflictResolver.from_venue transition
                                    ++ " and "
                                    ++ ConflictResolver.to_venue transition)%string]
                     else recs) ts init)
             <= List.length ts + List.length init)%nat) as G.
  { intros init Hi. specialize (G init). lia. }
  induction ts as [|t r IH]; intros init; cbn [fold_left List.length]; [lia|].
  match goal with
  | |- (List.length (fold_left _ _ ?i) <= _)%nat =>
      specialize (IH i);
      assert (List.length i <= S (List.length init))%nat
  end.
  { destruct (ConflictResolver.time_gap t <? 30)%Z;
      [rewrite length_app; simpl|]; lia. }
  lia.
Qed.
End Transitions.

Lemma conflicts_resolved_facts (cr : ConflictResolver.t)
    (primary_sessions : list Session) (backup_sessions : dict (list Session))
    (time_slots : list TimeSlot) :
  ConflictResolver.venue_transitions
    (ConflictResolver.conflicts_resolved cr primary_sessions backup_sessions
       time_slots)
  = ConflictResolver._calculate_venue_transitions cr
      (ConflictResolver.primary
         (ConflictResolver.resolve_conflicts cr primary_sessions backup_sessions
            time_slots))
  /\ ConflictResolver.cr_optimization_applied
       (ConflictResolver.conflicts_resolved cr primary_sessions backup_sessions
          time_slots) = false.
Proof.
  split.
  - reflexivity.
  - unfold ConflictResolver.conflicts_resolved, ConflictResolver.resolve_conflicts,
      ConflictResolver._optimize_venue_proximity,
      ConflictResolver._reduce_venue_transitions.
    cbn [ConflictResolver.cr_optimization_applied
         ConflictResolver.optimization_applied].
    now rewrite Nat.eqb_refl.
Qed.

Lemma venue_transitions_spec (cr : ConflictResolver.t) (sessions : list Session) :
  ConflictResolver._calculate_venue_transitions cr sessions
  = map (transition_between cr) (filter venue_changes (neighbours sessions)).
Proof.
  induction sessions as [|a [|b r] IH]; try reflexivity.
  rewrite venue_transitions_cons2, IH.
  change (neighbours (a :: b :: r)) with ((a, b) :: neighbours (b :: r)).
  cbn [filter]. unfold venue_changes at 2. cbn [fst snd].
  destruct (negb (String.eqb (venue_or_unknown a) (venue_or_unknown b)));
    reflexivity.
Qed.

Lemma neighbours_map {A B} (f : A -> B) (l : list A) :
  neighbours (map f l) = map (fun ab => (f (fst ab), f (snd ab))) (neighbours l).
Proof.
  unfold neighbours. induction l as [|a [|b r] IH]; try reflexivity.
  change (combine (map f (a :: b :: r)) (tl (map f (a :: b :: r))))
    with ((f a, f b) :: combine (map f (b :: r)) (tl (map f (b :: r)))).
  rewrite IH. reflexivity.
Qed.

Lemma filter_map_comm {A B} (p : B -> bool) (f : A -> B) (l : list A) :
  filter p (map f l) = map f (filter (fun x => p (f x)) l).
Proof.
  induction l as [|x r IH]; [reflexivity|]. simpl.
  destruct (p (f x)); simpl; now rewrite IH.
Qed.

Lemma recommendations_spec (cr : ConflictResolver.t)
    (resolved : ConflictResolver.ConflictsResolved) :
  ConflictResolver.recommendations
    (ConflictResolver.get_conflict_report cr resolved)
  = (if Z.of_nat (List.length (ConflictResolver.venue_transitions resolved)) >? 3
     then ["Consider grouping sessions by venue to reduce travel time"]
     else [])
    ++ map short_gap_note
         (filter (fun t => ConflictResolver.time_gap t <? 30)
            (ConflictResolver.venue_transitions resolved)).
Proof.
  unfold ConflictResolver.get_conflict_report.
  cbn [ConflictResolver.recommendations].
  generalize (if Z.of_nat (List.length (ConflictResolver.venue_transitions resolved))
                 >? 3
              then ["Consider grouping sessions by venue to reduce travel time"]
              else []).
  induction (ConflictResolver.venue_transitions resolved) as [|t r IH];
    intros init; cbn [fold_left filter map].
  - now rewrite app_nil_r.
  - rewrite IH. destruct (ConflictResolver.time_gap t <? 30).
    + now rewrite <- app_assoc.
    + reflexivity.
Qed.

(** X13.  The venue transitions reported for a day are exactly those
    between neighbouring final primary sessions at different venues, one per
    such pair and in their order: each names the two venues ('Unknown' for
    a session without venue), the two titles cut to 30 characters and the
    gap from the end of the first to the start of the second; so the pairs
    of venues reported are the changes in the sequence of venues.  The flag
    optimization_applied is always false.  The conflict report counts the
    transitions, lists them, and recommends grouping by venue when there
    are more than 3, followed by one note per transition with a gap below
    30 minutes.  So there are fewer transitions than sessions, a gap is not
    negative and below 24 hours, there is at most one recommendation more
    than transitions, and no transition and no recommendation when all
    final primaries are at one venue. *)
Theorem venue_transition_report_bounds
    (cr : ConflictResolver.t) (primary_sessions : list Session)
    (backup_sessions : dict (list Session)) (time_slots : list TimeSlot) :
  let resolved :=
    ConflictResolver.conflicts_resolved cr primary_sessions backup_sessions
      time_slots in
  let final :=
    ConflictResolver.primary
      (ConflictResolver.resolve_conflicts cr primary_sessions backup_sessions
         time_slots) in
  let ts := ConflictResolver.venue_transitions resolved in
  let report := ConflictResolver.get_conflict_report cr resolved in
  ts = map (transition_between cr) (filter venue_changes (neighbours final))
  /\ map (fun t => (ConflictResolver.from_venue t, ConflictResolver.to_venue t)) ts
     = filter (fun vw => negb (String.eqb (fst vw) (snd vw)))
         (neighbours (map venue_or_unknown final))
  /\ ConflictResolver.venue_transition_details report = ts
  /\ ConflictResolver.total_venue_transitions report = Z.of_nat (List.length ts)
  /\ ConflictResolver.recommendations report
     = (if Z.of_nat (List.length ts) >? 3
        then ["Consider grouping sessions by venue to reduce travel time"]
        else [])
       ++ map short_gap_note
            (filter (fun t => ConflictResolver.time_gap t <? 30) ts)
  /\ ts = ConflictResolver._calculate_venue_transitions cr final
  /\ ConflictResolver.cr_optimization_applied resolved = false
  /\ ConflictResolver.report_optimization_applied report = false
  /\ (List.length ts <= Nat.pred (List.length final))%nat
  /\ Forall
       (fun t =>
          ConflictResolver.from_venue t <> ConflictResolver.to_venue t
          /\ 0 <= ConflictResolver.time_gap t < 24 * 60
          /\ (String.length (ConflictResolver.from_session t) <= 30)%nat
          /\ (String.length (ConflictResolver.to_session t) <= 30)%nat
          /\ exists a b, In a final /\ In b final
                         /\ ConflictResolver.from_venue t = venue_or_unknown a
                         /\ ConflictResolver.to_venue t = venue_or_unknown b)
       ts
  /\ (List.length (ConflictResolver.recommendations report)
      <= List.length ts + 1)%nat
  /\ ((exists v, forall s, In s final -> venue_or_unknown s = v) ->
      ts = [] /\ ConflictResolver.recommendations report = []).
Proof.
  cbv zeta.
  destruct (conflicts_resolved_facts cr primary_sessions backup_sessions time_slots)
    as (Hts&Hopt).
  set (resolved := ConflictResolver.conflicts_resolved cr primary_sessions
                     backup_sessions time_slots) in *.
  set (final := ConflictResolver.primary
                  (ConflictResolver.resolve_conflicts cr primary_sessions
                     backup_sessions time_slots)) in *.
  destruct (venue_transitions_facts cr final) as (Hlen&Hall).
  assert (Hspec : ConflictResolver.venue_transitions resolved
                  = map (transition_between cr)
                      (filter venue_changes (neighbours final)))
    by (rewrite Hts; apply venue_transitions_spec).
  split; [exact Hspec|]. split.
  { rewrite Hspec, map_map, neighbours_map, filter_map_comm. reflexivity. }
  split; [reflexivity|]. split; [reflexivity|].
  split; [apply recommendations_spec|].
  split; [exact Hts|]. split; [exact Hopt|]. split; [exact Hopt|].
  rewrite Hts.
  split; [exact Hlen|]. split; [exact Hall|].
  split; [rewrite <- Hts; apply (recommendations_length cr)|].
  intros (v&Hv).
  pose proof (venue_transitions_same_venue cr final v Hv) as E.
  split; [exact E|].
  unfold ConflictResolver.get_conflict_report.
  cbn [ConflictResolver.recommendations]. rewrite Hts, E. reflexivity.
Qed.

Lemma venue_transition_report_bounds_witness :
  ConflictResolver.venue_transitions
    (ConflictResolver.conflicts_resolved (ConflictResolver.__init__ tt)
       [with_slot (Scenario.venue_session (Some "Wynn"))
          {| slot_id := "slot_2"; slot_start_time := "10:45";
             slot_end_time := "11:00"; slot_date := "2025-12-01";
             is_lunch_break := false; buffer_before := 30; buffer_after := 30 |};
        with_slot (Scenario.venue_session (Some "Venetian"))
          {| slot_id := "slot_1"; slot_start_time := "09:00";
             slot_end_time := "10:00"; slot_date := "2025-12-01";
             is_lunch_break := false; buffer_before := 30; buffer_after := 30 |}]
       [] [])
  = [{| ConflictResolver.from_venue := "Venetian";
        ConflictResolver.to_venue := "Wynn";
        ConflictResolver.from_session := "Keynote";
        ConflictResolver.to_session := "Keynote";
        ConflictResolver.time_gap := 45 |}].
Proof.
  rewrite (proj1 (venue_transition_report_bounds (ConflictResolver.__init__ tt) _ [] [])).
  vm_compute. reflexivity.
Defined.

(** ** The schedule of a day, end to end *)

Lemma subseq_NoDup {A} (l1 l2 : list A) : subseq l1 l2 -> NoDup l2 -> NoDup l1.
Proof.
  induction 1 as [|x l1 l2 H IH|x l1 l2 H IH]; intros N.
  - constructor.
  - inversion N; subst. now apply IH.
  - inversion N as [|y r Hx Hr]; subst. constructor; [|now apply IH].
    intros Hin. apply Hx. now apply (subseq_In _ _ _ H).
Qed.

Lemma NoDup_map_eq {A B} (f : A -> B) (l : list A) (x y : A) :
  NoDup (map f l) -> In x l -> In y l -> f x = f y -> x = y.
Proof.
  induction l as [|a r IH]; simpl; intros N Hx Hy E; [destruct Hx|].
  inversion N as [|b r' Ha Hr]; subst.
  destruct Hx as [<-|Hx], Hy as [<-|Hy]; try reflexivity.
  - exfalso. apply Ha. rewrite E. now apply in_map.
  - exfalso. apply Ha. rewrite <- E. now apply in_map.
  - now apply IH.
Qed.

Lemma sessions_conflict_sym (cr : ConflictResolver.t) (a b c d : option string) :
  ConflictResolver._sessions_conflict cr a b c d
  = ConflictResolver._sessions_conflict cr c d a b.
Proof.
  apply bool_eq_iff. rewrite !sessions_conflict_iff.
  split; intros (s1&e1&s2&e2&A&B&C&D&H1&H2); exists s2, e2, s1, e1; auto 10.
Qed.

Lemma assigned_slot_ids (sessions : list Session) (l : list TimeSlot) :
  subseq (map time_slot (fst (assigned sessions l)))
         (map (fun slot => Some (slot_id slot)) l).
Proof.
  induction l as [|slot pre IH] using rev_ind; [apply subseq_nil|].
  rewrite assigned_snoc, map_app. simpl map.
  unfold SchedulingAlgorithm.primary_step.
  destruct (assigned sessions pre) as [prim used]. simpl fst in IH.
  destruct (fst (SchedulingAlgorithm.best_for_slot sessions slot used)) as [b|].
  - simpl fst. rewrite map_app. simpl map. now apply subseq_snoc_keep.
  - simpl fst. now apply subseq_snoc_skip.
Qed.

Section Day.
Variable self : SchedulingAlgorithm.t.
Variable cfg : Config.t.
Variable sessions : list Session.
Variable date : string.

Lemma day_time_slots :
  time_slots (SchedulingAlgorithm._create_daily_schedule self cfg sessions date)
  = day_slots self sessions date.
Proof. reflexivity. Qed.

Lemma day_primary :
  primary_sessions (SchedulingAlgorithm._create_daily_schedule self cfg sessions date)
  = scan (SchedulingAlgorithm.conflict_resolver self)
      (sorted ConflictResolver.by_start (assigned_primaries self sessions date)).
Proof.
  unfold SchedulingAlgorithm._create_daily_schedule. cbn [primary_sessions].
  rewrite resolve_conflicts_primary. apply resolve_time_conflicts_scan.
Qed.

Lemma day_backups :
  backup_sessions (SchedulingAlgorithm._create_daily_schedule self cfg sessions date)
  = ConflictResolver._validate_backup_sessions
      (SchedulingAlgorithm.conflict_resolver self)
      (primary_sessions
         (SchedulingAlgorithm._create_daily_schedule self cfg sessions date))
      (generated_backups self sessions date).
Proof.
  rewrite day_primary, <- resolve_time_conflicts_scan. reflexivity.
Qed.

Lemma day_primary_subseq :
  subseq
    (primary_sessions
       (SchedulingAlgorithm._create_daily_schedule self cfg sessions date))
    (sorted ConflictResolver.by_start (assigned_primaries self sessions date)).
Proof. rewrite day_primary. apply scan_invariant. Qed.

Lemma day_primary_assigned (p : Session) :
  In p (primary_sessions
          (SchedulingAlgorithm._create_daily_schedule self cfg sessions date)) ->
  In p (assigned_primaries self sessions date).
Proof.
  intros H. apply (subseq_In _ _ _ day_primary_subseq) in H.
  now apply sorted_In in H.
Qed.

Lemma assigned_placed (p : Session) :
  In p (assigned_primaries self sessions date) ->
  placed sessions (day_slots self sessions date) p.
Proof.
  intros H. apply assigned_from_slot in H as (slot&b&Hs&Hb&E&Hst&Hen).
  apply sorted_In in Hb. exists slot, b. auto.
Qed.

Lemma placed_timed (p : Session) :
  placed sessions (day_slots self sessions date) p -> timed p = true.
Proof.
  intros (slot&b&Hs&_&->&_). apply generated_slot_In in Hs as ((Ns&Ne&_)&_).
  unfold timed. simpl.
  destruct (slot_start_time slot); [contradiction|].
  destruct (slot_end_time slot); [contradiction|]. reflexivity.
Qed.

Lemma assigned_time_slots_NoDup :
  NoDup (map time_slot (assigned_primaries self sessions date)).
Proof.
  eapply subseq_NoDup; [apply assigned_slot_ids|].
  rewrite <- (map_map slot_id Some).
  apply NoDup_map_inj; [intros x y H; now injection H|].
  apply generated_slots_NoDup.
Qed.

Lemma day_slots_length :
  (List.length (day_slots self sessions date) <= List.length sessions)%nat.
Proof.
  unfold day_slots. rewrite generate_time_slots_spec.
  eapply Nat.le_trans; [apply subseq_length, slice_to_subseq|].
  set (ranges := sorted pair_leb _).
  destruct (accepted_invariant self date ranges) as (Hsub&_).
  apply subseq_length in Hsub. rewrite length_map in Hsub.
  eapply Nat.le_trans; [exact Hsub|].
  unfold ranges. rewrite (Permutation_length (sorted_perm _ _)).
  rewrite session_times_spec, length_map.
  eapply Nat.le_trans; [apply subseq_length, subseq_filter|].
  now rewrite (Permutation_length (sorted_perm _ _)).
Qed.

Lemma assigned_length :
  (List.length (assigned_primaries self sessions date)
   <= List.length (day_slots self sessions date))%nat.
Proof.
  pose proof (subseq_length _ _
                (assigned_slot_ids (sorted SessionScorer.score_desc sessions)
                   (day_slots self sessions date))) as H.
  now rewrite !length_map in H.
Qed.

Lemma day_primary_length :
  (List.length
     (primary_sessions
        (SchedulingAlgorithm._create_daily_schedule self cfg sessions date))
   <= List.length (assigned_primaries self sessions date))%nat.
Proof.
  pose proof (subseq_length _ _ day_primary_subseq) as H.
  now rewrite (Permutation_length (sorted_perm _ _)) in H.
Qed.

Lemma day_primary_le_sessions :
  (List.length
     (primary_sessions
        (SchedulingAlgorithm._create_daily_schedule self cfg sessions date))
   <= List.length sessions)%nat.
Proof.
  pose proof day_primary_length. pose proof assigned_length.
  pose proof day_slots_length. lia.
Qed.

Lemma day_primary_le_max :
  0 <= SchedulingAlgorithm.max_sessions_per_day self ->
  Z.of_nat
    (List.length
       (primary_sessions
          (SchedulingAlgorithm._create_daily_schedule self cfg sessions date)))
  <= SchedulingAlgorithm.max_sessions_per_day self.
Proof.
  intros H0. pose proof day_primary_length as L1. pose proof assigned_length as L2.
  pose proof (slice_to_length
                (accepted self date
                   (sorted pair_leb
                      (SchedulingAlgorithm.session_times
                         (sorted SessionScorer.score_desc sessions))))
                _ H0) as L4.
  rewrite <- generate_time_slots_spec in L4.
  fold (day_slots self sessions date) in L4. lia.
Qed.

Lemma day_primary_NoDup {B} (f : Session -> B) :
  NoDup (map f (assigned_primaries self sessions date)) ->
  NoDup (map f (primary_sessions
                  (SchedulingAlgorithm._create_daily_schedule self cfg sessions date))).
Proof.
  intros N. eapply subseq_NoDup; [apply subseq_map, day_primary_subseq|].
  eapply Permutation_NoDup; [|exact N].
  apply Permutation_map, Permutation_sym, sorted_perm.
Qed.
End Day.

(** X14.  The final primary sessions of a day: each is a session of the
    day copied into a slot of the day whose start and end are exactly its
    own; no session and no slot occurs twice; they are in ascending order
    of scheduled start; any two of them are apart by the resolver's buffer
    (the conflict test fails in both directions); and there are at most as
    many as slots, as sessions, and, for a non-negative
    max_sessions_per_day, as that limit. *)
Theorem daily_primaries_placed_and_separated
    (self : SchedulingAlgorithm.t) (cfg : Config.t) (sessions : list Session)
    (date : string) :
  let d := SchedulingAlgorithm._create_daily_schedule self cfg sessions date in
  let cr := SchedulingAlgorithm.conflict_resolver self in
  Forall (placed sessions (time_slots d)) (primary_sessions d)
  /\ NoDup (map session_id (primary_sessions d))
  /\ NoDup (map time_slot (primary_sessions d))
  /\ StronglySorted
       (fun a b => str_leb (ConflictResolver.start_key a)
                     (ConflictResolver.start_key b) = true)
       (primary_sessions d)
  /\ ForallOrdPairs
       (fun earlier later =>
          conflict cr later earlier = false /\ conflict cr earlier later = false)
       (primary_sessions d)
  /\ (List.length (primary_sessions d) <= List.length (time_slots d))%nat
  /\ (List.length (primary_sessions d) <= List.length sessions)%nat
  /\ (0 <= SchedulingAlgorithm.max_sessions_per_day self ->
      Z.of_nat (List.length (primary_sessions d))
      <= SchedulingAlgorithm.max_sessions_per_day self).
Proof.
  cbv zeta. rewrite day_time_slots.
  pose proof (day_primary_length self cfg sessions date) as L1.
  pose proof (assigned_length self sessions date) as L2.
  assert (P : Forall (placed sessions (day_slots self sessions date))
                (primary_sessions
                   (SchedulingAlgorithm._create_daily_schedule self cfg sessions date))).
  { apply Forall_forall. intros p Hp.
    now apply assigned_placed, (day_primary_assigned self cfg). }
  split; [exact P|]. split; [|split; [|split; [|split; [|split; [|split]]]]].
  - apply day_primary_NoDup. apply assigned_used.
  - apply day_primary_NoDup. apply assigned_time_slots_NoDup.
  - eapply subseq_StronglySorted; [apply day_primary_subseq|].
    apply sorted_by_start_StronglySorted.
  - rewrite Forall_forall in P. revert P. rewrite day_primary.
    destruct (scan_invariant (SchedulingAlgorithm.conflict_resolver self)
                (sorted ConflictResolver.by_start
                   (assigned_primaries self sessions date))) as (_&F&_).
    induction F as [|a l Ha F IH]; intros P; constructor.
    + rewrite Forall_forall in *. intros x Hx.
      assert (conflict (SchedulingAlgorithm.conflict_resolver self) x a = false) as C.
      { apply (Ha x Hx). apply (placed_timed self sessions date).
        apply P. now right. }
      split; [exact C|]. unfold conflict in *.
      now rewrite sessions_conflict_sym.
    + apply IH. intros x Hx. apply P. now right.
  - lia.
  - apply day_primary_le_sessions.
  - apply day_primary_le_max.
Qed.

Lemma daily_primaries_placed_and_separated_witness :
  Z.of_nat
    (List.length
       (primary_sessions
          (SchedulingAlgorithm._create_daily_schedule Scenario.algorithm
             Config.default Scenario.morning "2025-12-01")))
  <= SchedulingAlgorithm.max_sessions_per_day Scenario.algorithm.
Proof.
  apply (daily_primaries_placed_and_separated Scenario.algorithm Config.default
           Scenario.morning "2025-12-01").
  vm_compute. discriminate.
Defined.

(** ** The backup pools of a day *)

Lemma generate_backups_fill (bg : BackupGenerator.t)
    (all_sessions primary_sessions : list Session) (time_slots : list TimeSlot) :
  BackupGenerator.generate_backups bg all_sessions primary_sessions time_slots
  = dict_fill slot_id (pool_of bg all_sessions primary_sessions) time_slots [].
Proof. reflexivity. Qed.

Lemma validate_backups_fill (cr : ConflictResolver.t)
    (primary_sessions : list Session) (backup_sessions : dict (list Session)) :
  ConflictResolver._validate_backup_sessions cr primary_sessions backup_sessions
  = dict_fill fst
      (fun entry : string * list Session =>
         ConflictResolver.validate_slot_backups cr
           (ConflictResolver.primary_times primary_sessions) (snd entry))
      backup_sessions [].
Proof. reflexivity. Qed.

Lemma pool_of_facts (bg : BackupGenerator.t)
    (all_sessions primary_sessions : list Session) (slot : TimeSlot) :
  StronglySorted by_backup_score_desc (pool_of bg all_sessions primary_sessions slot)
  /\ Z.of_nat (List.length (pool_of bg all_sessions primary_sessions slot))
     <= Z.max (BackupGenerator.min_backup_sessions bg) 3
  /\ forall b, In b (pool_of bg all_sessions primary_sessions slot) ->
       backup_of bg all_sessions slot b
       /\ ~ In (session_id b) (map session_id primary_sessions).
Proof.
  unfold pool_of. split; [|split].
  - eapply subseq_StronglySorted; [apply slice_to_subseq|apply rank_StronglySorted].
  - apply slice_to_length. lia.
  - intros b Hb. apply slice_to_In, rank_In in Hb as (c&Hc&->).
    apply find_candidates_In in Hc as (Hin&Hex&Ht).
    split; [exists c; auto|exact Hex].
Qed.

Section DayBackups.
Variable self : SchedulingAlgorithm.t.
Variable cfg : Config.t.
Variable sessions : list Session.
Variable date : string.

Lemma generated_backups_keys :
  dict_keys (generated_backups self sessions date)
  = map slot_id (day_slots self sessions date).
Proof.
  unfold generated_backups. rewrite generate_backups_fill.
  rewrite dict_fill_keys; [reflexivity|]. apply generated_slots_NoDup.
Qed.

Lemma generated_backups_get (slot : TimeSlot) :
  In slot (day_slots self sessions date) ->
  dict_get (slot_id slot) (generated_backups self sessions date)
  = Some (pool_of (SchedulingAlgorithm.backup_generator self)
            (sorted SessionScorer.score_desc sessions)
            (assigned_primaries self sessions date) slot).
Proof.
  intros H. unfold generated_backups. rewrite generate_backups_fill.
  apply dict_fill_get; [apply generated_slots_NoDup|exact H].
Qed.

Lemma day_backups_keys :
  dict_keys
    (backup_sessions
       (SchedulingAlgorithm._create_daily_schedule self cfg sessions date))
  = map slot_id (day_slots self sessions date).
Proof.
  rewrite day_backups, validate_backups_fill, dict_fill_keys.
  - apply generated_backups_keys.
  - simpl. change (map fst (generated_backups self sessions date))
      with (dict_keys (generated_backups self sessions date)).
    rewrite generated_backups_keys. apply generated_slots_NoDup.
Qed.

Lemma day_backups_get (slot : TimeSlot) :
  In slot (day_slots self sessions date) ->
  dict_get (slot_id slot)
    (backup_sessions
       (SchedulingAlgorithm._create_daily_schedule self cfg sessions date))
  = Some
      (filter
         (keeps (SchedulingAlgorithm.conflict_resolver self)
            (ConflictResolver.primary_times
               (primary_sessions
                  (SchedulingAlgorithm._create_daily_schedule self cfg sessions date))))
         (pool_of (SchedulingAlgorithm.backup_generator self)
            (sorted SessionScorer.score_desc sessions)
            (assigned_primaries self sessions date) slot)).
Proof.
  intros H. rewrite day_backups, validate_backups_fill.
  rewrite <- validate_slot_backups_filter.
  apply generated_backups_get, dict_get_In in H.
  assert (N : NoDup (map fst (generated_backups self sessions date))).
  { change (map fst (generated_backups self sessions date))
      with (dict_keys (generated_backups self sessions date)).
    rewrite generated_backups_keys. apply generated_slots_NoDup. }
  exact (dict_fill_get fst
           (fun entry : string * list Session =>
              ConflictResolver.validate_slot_backups
                (SchedulingAlgorithm.conflict_resolver self)
                (ConflictResolver.primary_times
                   (primary_sessions
                      (SchedulingAlgorithm._create_daily_schedule self cfg sessions
                         date)))
                (snd entry))
           (generated_backups self sessions date) [] _ N H).
Qed.
End DayBackups.

(** X15.  The final backup pools of a day.  The dict has the day's slot
    ids as keys, in the order of the slots.  The pool of a slot is sorted
    by descending backup score and holds at most max(min_backup_sessions, 3)
    entries; each is a session of the day within 30 minutes of the slot's
    times, copied with its backup score; it is no session that was assigned
    to a slot as primary, has not the id of any final primary, and does not
    conflict (buffer included) with any final primary. *)
Theorem daily_backups_disjoint_from_primaries
    (self : SchedulingAlgorithm.t) (cfg : Config.t) (sessions : list Session)
    (date : string) :
  let d := SchedulingAlgorithm._create_daily_schedule self cfg sessions date in
  let cr := SchedulingAlgorithm.conflict_resolver self in
  let bg := SchedulingAlgorithm.backup_generator self in
  dict_keys (backup_sessions d) = map slot_id (time_slots d)
  /\ forall slot, In slot (time_slots d) ->
       exists pool,
         dict_get (slot_id slot) (backup_sessions d) = Some pool
         /\ StronglySorted by_backup_score_desc pool
         /\ Z.of_nat (List.length pool)
            <= Z.max (BackupGenerator.min_backup_sessions bg) 3
         /\ forall b, In b pool ->
              backup_of bg sessions slot b
              /\ ~ In (session_id b)
                     (map session_id (assigned_primaries self sessions date))
              /\ forall p, In p (primary_sessions d) ->
                   session_id b <> session_id p
                   /\ ConflictResolver._sessions_conflict cr
                        (start_time b) (end_time b)
                        (scheduled_start p) (scheduled_end p) = false.
Proof.
  cbv zeta. rewrite day_time_slots. split; [apply day_backups_keys|].
  intros slot Hs. eexists. split; [now apply day_backups_get|].
  destruct (pool_of_facts (SchedulingAlgorithm.backup_generator self)
              (sorted SessionScorer.score_desc sessions)
              (assigned_primaries self sessions date) slot) as (Hsorted&Hlen&Hall).
  split; [|split].
  - eapply subseq_StronglySorted; [apply subseq_filter|exact Hsorted].
  - pose proof (subseq_length _ _
                  (subseq_filter
                     (keeps (SchedulingAlgorithm.conflict_resolver self)
                        (ConflictResolver.primary_times
                           (primary_sessions
                              (SchedulingAlgorithm._create_daily_schedule self cfg
                                 sessions date))))
                     (pool_of (SchedulingAlgorithm.backup_generator self)
                        (sorted SessionScorer.score_desc sessions)
                        (assigned_primaries self sessions date) slot))).
    lia.
  - intros b Hb. apply filter_In in Hb as (Hb&K).
    apply keeps_iff in K as (_&_&K).
    destruct (Hall b Hb) as ((c&Hc&E&Ht)&Hex).
    split; [exists c; split; [now apply sorted_In in Hc|auto]|].
    split; [exact Hex|].
    intros p Hp. split.
    + intros E'. apply Hex. rewrite E'. apply in_map.
      now apply (day_primary_assigned self cfg).
    + apply K; [exact Hp|].
      apply (placed_timed self sessions date), assigned_placed.
      now apply (day_primary_assigned self cfg).
Qed.

(** X16.  A slot whose primary survives the conflict resolution ends with
    an empty backup pool: when the resolver's buffer is at least the 30
    minutes of tolerance of the backup generator (and at most a day) and
    the slot does not end before or when it starts, every backup candidate
    of the slot conflicts with the slot's own primary and is removed by the
    validation. *)
Theorem surviving_primary_empties_backup_pool
    (self : SchedulingAlgorithm.t) (cfg : Config.t) (sessions : list Session)
    (date : string) (slot : TimeSlot) (p : Session) :
  let d := SchedulingAlgorithm._create_daily_schedule self cfg sessions date in
  30 <= ConflictResolver.buffer_minutes (SchedulingAlgorithm.conflict_resolver self)
     <= 24 * 60 ->
  In slot (time_slots d) ->
  In p (primary_sessions d) ->
  time_slot p = Some (slot_id slot) ->
  (forall ss se, strptime (Some (slot_start_time slot)) = inr ss ->
                 strptime (Some (slot_end_time slot)) = inr se -> ss < se) ->
  dict_get (slot_id slot) (backup_sessions d) = Some [].
Proof.
  cbv zeta. rewrite day_time_slots. intros HB Hs Hp Hid Hpos.
  rewrite (day_backups_get self cfg sessions date slot Hs). f_equal.
  apply filter_none. intros b Hb.
  match goal with |- ?k = false => destruct k eqn:K end; [exfalso|reflexivity].
  apply keeps_iff in K as (_&_&K).
  pose proof (day_primary_assigned self cfg sessions date p Hp) as Ha.
  pose proof (assigned_placed self sessions date p Ha) as Hpl.
  pose proof (placed_timed self sessions date p Hpl) as Ht.
  specialize (K p Hp Ht).
  destruct Hpl as (slot0&b0&Hs0&_&->&_).
  assert (slot0 = slot) as ->.
  { apply (NoDup_map_eq slot_id (day_slots self sessions date));
      [apply generated_slots_NoDup|assumption|assumption|].
    simpl in Hid. now injection Hid. }
  destruct (pool_of_facts (SchedulingAlgorithm.backup_generator self)
              (sorted SessionScorer.score_desc sessions)
              (assigned_primaries self sessions date) slot) as (_&_&Hall).
  destruct (Hall b Hb) as ((c&_&->&(a&e&ss&se&A&E&SS&SE&Ha1&He1))&_).
  assert (ConflictResolver._sessions_conflict
            (SchedulingAlgorithm.conflict_resolver self)
            (start_time (scored (SchedulingAlgorithm.backup_generator self) slot c))
            (end_time (scored (SchedulingAlgorithm.backup_generator self) slot c))
            (scheduled_start (with_slot b0 slot))
            (scheduled_end (with_slot b0 slot)) = true) as C.
  { apply sessions_conflict_iff. exists a, e, ss, se.
    specialize (Hpos ss se SS SE). simpl. repeat split; try assumption; lia. }
  congruence.
Qed.

Lemma surviving_primary_empties_backup_pool_witness :
  dict_get "slot_1"
    (backup_sessions
       (SchedulingAlgorithm._create_daily_schedule Scenario.algorithm Config.default
          [Scenario.session "a" "2025-12-01" "09:00" "10:00" 0.8%Q;
           Scenario.session "b" "2025-12-01" "09:10" "10:10" 0.5%Q]
          "2025-12-01"))
  = Some [].
Proof.
  apply (surviving_primary_empties_backup_pool Scenario.algorithm Config.default
           [Scenario.session "a" "2025-12-01" "09:00" "10:00" 0.8%Q;
            Scenario.session "b" "2025-12-01" "09:10" "10:10" 0.5%Q]
           "2025-12-01"
           {| slot_id := "slot_1"; slot_start_time := "09:00";
              slot_end_time := "10:00"; slot_date := "2025-12-01";
              is_lunch_break := false; buffer_before := 30; buffer_after := 30 |}
           (with_slot (Scenario.session "a" "2025-12-01" "09:00" "10:00" 0.8%Q)
              {| slot_id := "slot_1"; slot_start_time := "09:00";
                 slot_end_time := "10:00"; slot_date := "2025-12-01";
                 is_lunch_break := false; buffer_before := 30;
                 buffer_after := 30 |})).
  - simpl. lia.
  - vm_compute. left. reflexivity.
  - vm_compute. left. reflexivity.
  - reflexivity.
  - intros ss se H1 H2. vm_compute in H1, H2.
    injection H1 as <-. injection H2 as <-. lia.
Defined.

(** ** Grouping by date, and the schedule of the conference *)

Lemma dict_set_keys_NoDup {V} (k : string) (v : V) (d : dict V) :
  NoDup (dict_keys d) -> NoDup (dict_keys (dict_set k v d)).
Proof.
  intros N. rewrite dict_keys_set.
  destruct (existsb (String.eqb k) (dict_keys d)) eqn:E; [exact N|].
  replace (dict_keys d ++ [k]) with (rev (k :: rev (dict_keys d)))
    by (simpl; now rewrite rev_involutive).
  apply NoDup_rev. constructor; [|now apply NoDup_rev].
  rewrite <- in_rev. intros H. apply existsb_eqb_In in H. congruence.
Qed.

Lemma fold_keys_NoDup {X V} (f : dict V -> X -> dict V) (l : list X) (d : dict V) :
  (forall d x, NoDup (dict_keys d) -> NoDup (dict_keys (f d x))) ->
  NoDup (dict_keys d) -> NoDup (dict_keys (fold_left f l d)).
Proof.
  intros Hf. revert d. induction l as [|x r IH]; intros d N; [exact N|].
  simpl. apply IH. now apply Hf.
Qed.

Lemma dict_set_keys_In {V} (k k' : string) (v : V) (d : dict V) :
  In k (dict_keys (dict_set k' v d)) <-> k = k' \/ In k (dict_keys d).
Proof.
  rewrite dict_keys_set.
  destruct (existsb (String.eqb k') (dict_keys d)) eqn:E.
  - apply existsb_eqb_In in E. split; [auto|]. intros [->|H]; assumption.
  - rewrite in_app_iff. simpl. split; [intros [H|[H|[]]]|intros [H|H]]; auto.
Qed.

Lemma dict_get_Some_key {V} (k : string) (d : dict V) :
  In k (dict_keys d) <-> exists v, dict_get k d = Some v.
Proof.
  destruct (dict_get k d) as [v|] eqn:E.
  - split; [eauto|]. intros _. apply dict_get_In in E.
    unfold dict_keys. apply in_map_iff. exists (k, v). auto.
  - apply dict_get_None in E. split; [contradiction|]. intros (v&H). discriminate.
Qed.

Lemma on_date_iff (d : string) (s : Session) :
  on_date d s = true <-> date s = Some d.
Proof.
  unfold on_date, opt_str_eqb. destruct (date s) as [x|].
  - rewrite String.eqb_eq. split; congruence.
  - split; discriminate.
Qed.

Section Grouping.
Variable self : SchedulingAlgorithm.t.
Variable conference_dates : list string.

Lemma empty_groups_get (d : string) (g : dict (list Session)) :
  dict_get d (fold_left (fun g date => dict_set date [] g) conference_dates g)
  = if existsb (String.eqb d) conference_dates then Some [] else dict_get d g.
Proof.
  revert g. induction conference_dates as [|x r IH]; intros g; [reflexivity|].
  simpl. rewrite IH. destruct (String.eqb d x) eqn:E; simpl.
  - apply String.eqb_eq in E. subst x.
    rewrite dict_get_set_eq. now destruct (existsb _ r).
  - apply String.eqb_neq in E. rewrite dict_get_set_neq by exact E. reflexivity.
Qed.

Lemma group_snoc (sessions : list Session) (s : Session) :
  SchedulingAlgorithm._group_sessions_by_date self (sessions ++ [s]) conference_dates
  = let by_date :=
      SchedulingAlgorithm._group_sessions_by_date self sessions conference_dates in
    if SchedulingAlgorithm.date_in (date s) conference_dates
    then dict_set (or_empty (date s))
           (match dict_get (or_empty (date s)) by_date with
            | Some l => l ++ [s]
            | None => [s]
            end) by_date
    else by_date.
Proof.
  unfold SchedulingAlgorithm._group_sessions_by_date.
  now rewrite fold_left_app.
Qed.

Lemma date_in_iff (o : option string) :
  SchedulingAlgorithm.date_in o conference_dates = true
  <-> exists d, o = Some d /\ In d conference_dates.
Proof.
  unfold SchedulingAlgorithm.date_in. destruct o as [x|].
  - rewrite existsb_eqb_In. split; [eauto|]. intros (d&E&H). congruence.
  - split; [discriminate|]. intros (d&E&_). discriminate.
Qed.

Lemma group_get (sessions : list Session) (d : string) :
  dict_get d
    (SchedulingAlgorithm._group_sessions_by_date self sessions conference_dates)
  = if existsb (String.eqb d) conference_dates
    then Some (filter (on_date d) sessions) else None.
Proof.
  induction sessions as [|s pre IH] using rev_ind.
  - unfold SchedulingAlgorithm._group_sessions_by_date. simpl fold_left at 1.
    rewrite empty_groups_get. reflexivity.
  - rewrite group_snoc. cbv zeta. rewrite filter_app. simpl filter.
    destruct (SchedulingAlgorithm.date_in (date s) conference_dates) eqn:Din.
    + apply date_in_iff in Din as (k&Ek&Hk). rewrite Ek. simpl or_empty.
      destruct (String.eqb d k) eqn:E.
      * apply String.eqb_eq in E. subst k.
        rewrite dict_get_set_eq, IH.
        apply existsb_eqb_In in Hk. rewrite Hk.
        assert (on_date d s = true) as -> by now apply on_date_iff.
        reflexivity.
      * apply String.eqb_neq in E. rewrite dict_get_set_neq, IH by exact E.
        assert (on_date d s = false) as ->.
        { apply not_true_iff_false. rewrite on_date_iff. congruence. }
        now rewrite app_nil_r.
    + rewrite IH. destruct (existsb (String.eqb d) conference_dates) eqn:Hd;
        [|reflexivity].
      assert (on_date d s = false) as ->.
      { apply not_true_iff_false. rewrite on_date_iff. intros E.
        apply not_true_iff_false in Din. apply Din, date_in_iff.
        exists d. split; [exact E|now apply existsb_eqb_In]. }
      now rewrite app_nil_r.
Qed.

Lemma group_keys_NoDup (sessions : list Session) :
  NoDup (dict_keys
           (SchedulingAlgorithm._group_sessions_by_date self sessions
              conference_dates)).
Proof.
  unfold SchedulingAlgorithm._group_sessions_by_date.
  apply fold_keys_NoDup.
  - intros g s N. destruct (SchedulingAlgorithm.date_in _ _); [|exact N].
    now apply dict_set_keys_NoDup.
  - apply fold_keys_NoDup; [|constructor].
    intros g x N. now apply dict_set_keys_NoDup.
Qed.
End Grouping.

(** X17.  [_group_sessions_by_date] has one key per conference date; under
    a conference date it holds exactly the sessions of that date, in their
    order in the input; sessions of another date, or without date, are in no
    group. *)
Theorem sessions_grouped_by_date
    (self : SchedulingAlgorithm.t) (sessions : list Session)
    (conference_dates : list string) :
  let groups :=
    SchedulingAlgorithm._group_sessions_by_date self sessions conference_dates in
  NoDup (dict_keys groups)
  /\ (forall d, In d (dict_keys groups) <-> In d conference_dates)
  /\ (forall d, In d conference_dates ->
        dict_get d groups = Some (filter (on_date d) sessions))
  /\ (forall d group s, In (d, group) groups -> In s group ->
        In s sessions /\ date s = Some d /\ In d conference_dates).
Proof.
  cbv zeta. split; [apply group_keys_NoDup|].
  assert (K : forall d,
             In d (dict_keys
                     (SchedulingAlgorithm._group_sessions_by_date self sessions
                        conference_dates))
             <-> In d conference_dates).
  { intros d. rewrite dict_get_Some_key, group_get, <- existsb_eqb_In.
    destruct (existsb (String.eqb d) conference_dates).
    - split; eauto.
    - split; [intros (v&H)|intros H]; discriminate. }
  split; [exact K|]. split.
  - intros d Hd. rewrite group_get. apply existsb_eqb_In in Hd. now rewrite Hd.
  - intros d group s Hg Hs.
    assert (Hd : In d conference_dates).
    { apply K. unfold dict_keys. apply in_map_iff. exists (d, group). auto. }
    assert (G : dict_get d
                  (SchedulingAlgorithm._group_sessions_by_date self sessions
                     conference_dates) = Some group).
    { pose proof (group_keys_NoDup self conference_dates sessions) as N.
      revert Hg N. generalize (SchedulingAlgorithm._group_sessions_by_date self
                                 sessions conference_dates).
      intros g. induction g as [|[k v] r IH]; simpl; [intros []|].
      intros [E|Hin] N.
      - injection E as -> ->. now rewrite String.eqb_refl.
      - inversion N as [|? ? Hk Hr]; subst.
        destruct (String.eqb d k) eqn:E.
        + apply String.eqb_eq in E. subst k. exfalso. apply Hk.
          apply in_map_iff. exists (d, group). auto.
        + now apply IH. }
    rewrite group_get in G. apply existsb_eqb_In in Hd. rewrite Hd in G.
    injection G as <-. apply filter_In in Hs as (Hs&Hon).
    apply on_date_iff in Hon. apply existsb_eqb_In in Hd. auto.
Qed.

Lemma fold_left_ext_In {A B} (f g : A -> B -> A) (l : list B) (a : A) :
  (forall a x, In x l -> f a x = g a x) -> fold_left f l a = fold_left g l a.
Proof.
  revert a. induction l as [|x r IH]; intros a H; [reflexivity|].
  simpl. rewrite H by now left. apply IH. intros a' y Hy. apply H. now right.
Qed.

Lemma dict_fill_snoc {X V} (key : X -> string) (val : X -> V) (l : list X)
    (x : X) (d : dict V) :
  dict_fill key val (l ++ [x]) d = dict_set (key x) (val x) (dict_fill key val l d).
Proof. unfold dict_fill. now rewrite fold_left_app. Qed.

(** When equal keys carry equal values, any element gives the value found
    under its key. *)
Lemma dict_fill_get_any {X V} (key : X -> string) (val : X -> V) (l : list X)
    (d : dict V) (x : X) :
  (forall y, In y l -> key x = key y -> val x = val y) ->
  In x l -> dict_get (key x) (dict_fill key val l d) = Some (val x).
Proof.
  induction l as [|y pre IH] using rev_ind; intros Hv Hx; [destruct Hx|].
  rewrite dict_fill_snoc.
  destruct (String.eqb (key x) (key y)) eqn:E.
  - apply String.eqb_eq in E. rewrite E, dict_get_set_eq.
    f_equal. symmetry. apply Hv; [apply in_or_app; right; now left|exact E].
  - apply String.eqb_neq in E. rewrite dict_get_set_neq by exact E.
    apply IH.
    + intros z Hz. apply Hv. apply in_or_app. now left.
    + apply in_app_or in Hx as [Hx|[->|[]]]; [exact Hx|congruence].
Qed.

Lemma dict_fill_keys_In {X V} (key : X -> string) (val : X -> V) (l : list X)
    (d : dict V) (k : string) :
  In k (dict_keys (dict_fill key val l d))
  <-> In k (dict_keys d) \/ In k (map key l).
Proof.
  induction l as [|y pre IH] using rev_ind; [simpl; tauto|].
  rewrite dict_fill_snoc, dict_set_keys_In, IH, map_app, in_app_iff. simpl.
  split; [intros [->|[H|H]]|intros [H|[H|[<-|[]]]]]; auto.
Qed.

Lemma dict_fill_keys_NoDup {X V} (key : X -> string) (val : X -> V) (l : list X)
    (d : dict V) :
  NoDup (dict_keys d) -> NoDup (dict_keys (dict_fill key val l d)).
Proof.
  intros N. unfold dict_fill. apply fold_keys_NoDup; [|exact N].
  intros g x Ng. now apply dict_set_keys_NoDup.
Qed.

Section Conference.
Variable self : SchedulingAlgorithm.t.
Variable cfg : Config.t.
Variable sessions : list Session.
Variable conference_dates : list string.

Lemma create_schedule_days :
  SchedulingAlgorithm.create_schedule self cfg sessions conference_dates
  = dict_set "summary"
      (SummaryEntry
         (SchedulingAlgorithm._generate_schedule_summary self
            (days_schedule self cfg sessions conference_dates)))
      (days_schedule self cfg sessions conference_dates).
Proof.
  unfold SchedulingAlgorithm.create_schedule. cbv zeta.
  assert (E : fold_left
                (fun schedule date =>
                   match
                     match
                       dict_get date
                         (SchedulingAlgorithm._group_sessions_by_date self sessions
                            conference_dates)
                     with
                     | Some l => l
                     | None => []
                     end
                   with
                   | [] => dict_set date (Day (SchedulingAlgorithm.empty_day cfg)) schedule
                   | _ :: _ =>
                       dict_set date
                         (Day
                            (SchedulingAlgorithm._create_daily_schedule self cfg
                               match
                                 dict_get date
                                   (SchedulingAlgorithm._group_sessions_by_date self
                                      sessions conference_dates)
                               with
                               | Some l => l
                               | None => []
                               end date)) schedule
                   end) conference_dates []
              = days_schedule self cfg sessions conference_dates).
  { unfold days_schedule, dict_fill. apply fold_left_ext_In.
    intros schedule date Hd. rewrite group_get.
    apply existsb_eqb_In in Hd. rewrite Hd. unfold day_of.
    now destruct (filter (on_date date) sessions). }
  now rewrite E.
Qed.

Lemma days_schedule_get (date : string) :
  In date conference_dates ->
  dict_get date (days_schedule self cfg sessions conference_dates)
  = Some (Day (day_of self cfg sessions date)).
Proof.
  intros H. unfold days_schedule.
  apply (dict_fill_get_any (fun date => date)
           (fun date => Day (day_of self cfg sessions date))); [|exact H].
  now intros y _ <-.
Qed.
End Conference.

(** X18.  The schedule of the conference has one entry per conference
    date and the entry 'summary'.  Under a date other than 'summary' it
    holds the daily schedule of exactly the sessions of that date, or the
    empty day when no session has that date; the summary is computed from
    these days. *)
Theorem create_schedule_entries
    (self : SchedulingAlgorithm.t) (cfg : Config.t) (sessions : list Session)
    (conference_dates : list string) :
  let schedule :=
    SchedulingAlgorithm.create_schedule self cfg sessions conference_dates in
  NoDup (dict_keys schedule)
  /\ (forall k, In k (dict_keys schedule)
                <-> In k conference_dates \/ k = "summary")
  /\ (forall date, In date conference_dates -> date <> "summary" ->
        dict_get date schedule = Some (Day (day_of self cfg sessions date)))
  /\ summary_of schedule
     = Some (SchedulingAlgorithm._generate_schedule_summary self
               (days_schedule self cfg sessions conference_dates)).
Proof.
  cbv zeta. rewrite create_schedule_days. split; [|split; [|split]].
  - apply dict_set_keys_NoDup, dict_fill_keys_NoDup. constructor.
  - intros k. rewrite dict_set_keys_In. unfold days_schedule.
    rewrite dict_fill_keys_In, map_id. simpl. tauto.
  - intros date Hd Hn. rewrite dict_get_set_neq by exact Hn.
    now apply days_schedule_get.
  - unfold summary_of. now rewrite dict_get_set_eq.
Qed.

Lemma create_schedule_entries_witness :
  dict_get "2025-12-02"
    (SchedulingAlgorithm.create_schedule Scenario.algorithm Config.default
       Scenario.two_days ["2025-12-01"; "2025-12-02"; "2025-12-03"])
  = Some (Day (day_of Scenario.algorithm Config.default Scenario.two_days
                 "2025-12-02")).
Proof.
  apply (create_schedule_entries Scenario.algorithm Config.default
           Scenario.two_days ["2025-12-01"; "2025-12-02"; "2025-12-03"]).
  - simpl. auto.
  - discriminate.
Defined.

(** ** The statistics of a day *)

Lemma occurrences_cons (v x : string) (l : list string) :
  occurrences v (x :: l)
  = (if String.eqb v x then 1 else 0) + occurrences v l.
Proof.
  unfold occurrences. simpl. destruct (string_dec x v) as [->|N].
  - rewrite String.eqb_refl. lia.
  - assert (String.eqb v x = false) as -> by (apply String.eqb_neq; congruence).
    lia.
Qed.

Lemma occurrences_app (v : string) (l1 l2 : list string) :
  occurrences v (l1 ++ l2) = occurrences v l1 + occurrences v l2.
Proof. unfold occurrences. rewrite count_occ_app. lia. Qed.

Lemma occurrences_nonneg (v : string) (l : list string) : 0 <= occurrences v l.
Proof. unfold occurrences. lia. Qed.

Lemma dict_add_get (k x : string) (n : Z) (d : dict Z) :
  dict_get k (dict_add x n d)
  = if String.eqb k x then Some (get_count k d + n) else dict_get k d.
Proof.
  unfold dict_add, get_count. destruct (String.eqb k x) eqn:E.
  - apply String.eqb_eq in E. subst x. rewrite dict_get_set_eq.
    now destruct (dict_get k d).
  - apply String.eqb_neq in E. now apply dict_get_set_neq.
Qed.

Lemma dict_add_keys_NoDup (x : string) (n : Z) (d : dict Z) :
  NoDup (dict_keys d) -> NoDup (dict_keys (dict_add x n d)).
Proof. apply dict_set_keys_NoDup. Qed.

(** Counting into a dict that already counts [l0]. *)
Lemma counting_fold (l l0 : list string) (d : dict Z) :
  counts l0 d ->
  counts (l0 ++ l) (fold_left (fun c x => dict_add x 1 c) l d).
Proof.
  revert l0 d. induction l as [|x r IH]; intros l0 d H.
  - now rewrite app_nil_r.
  - simpl fold_left.
    replace (l0 ++ x :: r) with ((l0 ++ [x]) ++ r) by now rewrite <- app_assoc.
    apply IH. destruct H as (N&G). split; [now apply dict_add_keys_NoDup|].
    intros v. rewrite dict_add_get, occurrences_app, occurrences_cons.
    unfold get_count. rewrite G.
    change (occurrences v []) with 0.
    pose proof (occurrences_nonneg v l0) as P.
    destruct (String.eqb v x).
    + destruct (occurrences v l0 =? 0) eqn:E0.
      * apply Z.eqb_eq in E0. rewrite E0. reflexivity.
      * apply Z.eqb_neq in E0.
        assert ((occurrences v l0 + (1 + 0) =? 0) = false) as ->
          by (apply Z.eqb_neq; lia).
        reflexivity.
    + now rewrite !Z.add_0_r.
Qed.

Lemma counts_nil : counts [] [].
Proof. split; [constructor|reflexivity]. Qed.

Lemma counts_keys (l : list string) (d : dict Z) :
  counts l d -> forall x, In x (dict_keys d) <-> In x l.
Proof.
  intros (_&G) x. rewrite dict_get_Some_key, G.
  unfold occurrences. rewrite (count_occ_In string_dec).
  destruct (Z.of_nat (count_occ string_dec l x) =? 0) eqn:E.
  - apply Z.eqb_eq in E. split; [intros (v&H); discriminate|lia].
  - apply Z.eqb_neq in E. split; [lia|eauto].
Qed.

Lemma fold_left_flat_map {A B C} (f : A -> C -> A) (g : B -> list C)
    (l : list B) (a : A) :
  fold_left (fun acc x => fold_left f (g x) acc) l a
  = fold_left f (flat_map g l) a.
Proof.
  revert a. induction l as [|x r IH]; intros a; [reflexivity|].
  simpl. now rewrite fold_left_app, IH.
Qed.

Lemma daily_statistics_facts (self : SchedulingAlgorithm.t)
    (all_sessions primary_sessions : list Session)
    (backup_sessions : dict (list Session)) :
  let st :=
    SchedulingAlgorithm._calculate_daily_statistics self all_sessions
      primary_sessions backup_sessions in
  stat_total_sessions st = Z.of_nat (List.length all_sessions)
  /\ stat_scheduled_sessions st = Z.of_nat (List.length primary_sessions)
  /\ stat_backup_sessions st = Z.of_nat (List.length (all_backups backup_sessions))
  /\ counts (map venue_or_unknown primary_sessions) (stat_venue_distribution st)
  /\ counts (flat_map keywords_matched primary_sessions)
       (stat_keyword_coverage st).
Proof.
  cbv zeta. unfold SchedulingAlgorithm._calculate_daily_statistics.
  cbn [stat_total_sessions stat_scheduled_sessions stat_backup_sessions
       stat_venue_distribution stat_keyword_coverage].
  split; [reflexivity|]. split; [reflexivity|]. split; [|split].
  - rewrite Zsum_acc, Zsum_lengths. reflexivity.
  - apply (counting_fold _ [] []), counts_nil.
  - unfold SchedulingAlgorithm._calculate_keyword_coverage.
    rewrite (fold_left_flat_map (fun kc keyword => dict_add keyword 1 kc)
               keywords_matched).
    apply (counting_fold _ [] []), counts_nil.
Qed.

(** X19.  The statistics of a day count what they name: the sessions of
    the day, the primary sessions, and the backups of all pools; the venue
    distribution has each venue of a primary session once as key ('Unknown'
    for a session without venue), with the number of primaries at that
    venue; the keyword coverage has each matched keyword of a primary once
    as key, with its number of occurrences over the primaries. *)
Theorem daily_statistics_count
    (self : SchedulingAlgorithm.t) (all_sessions primary_sessions : list Session)
    (backup_sessions : dict (list Session)) :
  let st :=
    SchedulingAlgorithm._calculate_daily_statistics self all_sessions
      primary_sessions backup_sessions in
  stat_total_sessions st = Z.of_nat (List.length all_sessions)
  /\ stat_scheduled_sessions st = Z.of_nat (List.length primary_sessions)
  /\ stat_backup_sessions st = Z.of_nat (List.length (all_backups backup_sessions))
  /\ counts (map venue_or_unknown primary_sessions) (stat_venue_distribution st)
  /\ counts (flat_map keywords_matched primary_sessions)
       (stat_keyword_coverage st)
  /\ (forall v, In v (dict_keys (stat_venue_distribution st))
                <-> exists p, In p primary_sessions /\ venue_or_unknown p = v)
  /\ (forall k, In k (dict_keys (stat_keyword_coverage st))
                <-> exists p, In p primary_sessions /\ In k (keywords_matched p)).
Proof.
  cbv zeta.
  destruct (daily_statistics_facts self all_sessions primary_sessions
              backup_sessions) as (H1&H2&H3&H4&H5).
  split; [exact H1|]. split; [exact H2|]. split; [exact H3|].
  split; [exact H4|]. split; [exact H5|]. split.
  - intros v. rewrite (counts_keys _ _ H4), in_map_iff.
    split; intros (p&A&B); exists p; auto.
  - intros k. rewrite (counts_keys _ _ H5), in_flat_map. reflexivity.
Qed.

(** ** The summary of the conference *)

Lemma dict_In_get {V} (k : string) (v : V) (d : dict V) :
  NoDup (dict_keys d) -> In (k, v) d -> dict_get k d = Some v.
Proof.
  unfold dict_keys. induction d as [|[k0 v0] r IH]; simpl; intros N H; [destruct H|].
  inversion N as [|? ? Hk Hr]; subst. destruct H as [E|H].
  - injection E as -> ->. now rewrite String.eqb_refl.
  - destruct (String.eqb k k0) eqn:E; [|now apply IH].
    apply String.eqb_eq in E. subst k0. exfalso. apply Hk.
    apply in_map_iff. exists (k, v). auto.
Qed.

Lemma dict_set_new {V} (k : string) (v : V) (d : dict V) :
  ~ In k (dict_keys d) -> dict_set k v d = d ++ [(k, v)].
Proof.
  unfold dict_keys. induction d as [|[k0 v0] r IH]; simpl; intros H; [reflexivity|].
  destruct (String.eqb k k0) eqn:E.
  - apply String.eqb_eq in E. subst. exfalso. auto.
  - rewrite IH; [reflexivity|]. intros Hin. auto.
Qed.

Lemma dict_fill_fresh {X V} (key : X -> string) (val : X -> V) (l : list X)
    (d : dict V) :
  NoDup (dict_keys d ++ map key l) ->
  dict_fill key val l d = d ++ map (fun x => (key x, val x)) l.
Proof.
  revert d. induction l as [|x r IH]; simpl; intros d N.
  - now rewrite app_nil_r.
  - unfold dict_fill in *. simpl.
    assert (~ In (key x) (dict_keys d)) as Hx.
    { intros H. apply NoDup_remove_2 in N. apply N, in_or_app. now left. }
    rewrite dict_set_new by exact Hx. rewrite IH.
    + now rewrite <- app_assoc.
    + unfold dict_keys. rewrite map_app. simpl. rewrite <- app_assoc. exact N.
Qed.

Lemma fold_add_length {A B} (f : A -> Z) (g : A -> list B) (l : list A) (acc : Z) :
  (forall x, In x l -> f x = Z.of_nat (List.length (g x))) ->
  fold_left (fun n x => n + f x) l acc
  = acc + Z.of_nat (List.length (flat_map g l)).
Proof.
  revert acc. induction l as [|x r IH]; intros acc H; simpl; [lia|].
  rewrite IH by (intros y Hy; apply H; now right).
  rewrite (H x) by now left. rewrite length_app. lia.
Qed.

Lemma occurrences_repeat (x k : string) (n : nat) :
  occurrences x (repeat k n) = if String.eqb x k then Z.of_nat n else 0.
Proof.
  induction n as [|n IH]; simpl repeat.
  - now destruct (String.eqb x k).
  - rewrite occurrences_cons, IH. destruct (String.eqb x k); lia.
Qed.

Lemma get_count_absent (x : string) (d : dict Z) :
  ~ In x (dict_keys d) -> get_count x d = 0.
Proof.
  intros H. apply dict_get_None in H. unfold get_count. now rewrite H.
Qed.

Lemma spread_get (x : string) (d : dict Z) :
  NoDup (dict_keys d) -> (forall k n, In (k, n) d -> 0 <= n) ->
  occurrences x (spread d) = get_count x d.
Proof.
  unfold dict_keys. induction d as [|[k n] r IH]; intros N P; [reflexivity|].
  simpl in N. inversion N as [|? ? Hk Hr]; subst.
  unfold spread. simpl flat_map. fold (spread r).
  rewrite occurrences_app, occurrences_repeat, IH;
    [|exact Hr|intros k' n' H; apply (P k' n'); now right].
  unfold get_count at 2. simpl dict_get.
  destruct (String.eqb x k) eqn:E.
  - apply String.eqb_eq in E. subst k. rewrite (get_count_absent x r) by exact Hk.
    specialize (P x n (or_introl eq_refl)). lia.
  - reflexivity.
Qed.

Lemma counts_get_count (l : list string) (d : dict Z) (x : string) :
  counts l d -> get_count x d = occurrences x l.
Proof.
  intros (_&G). unfold get_count. rewrite G.
  destruct (occurrences x l =? 0) eqn:E; [|reflexivity].
  apply Z.eqb_eq in E. now rewrite E.
Qed.

Lemma spread_occurrences (l : list string) (d : dict Z) (x : string) :
  counts l d -> occurrences x (spread d) = occurrences x l.
Proof.
  intros H. rewrite <- (counts_get_count l d x H). destruct H as (N&G).
  apply spread_get; [exact N|].
  intros k n Hin. apply (dict_In_get _ _ _ N) in Hin. rewrite G in Hin.
  destruct (occurrences k l =? 0); [discriminate|].
  injection Hin as <-. apply occurrences_nonneg.
Qed.

Lemma counts_ext (l l' : list string) (d : dict Z) :
  (forall x, occurrences x l = occurrences x l') -> counts l d -> counts l' d.
Proof.
  intros E (N&G). split; [exact N|]. intros x. now rewrite G, E.
Qed.

(** Adding the counts of one dict to another. *)
Lemma merge_get (k : string) (d a : dict Z) :
  NoDup (dict_keys d) ->
  dict_get k (fold_left (fun a kc => dict_add (fst kc) (snd kc) a) d a)
  = match dict_get k d with
    | None => dict_get k a
    | Some n => Some (get_count k a + n)
    end.
Proof.
  unfold dict_keys. revert a. induction d as [|[k0 n0] r IH]; intros a N;
    [reflexivity|].
  simpl in N. inversion N as [|? ? Hk Hr]; subst.
  simpl fold_left. rewrite IH by exact Hr. simpl dict_get.
  destruct (String.eqb k k0) eqn:E.
  - apply String.eqb_eq in E. subst k0.
    apply dict_get_None in Hk. rewrite Hk.
    rewrite dict_add_get, String.eqb_refl. reflexivity.
  - unfold get_count. rewrite dict_add_get, E. reflexivity.
Qed.

Lemma merge_counts (l1 l2 : list string) (a d : dict Z) :
  counts l1 a -> counts l2 d ->
  counts (l1 ++ l2) (fold_left (fun a kc => dict_add (fst kc) (snd kc) a) d a).
Proof.
  intros Ha Hd. split.
  - apply fold_keys_NoDup; [|apply Ha].
    intros g x N. now apply dict_add_keys_NoDup.
  - intros x. rewrite merge_get by apply Hd.
    rewrite (counts_get_count l1 a x Ha), occurrences_app.
    destruct Ha as (_&Ga), Hd as (_&Gd). rewrite Gd, Ga.
    pose proof (occurrences_nonneg x l1). pose proof (occurrences_nonneg x l2).
    destruct (occurrences x l2 =? 0) eqn:E2.
    + apply Z.eqb_eq in E2. rewrite E2, Z.add_0_r. reflexivity.
    + apply Z.eqb_neq in E2.
      assert ((occurrences x l1 + occurrences x l2 =? 0) = false) as ->
        by (apply Z.eqb_neq; lia).
      reflexivity.
Qed.

Lemma merge_days (kw : DailySchedule -> list string) (cov : DailySchedule -> dict Z)
    (days : list DailySchedule) (l0 : list string) (a : dict Z) :
  counts l0 a ->
  (forall d, In d days -> counts (kw d) (cov d)) ->
  counts (l0 ++ flat_map kw days)
    (fold_left
       (fun acc d => fold_left (fun a kc => dict_add (fst kc) (snd kc) a) (cov d) acc)
       days a).
Proof.
  revert l0 a. induction days as [|d r IH]; intros l0 a Ha H.
  - simpl. now rewrite app_nil_r.
  - simpl. rewrite app_assoc. apply IH.
    + apply merge_counts; [exact Ha|apply H; now left].
    + intros d' Hd'. apply H. now right.
Qed.

Lemma occurrences_flat_map {A} (f g : A -> list string) (l : list A) (x : string) :
  (forall a, In a l -> occurrences x (f a) = occurrences x (g a)) ->
  occurrences x (flat_map f l) = occurrences x (flat_map g l).
Proof.
  induction l as [|a r IH]; intros H; [reflexivity|].
  simpl. rewrite !occurrences_app, (H a) by now left.
  rewrite IH; [reflexivity|]. intros b Hb. apply H. now right.
Qed.

Lemma flat_map_map_comm {A B C} (f : B -> C) (g : A -> list B) (l : list A) :
  map f (flat_map g l) = flat_map (fun a => map f (g a)) l.
Proof.
  induction l as [|a r IH]; [reflexivity|]. simpl. now rewrite map_app, IH.
Qed.

Lemma flat_map_flat_map {A B C} (f : B -> list C) (g : A -> list B) (l : list A) :
  flat_map f (flat_map g l) = flat_map (fun a => flat_map f (g a)) l.
Proof.
  induction l as [|a r IH]; [reflexivity|]. simpl. now rewrite flat_map_app, IH.
Qed.

(** The summary of days whose statistics agree with their sessions. *)
Lemma summary_of_agreeing_days (self : SchedulingAlgorithm.t)
    (schedule : dict ScheduleEntry) :
  Forall statistics_agree (SchedulingAlgorithm.days_of schedule) ->
  let s := SchedulingAlgorithm._generate_schedule_summary self schedule in
  let primaries := flat_map primary_sessions (SchedulingAlgorithm.days_of schedule) in
  total_scheduled_sessions s = Z.of_nat (List.length primaries)
  /\ total_backup_sessions s
     = Z.of_nat (List.length
                   (flat_map (fun d => all_backups (backup_sessions d))
                      (SchedulingAlgorithm.days_of schedule)))
  /\ counts (map venue_or_unknown primaries) (overall_venue_distribution s)
  /\ counts (flat_map keywords_matched primaries) (overall_keyword_coverage s).
Proof.
  intros F. cbv zeta. unfold SchedulingAlgorithm._generate_schedule_summary.
  cbn [total_scheduled_sessions total_backup_sessions overall_venue_distribution
       overall_keyword_coverage].
  rewrite Forall_forall in F.
  split; [|split; [|split]].
  - rewrite (fold_add_length _ primary_sessions); [reflexivity|].
    intros d Hd. apply (F d Hd).
  - rewrite (fold_add_length _ (fun d => all_backups (backup_sessions d)));
      [reflexivity|].
    intros d Hd. apply (F d Hd).
  - eapply counts_ext; [|apply (counting_fold _ [] []), counts_nil].
    intros x. simpl app. rewrite flat_map_map_comm.
    apply (occurrences_flat_map
             (fun d => spread (stat_venue_distribution (statistics d)))).
    intros d Hd. apply spread_occurrences, (F d Hd).
  - rewrite flat_map_flat_map.
    apply (merge_days (fun d => flat_map keywords_matched (primary_sessions d))
             (fun d => stat_keyword_coverage (statistics d)) _ [] []);
      [apply counts_nil|].
    intros d Hd. apply (F d Hd).
Qed.

Lemma flat_map_of_map {A B C} (f : B -> list C) (g : A -> B) (l : list A) :
  flat_map f (map g l) = flat_map (fun x => f (g x)) l.
Proof.
  induction l as [|a r IH]; [reflexivity|]. simpl. now rewrite IH.
Qed.

Section ConferenceSummary.
Variable self : SchedulingAlgorithm.t.
Variable cfg : Config.t.
Variable sessions : list Session.

Lemma day_of_agrees (date : string) :
  statistics_agree (day_of self cfg sessions date).
Proof.
  unfold day_of. destruct (filter (on_date date) sessions) as [|x r] eqn:E.
  - repeat split; try constructor.
  - rewrite <- E.
    destruct (daily_statistics_facts self (filter (on_date date) sessions)
                (primary_sessions
                   (SchedulingAlgorithm._create_daily_schedule self cfg
                      (filter (on_date date) sessions) date))
                (backup_sessions
                   (SchedulingAlgorithm._create_daily_schedule self cfg
                      (filter (on_date date) sessions) date)))
      as (_&H2&H3&H4&H5).
    split; [exact H2|]. split; [exact H3|]. split; [exact H4|exact H5].
Qed.

Lemma day_of_length (date : string) :
  (List.length (primary_sessions (day_of self cfg sessions date))
   <= List.length (filter (on_date date) sessions))%nat.
Proof.
  unfold day_of. destruct (filter (on_date date) sessions) as [|x r] eqn:E.
  - simpl. lia.
  - rewrite <- E. apply day_primary_le_sessions.
Qed.

Lemma day_of_le_max (date : string) :
  0 <= SchedulingAlgorithm.max_sessions_per_day self ->
  Z.of_nat (List.length (primary_sessions (day_of self cfg sessions date)))
  <= SchedulingAlgorithm.max_sessions_per_day self.
Proof.
  intros H. unfold day_of. destruct (filter (on_date date) sessions) as [|x r] eqn:E.
  - simpl. lia.
  - rewrite <- E. now apply day_primary_le_max.
Qed.

Lemma days_schedule_days (conference_dates : list string) :
  NoDup conference_dates -> ~ In "summary" conference_dates ->
  days_schedule self cfg sessions conference_dates
  = map (fun date => (date, Day (day_of self cfg sessions date))) conference_dates
  /\ SchedulingAlgorithm.days_of (days_schedule self cfg sessions conference_dates)
     = map (day_of self cfg sessions) conference_dates.
Proof.
  intros N S.
  assert (E : days_schedule self cfg sessions conference_dates
              = map (fun date => (date, Day (day_of self cfg sessions date)))
                  conference_dates).
  { unfold days_schedule. rewrite dict_fill_fresh; [reflexivity|].
    simpl. now rewrite map_id. }
  split; [exact E|]. rewrite E. clear E N.
  unfold SchedulingAlgorithm.days_of.
  induction conference_dates as [|d r IH]; [reflexivity|].
  simpl. assert (String.eqb d "summary" = false) as ->.
  { apply String.eqb_neq. intros ->. apply S. now left. }
  simpl. f_equal. apply IH. intros H. apply S. now right.
Qed.

Lemma NoDup_all_equal_length {A} (l : list A) :
  NoDup l -> (forall x y, In x l -> In y l -> x = y) -> (List.length l <= 1)%nat.
Proof.
  intros N H. destruct l as [|a [|b r]]; simpl; try lia.
  exfalso. inversion N as [|? ? Ha _]; subst. apply Ha.
  rewrite (H a b); simpl; auto.
Qed.

Lemma flat_map_filter_cons {A B} (p : A -> B -> bool) (x : B) (r : list B)
    (l : list A) :
  List.length (flat_map (fun a => filter (p a) (x :: r)) l)
  = (List.length (filter (fun a => p a x) l)
     + List.length (flat_map (fun a => filter (p a) r) l))%nat.
Proof.
  induction l as [|a t IH]; [reflexivity|].
  cbn [flat_map]. rewrite !length_app, IH. cbn [filter].
  destruct (p a x); cbn [List.length]; lia.
Qed.

Lemma sessions_per_date_length (conference_dates : list string) :
  NoDup conference_dates ->
  (List.length
     (flat_map (fun date => filter (on_date date) sessions) conference_dates)
   <= List.length sessions)%nat.
Proof.
  intros N. induction sessions as [|s r IH].
  - induction conference_dates as [|d t IHd]; [simpl; lia|].
    simpl. apply IHd. now inversion N.
  - rewrite flat_map_filter_cons.
    assert (List.length (filter (fun date => on_date date s) conference_dates) <= 1)%nat.
    { apply NoDup_all_equal_length; [now apply NoDup_filter|].
      intros x y Hx Hy. apply filter_In in Hx as (_&Hx), Hy as (_&Hy).
      apply on_date_iff in Hx, Hy. congruence. }
    simpl List.length. lia.
Qed.

Lemma conference_primaries_length (conference_dates : list string) :
  NoDup conference_dates ->
  (List.length (conference_primaries self cfg sessions conference_dates)
   <= List.length sessions)%nat.
Proof.
  intros N.
  eapply Nat.le_trans; [|exact (sessions_per_date_length conference_dates N)].
  unfold conference_primaries. clear N.
  induction conference_dates as [|d r IH]; [simpl; lia|].
  simpl. rewrite !length_app. pose proof (day_of_length d). lia.
Qed.

Lemma conference_primaries_le_max (conference_dates : list string) :
  0 <= SchedulingAlgorithm.max_sessions_per_day self ->
  Z.of_nat (List.length (conference_primaries self cfg sessions conference_dates))
  <= Z.of_nat (List.length conference_dates)
     * SchedulingAlgorithm.max_sessions_per_day self.
Proof.
  intros H. unfold conference_primaries.
  induction conference_dates as [|d r IH]; [simpl; lia|].
  simpl flat_map. rewrite length_app. pose proof (day_of_le_max d H).
  simpl List.length. lia.
Qed.
End ConferenceSummary.

(** X20.  For pairwise distinct conference dates, none of them 'summary',
    the summary counts one conference day per date; its totals are the
    numbers of primary sessions and of backups over all days; the overall
    venue distribution and keyword coverage count the venues and the
    matched keywords of the primary sessions of all days.  The primaries of
    all days are no more than the sessions given, and no more than
    max_sessions_per_day per date when that limit is not negative. *)
Theorem summary_totals_count_all_days
    (self : SchedulingAlgorithm.t) (cfg : Config.t) (sessions : list Session)
    (conference_dates : list string) :
  NoDup conference_dates -> ~ In "summary" conference_dates ->
  let primaries := conference_primaries self cfg sessions conference_dates in
  exists s,
    summary_of
      (SchedulingAlgorithm.create_schedule self cfg sessions conference_dates)
    = Some s
    /\ total_conference_days s = Z.of_nat (List.length conference_dates)
    /\ total_scheduled_sessions s = Z.of_nat (List.length primaries)
    /\ total_backup_sessions s
       = Z.of_nat (List.length
                     (conference_backups self cfg sessions conference_dates))
    /\ counts (map venue_or_unknown primaries) (overall_venue_distribution s)
    /\ counts (flat_map keywords_matched primaries) (overall_keyword_coverage s)
    /\ total_scheduled_sessions s <= Z.of_nat (List.length sessions)
    /\ (0 <= SchedulingAlgorithm.max_sessions_per_day self ->
        total_scheduled_sessions s
        <= Z.of_nat (List.length conference_dates)
           * SchedulingAlgorithm.max_sessions_per_day self).
Proof.
  intros N S. cbv zeta. rewrite create_schedule_days.
  eexists. split; [unfold summary_of; rewrite dict_get_set_eq; reflexivity|].
  destruct (days_schedule_days self cfg sessions conference_dates N S) as (E&D).
  destruct (summary_of_agreeing_days self
              (days_schedule self cfg sessions conference_dates))
    as (H1&H2&H3&H4).
  { rewrite D. apply Forall_forall. intros d Hd.
    apply in_map_iff in Hd as (date&<-&_). apply day_of_agrees. }
  rewrite D, !flat_map_of_map in H1, H2, H3, H4.
  fold (conference_primaries self cfg sessions conference_dates) in H1, H3, H4.
  fold (conference_backups self cfg sessions conference_dates) in H2.
  split; [|split; [exact H1|split; [exact H2|split; [exact H3|split; [exact H4|]]]]].
  - unfold SchedulingAlgorithm._generate_schedule_summary.
    cbn [total_conference_days]. rewrite E. unfold dict_keys.
    rewrite map_map. simpl. rewrite map_id. do 2 f_equal.
    clear -S. induction conference_dates as [|d r IH]; [reflexivity|].
    simpl. assert (String.eqb d "summary" = false) as ->.
    { apply String.eqb_neq. intros ->. apply S. now left. }
    simpl. f_equal. apply IH. intros H. apply S. now right.
  - rewrite H1. split.
    + pose proof (conference_primaries_length self cfg sessions conference_dates N).
      lia.
    + apply conference_primaries_le_max.
Qed.

Lemma summary_totals_count_all_days_witness :
  exists s,
    summary_of
      (SchedulingAlgorithm.create_schedule Scenario.algorithm Config.default
         Scenario.two_days ["2025-12-01"; "2025-12-02"; "2025-12-03"])
    = Some s
    /\ total_scheduled_sessions s = 2.
Proof.
  destruct (summary_totals_count_all_days Scenario.algorithm Config.default
              Scenario.two_days ["2025-12-01"; "2025-12-02"; "2025-12-03"])
    as (s&H&_&T&_).
  - repeat constructor; simpl; intuition discriminate.
  - simpl. intuition discriminate.
  - exists s. split; [exact H|]. rewrite T. reflexivity.
Defined.

(** ** Every slot is filled *)

Lemma filter_length_mono {A} (f g : A -> bool) (l : list A) :
  (forall x, In x l -> f x = true -> g x = true) ->
  (List.length (filter f l) <= List.length (filter g l))%nat.
Proof.
  induction l as [|x r IH]; intros H; [reflexivity|].
  assert (Hr : forall y, In y r -> f y = true -> g y = true)
    by (intros y Hy; apply H; now right).
  specialize (IH Hr). specialize (H x (or_introl eq_refl)). simpl.
  destruct (f x) eqn:F; [rewrite (H eq_refl); simpl; lia|].
  destruct (g x); simpl; lia.
Qed.

Lemma subseq_filter_length {A} (p : A -> bool) (l1 l2 : list A) :
  subseq l1 l2 ->
  (List.length (filter p l1) <= List.length (filter p l2))%nat.
Proof.
  induction 1 as [|x l1 l2 H IH|x l1 l2 H IH]; simpl; [lia| |].
  - destruct (p x); simpl; lia.
  - destruct (p x); simpl; lia.
Qed.

Lemma Permutation_filter_length {A} (p : A -> bool) (l1 l2 : list A) :
  Permutation l1 l2 -> List.length (filter p l1) = List.length (filter p l2).
Proof.
  induction 1 as [|x l1 l2 H IH|x y l|l1 l2 l3 H1 IH1 H2 IH2]; simpl.
  - reflexivity.
  - destruct (p x); simpl; lia.
  - destruct (p x), (p y); reflexivity.
  - lia.
Qed.

Lemma filter_map_length {A B} (p : B -> bool) (f : A -> B) (l : list A) :
  List.length (filter p (map f l)) = List.length (filter (fun x => p (f x)) l).
Proof.
  induction l as [|x r IH]; [reflexivity|]. simpl.
  destruct (p (f x)); simpl; lia.
Qed.

Lemma filter_filter_length {A} (p q : A -> bool) (l : list A) :
  List.length (filter p (filter q l))
  = List.length (filter (fun x => q x && p x) l).
Proof.
  induction l as [|x r IH]; [reflexivity|]. simpl.
  destruct (q x); simpl; [destruct (p x); simpl; lia|exact IH].
Qed.

Lemma Forall2_filter_length {A B} (R : A -> B -> Prop) (f : A -> bool)
    (g : B -> bool) (l1 : list A) (l2 : list B) :
  (forall a b, R a b -> f a = g b) -> Forall2 R l1 l2 ->
  List.length (filter f l1) = List.length (filter g l2).
Proof.
  intros H. induction 1 as [|a b l1 l2 Hab F IH]; [reflexivity|].
  simpl. rewrite (H a b Hab). destruct (g b); simpl; lia.
Qed.

Lemma Forall2_In_left {A B} (R : A -> B -> Prop) (l1 : list A) (l2 : list B)
    (a : A) :
  Forall2 R l1 l2 -> In a l1 -> exists b, In b l2 /\ R a b.
Proof.
  induction 1 as [|x y l1 l2 Hxy F IH]; intros H; [destruct H|].
  destruct H as [<-|H]; [exists y; simpl; auto|].
  destruct (IH H) as (b&Hb&Hr). exists b. simpl. auto.
Qed.

Lemma range_eqb_refl (r : string * string) : range_eqb r r = true.
Proof. unfold range_eqb. now rewrite !String.eqb_refl. Qed.

Lemma has_range_iff (r : string * string) (s : Session) :
  has_range r s = true
  <-> start_time s = Some (fst r) /\ end_time s = Some (snd r).
Proof.
  unfold has_range. now rewrite andb_true_iff, !opt_str_eqb_Some.
Qed.

Lemma has_range_with_slot (r : string * string) (b : Session) (slot : TimeSlot) :
  start_time b = Some (slot_start_time slot) ->
  end_time b = Some (slot_end_time slot) ->
  has_range r (with_slot b slot) = range_eqb (range_of slot) r.
Proof.
  intros Hs He. unfold has_range, range_eqb, range_of. simpl.
  rewrite Hs, He. reflexivity.
Qed.

Lemma fills_time_slots (sessions l1 : list Session) (l2 : list TimeSlot) :
  Forall2 (fills sessions) l1 l2 ->
  map time_slot l1 = map (fun slot => Some (slot_id slot)) l2.
Proof.
  induction 1 as [|p slot l1 l2 (b&_&->&_) _ IH]; [reflexivity|].
  simpl. now rewrite IH.
Qed.

Section Filling.
Variable self : SchedulingAlgorithm.t.
Variable sessions : list Session.
Variable date : string.
Hypothesis ids_distinct : NoDup (map session_id sessions).
Hypothesis scores_above_minus_one : forall s, In s sessions -> (-1 < score s)%Q.

(** No more slots of a range than sessions of that range. *)
Lemma slots_of_range_length (r : string * string) :
  (List.length
     (filter (fun slot => range_eqb (range_of slot) r)
        (SchedulingAlgorithm._generate_time_slots self sessions date))
   <= List.length (filter (has_range r) sessions))%nat.
Proof.
  rewrite generate_time_slots_spec.
  eapply Nat.le_trans; [apply subseq_filter_length, slice_to_subseq|].
  set (ranges := sorted pair_leb (SchedulingAlgorithm.session_times sessions)).
  destruct (accepted_invariant self date ranges) as (Hsub&_).
  rewrite <- (filter_map_length (fun q => range_eqb q r) range_of).
  eapply Nat.le_trans; [apply subseq_filter_length, Hsub|].
  unfold ranges.
  rewrite (Permutation_filter_length _ _ _ (sorted_perm pair_leb _)).
  rewrite session_times_spec, filter_map_length, filter_filter_length.
  apply filter_length_mono. intros s _ H.
  apply andb_true_iff in H as (T&H). apply andb_true_iff in T as (Ts&Te).
  apply andb_true_iff in H as (Hs&He). simpl in Hs, He.
  apply String.eqb_eq in Hs, He. apply has_range_iff.
  destruct (start_time s) as [a|]; [|discriminate].
  destruct (end_time s) as [b|]; [|discriminate].
  simpl in Hs, He. now subst.
Qed.

Lemma filled_prefix (pre post : list TimeSlot) :
  SchedulingAlgorithm._generate_time_slots self sessions date = pre ++ post ->
  Forall2 (fills sessions) (fst (assigned sessions pre)) pre.
Proof.
  revert post. induction pre as [|slot pre IH] using rev_ind; intros post E.
  - constructor.
  - rewrite <- app_assoc in E. specialize (IH _ E).
    rewrite assigned_snoc. unfold SchedulingAlgorithm.primary_step.
    pose proof (assigned_used sessions pre) as (Hused&Hnd).
    destruct (assigned sessions pre) as [prim used]. simpl in IH, Hused, Hnd.
    destruct (best_for_slot_choice sessions scores_above_minus_one slot used)
      as [(Hnone&_)|(best&->&Hbest)].
    + exfalso. set (r := range_of slot).
      assert (HA : forall s, In s (filter (has_range r) sessions) ->
                             In (session_id s)
                                (map session_id (filter (has_range r) prim))).
      { intros s Hs. apply filter_In in Hs as (Hs&Hr).
        assert (eligible used slot s = false) as El.
        { destruct (eligible used slot s) eqn:El; [|reflexivity].
          assert (In s (filter (eligible used slot) sessions)) as Hin
            by (apply filter_In; auto).
          rewrite Hnone in Hin. destruct Hin. }
        apply has_range_iff in Hr as (Hst&Hen).
        assert (In (session_id s) used) as Hu.
        { destruct (BackupGenerator.id_in (session_id s) used) eqn:U;
            [now apply id_in_iff in U|].
          exfalso. apply not_true_iff_false in El, U. apply El.
          apply eligible_iff. rewrite <- id_in_iff. auto. }
        rewrite Hused, <- in_rev in Hu.
        apply in_map_iff in Hu as (p&Hid&Hp).
        apply in_map_iff. exists p. split; [exact Hid|].
        apply filter_In. split; [exact Hp|].
        destruct (Forall2_In_left _ _ _ _ IH Hp) as (slot'&_&b&Hb&->&Hbs&Hbe).
        assert (b = s) as ->
          by (apply (NoDup_map_eq session_id sessions); assumption).
        apply has_range_iff. simpl. auto. }
      assert (LA : (List.length (filter (has_range r) sessions)
                    <= List.length (filter (has_range r) prim))%nat).
      { rewrite <- (length_map session_id (filter (has_range r) sessions)).
        rewrite <- (length_map session_id (filter (has_range r) prim)).
        apply NoDup_incl_length.
        - eapply subseq_NoDup; [apply subseq_map, subseq_filter|exact ids_distinct].
        - intros i Hi. apply in_map_iff in Hi as (s&<-&Hs). now apply HA. }
      assert (LB : List.length (filter (has_range r) prim)
                   = List.length
                       (filter (fun slot' => range_eqb (range_of slot') r) pre)).
      { apply (Forall2_filter_length (fills sessions)); [|exact IH].
        intros p slot' (b&_&->&Hbs&Hbe). now apply has_range_with_slot. }
      pose proof (slots_of_range_length r) as LS.
      rewrite E, !filter_app, !length_app in LS. simpl filter in LS.
      unfold r in LS at 2. rewrite range_eqb_refl in LS. simpl in LS.
      fold r in LS. lia.
    + simpl fst. apply Forall2_app; [exact IH|]. constructor; [|constructor].
      destruct Hbest as (before&after&Hc&_).
      assert (In best (filter (eligible used slot) sessions)) as Hb
        by (rewrite Hc; apply in_or_app; right; now left).
      apply filter_In in Hb as (Hin&Hel). apply eligible_iff in Hel as (_&Hs&He).
      exists best. auto.
Qed.
End Filling.

(** X21.  When the sessions have pairwise distinct ids and scores above
    -1, the primary assigner fills every slot built from them: the
    primaries correspond one to one, in order, to the slots, each a session
    of the list with exactly the times of its slot.  In particular a day has
    as many assigned primaries as slots. *)
Theorem every_slot_gets_a_primary
    (self : SchedulingAlgorithm.t) (sessions : list Session) (date : string) :
  NoDup (map session_id sessions) ->
  (forall s, In s sessions -> (-1 < score s)%Q) ->
  let slots := SchedulingAlgorithm._generate_time_slots self sessions date in
  let primary := SchedulingAlgorithm._schedule_primary_sessions self sessions slots in
  Forall2 (fills sessions) primary slots
  /\ map time_slot primary = map (fun slot => Some (slot_id slot)) slots
  /\ List.length primary = List.length slots
  /\ List.length (assigned_primaries self sessions date)
     = List.length (day_slots self sessions date).
Proof.
  intros N Sc. cbv zeta.
  assert (F : forall l, NoDup (map session_id l) ->
                (forall s, In s l -> (-1 < score s)%Q) ->
                Forall2 (fills l)
                  (SchedulingAlgorithm._schedule_primary_sessions self l
                     (SchedulingAlgorithm._generate_time_slots self l date))
                  (SchedulingAlgorithm._generate_time_slots self l date)).
  { intros l Nl Sl.
    apply (filled_prefix self l date Nl Sl _ []). now rewrite app_nil_r. }
  pose proof (F sessions N Sc) as F1.
  split; [exact F1|]. split; [|split].
  - apply (fills_time_slots sessions), F1.
  - apply (Forall2_length F1).
  - unfold assigned_primaries, day_slots.
    eapply Forall2_length.
    apply (F (sorted SessionScorer.score_desc sessions)).
    + eapply Permutation_NoDup; [|exact N].
      apply Permutation_map, Permutation_sym, sorted_perm.
    + intros s Hs. apply Sc. now apply sorted_In in Hs.
Qed.

Lemma every_slot_gets_a_primary_witness :
  List.length
    (SchedulingAlgorithm._schedule_primary_sessions Scenario.algorithm
       Scenario.morning
       (SchedulingAlgorithm._generate_time_slots Scenario.algorithm
          Scenario.morning "2025-12-01"))
  = List.length
      (SchedulingAlgorithm._generate_time_slots Scenario.algorithm
         Scenario.morning "2025-12-01").
Proof.
  apply (every_slot_gets_a_primary Scenario.algorithm Scenario.morning
           "2025-12-01").
  - repeat constructor; simpl; intuition discriminate.
  - intros s [<-|[<-|[<-|[]]]]; reflexivity.
Defined.
